(** * HourPercentClock: the time-statistics calculator, the birthday file
      and the windows

    A shallow embedding of [compute_time_stats],
    [load_birthdate_from_config], [save_birthdate_to_config], the ring
    widget and the main window of [HourPercentClock_en.py] and
    [NEW_qt_hour_percent_clock_release.py].

    - Python [int] is [Z].
    - Python [float] is the rational it denotes; every float operation is
      the exact operation followed by [round_b64], rounding to the nearest
      binary64 number (53-bit significand, ties to even, gradual underflow).
      Overflow to infinity is not represented: the magnitudes reached by
      the program stay below 2^22.
    - [datetime.date] / [datetime.datetime] are records of their fields,
      with CPython's proleptic Gregorian ordinal.
    - The clock and the configuration file form an explicit [World]
      threaded through a small state-and-exception monad; the file is
      represented by what [os.path.exists], [open] and [json.load] do
      with it.
    - A Qt object is the part of its state that the Python code sets; a
      [paintEvent] is the list of its painter calls; a method of a window
      is a function of the window and the world; [strftime] is a
      parameter; [app.exec()] delivers a list of signals, each at its
      own time. *)

From stdpp Require Import gmap strings pretty.
From Stdlib Require Import ZArith QArith Qround Qpower Qabs Lia Lqa.

Local Open Scope Z_scope.

(** ** Binary64 rounding on rationals *)

Module Float.

Local Open Scope Q_scope.

Definition float := Q.

Definition pow2 (e : Z) : Q := (2 # 1) ^ e.

(** floor (log2 x) for [0 < x]. *)
Definition ilog2 (x : Q) : Z :=
  let l := (Z.log2 (Qnum x) - Z.log2 (Zpos (Qden x)))%Z in
  if Qle_bool (pow2 l) x then l else (l - 1)%Z.

(** Round a rational to the nearest integer, ties to even. *)
Definition rne (q : Q) : Z :=
  let f := Qfloor q in
  match Qcompare (q - inject_Z f) (1 # 2) with
  | Lt => f
  | Gt => (f + 1)%Z
  | Eq => if Z.even f then f else (f + 1)%Z
  end.

Definition prec : Z := 53.
Definition emin : Z := (-1074).

(** Exponent of the unit in the last place of [x], for [0 < x]. *)
Definition cexp (x : Q) : Z := Z.max (ilog2 x - (prec - 1)) emin.

Definition round_pos (x : Q) : Q :=
  let e := cexp x in
  Qred (inject_Z (rne (x * pow2 (- e))) * pow2 e).

Definition round_b64 (x : Q) : float :=
  match Qnum x with
  | Z0 => 0
  | Zpos _ => round_pos x
  | Zneg _ => - round_pos (- x)
  end.

(** [float(n)] for an [int] operand of a mixed operation. *)
Definition float_of_int (n : Z) : float := round_b64 (inject_Z n).

Definition fadd (a b : float) : float := round_b64 (a + b).
Definition fmul (a b : float) : float := round_b64 (a * b).

(** [a / b] on floats and [n / m] on ints (true division, correctly
    rounded), for a non-zero divisor; the zero test is in [Py.truediv]. *)
Definition fdiv (a b : float) : float := round_b64 (a / b).
Definition int_truediv (n m : Z) : float := round_b64 (inject_Z n / inject_Z m).

(** [math.ceil]. *)
Definition ceil (x : float) : Z := Qceiling x.

End Float.

(** ** [datetime.date] and [datetime.datetime] *)

Module Calendar.

Record date := mkdate { year : Z; month : Z; day : Z }.

Record datetime := mkdatetime {
  dt_year : Z; dt_month : Z; dt_day : Z;
  hour : Z; minute : Z; second : Z; microsecond : Z }.

(** [now.date()] *)
Definition datetime_date (t : datetime) : date :=
  mkdate (dt_year t) (dt_month t) (dt_day t).

Definition MINYEAR : Z := 1.
Definition MAXYEAR : Z := 9999.

Definition is_leap (y : Z) : bool :=
  (y mod 4 =? 0) && (negb (y mod 100 =? 0) || (y mod 400 =? 0)).

Definition days_in_month (y m : Z) : Z :=
  match m with
  | 1 => 31 | 2 => if is_leap y then 29 else 28 | 3 => 31 | 4 => 30
  | 5 => 31 | 6 => 30 | 7 => 31 | 8 => 31 | 9 => 30 | 10 => 31
  | 11 => 30 | 12 => 31
  | _ => 0
  end.

Definition days_before_year (y : Z) : Z :=
  let y1 := y - 1 in y1 * 365 + y1 / 4 - y1 / 100 + y1 / 400.

Definition days_before_month (y m : Z) : Z :=
  match m with
  | 1 => 0 | 2 => 31 | 3 => 59 | 4 => 90 | 5 => 120 | 6 => 151
  | 7 => 181 | 8 => 212 | 9 => 243 | 10 => 273 | 11 => 304 | 12 => 334
  | _ => 0
  end + (if (2 <? m) && is_leap y then 1 else 0).

(** [d.toordinal()]: 0001-01-01 is day 1. *)
Definition toordinal (d : date) : Z :=
  days_before_year (year d) + days_before_month (year d) (month d) + day d.

(** The values the [date] constructor accepts. *)
Definition valid_date (d : date) : bool :=
  (MINYEAR <=? year d) && (year d <=? MAXYEAR) &&
  (1 <=? month d) && (month d <=? 12) &&
  (1 <=? day d) && (day d <=? days_in_month (year d) (month d)).

Definition valid_datetime (t : datetime) : bool :=
  valid_date (datetime_date t) &&
  (0 <=? hour t) && (hour t <? 24) &&
  (0 <=? minute t) && (minute t <? 60) &&
  (0 <=? second t) && (second t <? 60) &&
  (0 <=? microsecond t) && (microsecond t <? 1000000).

(** Dates compare as the tuples (year, month, day). *)
Definition date_cmp (a b : date) : comparison :=
  match year a ?= year b with
  | Eq => match month a ?= month b with
          | Eq => day a ?= day b
          | c => c
          end
  | c => c
  end.

Definition date_le (a b : date) : bool :=
  match date_cmp a b with Gt => false | _ => true end.

Definition date_gt (a b : date) : bool :=
  match date_cmp a b with Gt => true | _ => false end.

(** The calendar day after [d] (used only to say what a day count means). *)
Definition next_day (d : date) : date :=
  if day d <? days_in_month (year d) (month d)
  then mkdate (year d) (month d) (day d + 1)
  else if month d <? 12
       then mkdate (year d) (month d + 1) 1
       else mkdate (year d + 1) 1 1.

End Calendar.

(** ** The Python run-time the two programs use *)

Module Py.

Import Float Calendar.

Inductive exn :=
| ZeroDivisionError | OverflowError | ValueError | TypeError
| AttributeError | OSError | JSONDecodeError.

Inductive outcome (A : Type) :=
| Return (a : A)
| Raise (e : exn).
Arguments Return {A} a.
Arguments Raise {A} e.

(** Values [json.load] can return. *)
#[warnings="-register-all"]
Inductive pyvalue :=
| PNone
| PBool (b : bool)
| PInt (n : Z)
| PFloat (x : Q)
| PStr (s : string)
| PList (l : list pyvalue)
| PDict (d : gmap string pyvalue).

(** The configuration file next to the program, by what opening and
    parsing it does. *)
Inductive config_file :=
| Absent                    (* os.path.exists(path) is False *)
| Unreadable                (* the path exists, open() or read() raises *)
| Malformed                 (* json.load raises JSONDecodeError *)
| Parsed (data : pyvalue).  (* json.load returns data *)

Record World := mkWorld {
  clock : datetime;         (* what datetime.now() reads *)
  config : config_file;
  writable : bool }.        (* whether open(path, "w") succeeds *)

(** State over [World] with exceptions. *)
Definition M (A : Type) : Type := World -> outcome A * World.

Definition ret {A} (a : A) : M A := fun w => (Return a, w).

Definition raise {A} (e : exn) : M A := fun w => (Raise e, w).

Definition bind {A B} (c : M A) (k : A -> M B) : M B :=
  fun w => match c w with
           | (Return a, w') => k a w'
           | (Raise e, w') => (Raise e, w')
           end.

(** [try: c  except Exception: h] *)
Definition try_except {A} (c : M A) (h : exn -> M A) : M A :=
  fun w => match c w with
           | (Return a, w') => (Return a, w')
           | (Raise e, w') => h e w'
           end.

Declare Scope py_scope.
Delimit Scope py_scope with py.
Notation "x <- c ;; k" := (bind c (fun x => k))
  (at level 100, c at next level, right associativity) : py_scope.

Local Open Scope py_scope.

(** [datetime.now()] and [date.today()] read the clock. *)
Definition datetime_now : M datetime := fun w => (Return (clock w), w).
Definition date_today : M date := fun w => (Return (datetime_date (clock w)), w).

(** [n / m] on ints. *)
Definition truediv (n m : Z) : M float :=
  if m =? 0 then raise ZeroDivisionError else ret (int_truediv n m).

(** [a / b] on floats. *)
Definition float_truediv (a b : float) : M float :=
  if Qeq_bool b 0 then raise ZeroDivisionError else ret (fdiv a b).

(** [timedelta(days)] keeps |days| <= 999999999; only [.days] is used. *)
Definition timedelta (days : Z) : M Z :=
  if Z.abs days <=? 999999999 then ret days else raise OverflowError.

(** [(a - b).days] *)
Definition date_sub_days (a b : date) : M Z :=
  timedelta (toordinal a - toordinal b).

(** [isinstance(x, int)]: [bool] is a subclass of [int]. *)
Definition isinstance_int (x : pyvalue) : bool :=
  match x with
  | PInt _ | PBool _ => true
  | _ => false
  end.

(** The integer an argument of [date(...)] denotes. *)
Definition as_index (x : pyvalue) : M Z :=
  match x with
  | PInt n => ret n
  | PBool b => ret (if b then 1 else 0)
  | _ => raise TypeError
  end.

(** [date(y, m, d)] *)
Definition date_new (y m d : pyvalue) : M date :=
  y' <- as_index y ;;
  m' <- as_index m ;;
  d' <- as_index d ;;
  if (Z.abs y' <? 2 ^ 31) && (Z.abs m' <? 2 ^ 31) && (Z.abs d' <? 2 ^ 31)
  then if valid_date (mkdate y' m' d')
       then ret (mkdate y' m' d')
       else raise ValueError
  else raise OverflowError.

(** [data.get(key)]: only a dict has [get]. *)
Definition py_get (data : pyvalue) (key : string) : M pyvalue :=
  match data with
  | PDict d => ret (default PNone (d !! key))
  | _ => raise AttributeError
  end.

(** [os.path.exists(cfg_path)] *)
Definition path_exists : M bool :=
  fun w => (Return (match config w with Absent => false | _ => true end), w).

(** [with open(cfg_path, "r", encoding="utf-8") as f: data = json.load(f)] *)
Definition json_load_config : M pyvalue :=
  fun w => match config w with
           | Absent | Unreadable => (Raise OSError, w)
           | Malformed => (Raise JSONDecodeError, w)
           | Parsed data => (Return data, w)
           end.

(** [with open(cfg_path, "w", encoding="utf-8") as f: json.dump(data, f, ...)] *)
Definition json_dump_config (data : pyvalue) : M unit :=
  fun w => if writable w
           then (Return tt, mkWorld (clock w) (Parsed data) (writable w))
           else (Raise OSError, w).

End Py.

(** ** The result of [compute_time_stats]

    The tuple [(now, hour_pct, day_pct, days_alive, next_hundred,
    days_to_next)]. *)

Record TimeStats := mkTimeStats {
  now : Calendar.datetime;
  hour_pct : Float.float;
  day_pct : Float.float;
  days_alive : Z;
  next_hundred : Z;
  days_to_next : Z }.

(** ** HourPercentClock_en.py *)

Module En.

Import Float Calendar Py.
Local Open Scope py_scope.

Definition load_birthdate_from_config : M (option date) :=
  ex <- path_exists ;;
  if negb ex then ret None
  else
    try_except
      (data <- json_load_config ;;
       y <- py_get data "year" ;;
       m <- py_get data "month" ;;
       d <- py_get data "day" ;;
       if forallb isinstance_int [y; m; d]
       then bd <- date_new y m d ;;
            today <- date_today ;;
            if date_le bd today then ret (Some bd) else ret None
       else ret None)
      (fun _ => ret None).

Definition save_birthdate_to_config (birthdate : date) : M unit :=
  let data :=
    PDict (<["year" := PInt (year birthdate)]>
          (<["month" := PInt (month birthdate)]>
          (<["day" := PInt (day birthdate)]> ∅))) in
  try_except (json_dump_config data) (fun _ => ret tt).

Definition compute_time_stats (birthdate : date) : M TimeStats :=
  now <- datetime_now ;;
  (* Hour percent *)
  frac <- truediv (microsecond now) 1000000 ;;
  let sec_in_hour :=
    fadd (float_of_int (minute now * 60 + second now)) frac in
  h <- float_truediv sec_in_hour (float_of_int 3600) ;;
  let hour_pct := fmul h (100 # 1) in
  (* Day percent *)
  frac <- truediv (microsecond now) 1000000 ;;
  let sec_in_day :=
    fadd (float_of_int (hour now * 3600 + minute now * 60 + second now)) frac in
  d <- float_truediv sec_in_day (float_of_int 86400) ;;
  let day_pct := fmul d (100 # 1) in
  (* Days alive *)
  days <- date_sub_days (datetime_date now) birthdate ;;
  let days_alive := if days <? 0 then 0 else days in
  (* Next hundred milestone *)
  next_hundred <-
    (if days_alive =? 0 then ret 100
     else q <- truediv days_alive 100 ;;
          let next_hundred := ceil q * 100 in
          ret (if next_hundred =? days_alive
               then next_hundred + 100 else next_hundred)) ;;
  let days_to_next := Z.max 0 (next_hundred - days_alive) in
  ret (mkTimeStats now hour_pct day_pct days_alive next_hundred days_to_next).

End En.

(** ** NEW_qt_hour_percent_clock_release.py *)

Module Release.

Import Float Calendar Py.
Local Open Scope py_scope.

Definition load_birthdate_from_config : M (option date) :=
  ex <- path_exists ;;
  if negb ex then ret None
  else
    try_except
      (data <- json_load_config ;;
       y <- py_get data "year" ;;
       m <- py_get data "month" ;;
       d <- py_get data "day" ;;
       if negb (forallb isinstance_int [y; m; d]) then ret None
       else bd <- date_new y m d ;;
            today <- date_today ;;
            if date_gt bd today then ret None
            else ret (Some bd))
      (fun _ => ret None).

Definition save_birthdate_to_config (birthdate : date) : M unit :=
  let data :=
    PDict (<["year" := PInt (year birthdate)]>
          (<["month" := PInt (month birthdate)]>
          (<["day" := PInt (day birthdate)]> ∅))) in
  try_except (json_dump_config data) (fun _ => ret tt).

Definition compute_time_stats (birthdate : date) : M TimeStats :=
  now <- datetime_now ;;
  frac <- truediv (microsecond now) 1000000 ;;
  let sec_in_hour :=
    fadd (float_of_int (minute now * 60 + second now)) frac in
  h <- float_truediv sec_in_hour (3600 # 1) ;;
  let hour_pct := fmul h (100 # 1) in
  frac <- truediv (microsecond now) 1000000 ;;
  let sec_in_day :=
    fadd (float_of_int (hour now * 3600 + minute now * 60 + second now)) frac in
  d <- float_truediv sec_in_day (86400 # 1) ;;
  let day_pct := fmul d (100 # 1) in
  days <- date_sub_days (datetime_date now) birthdate ;;
  let days_alive := if days <? 0 then 0 else days in
  next_hundred <-
    (if days_alive =? 0 then ret 100
     else q <- truediv days_alive 100 ;;
          let next_hundred := ceil q * 100 in
          ret (if next_hundred =? days_alive
               then next_hundred + 100 else next_hundred)) ;;
  let days_to_next := Z.max 0 (next_hundred - days_alive) in
  ret (mkTimeStats now hour_pct day_pct days_alive next_hundred days_to_next).

End Release.

(** ** The specification's formulas

    Written from the specification's sentences, to be compared with what
    the programs compute. *)

Module Spec.

Import Float Calendar Py.

(** Fractional seconds of a timestamp, from its microseconds. *)
Definition fractional_seconds (us : Z) : float := int_truediv us 1000000.

(** (minutes * 60 + seconds + fractional seconds) / 3600 * 100 *)
Definition hour_pct (m s : Z) (f : float) : float :=
  fmul (fdiv (fadd (float_of_int (m * 60 + s)) f) (3600 # 1)) (100 # 1).

(** (hours * 3600 + minutes * 60 + seconds + fractional seconds) / 86400 * 100 *)
Definition day_pct (h m s : Z) (f : float) : float :=
  fmul (fdiv (fadd (float_of_int (h * 3600 + m * 60 + s)) f) (86400 # 1)) (100 # 1).

(** The same two formulas over the rationals, with no rounding. *)
Definition exact_hour_pct (m s us : Z) : Q :=
  ((inject_Z (m * 60 + s) + inject_Z us / 1000000) / 3600 * 100)%Q.

Definition exact_day_pct (h m s us : Z) : Q :=
  ((inject_Z (h * 3600 + m * 60 + s) + inject_Z us / 1000000) / 86400 * 100)%Q.

(** [n] rounded up to the nearest multiple of 100. *)
Definition round_up_100 (n : Z) : Z := 100 * ((n + 99) / 100).

(** The read policy of the configuration file: a date only for a JSON
    object whose [year], [month] and [day] are integers forming a calendar
    date not after [today]; "no configuration" otherwise. *)
Definition config_date (c : config_file) (today : date) : option date :=
  match c with
  | Parsed (PDict d) =>
      match d !! "year", d !! "month", d !! "day" with
      | Some (PInt y), Some (PInt m), Some (PInt dd) =>
          if valid_date (mkdate y m dd) && date_le (mkdate y m dd) today
          then Some (mkdate y m dd) else None
      | _, _, _ => None
      end
  | _ => None
  end.

End Spec.

(** ** Auxiliary forms

    The milestone as both programs compute it from the clamped day count
    (the [if days_alive == 0 ... else ...] block). *)

Definition milestone (days_alive : Z) : Z :=
  if days_alive =? 0 then 100
  else let nh := Float.ceil (Float.int_truediv days_alive 100) * 100 in
       if nh =? days_alive then nh + 100 else nh.

(** Whether none of the three fields of a parsed configuration is a JSON
    [true] or [false]. *)
Definition is_bool (v : option Py.pyvalue) : bool :=
  match v with Some (Py.PBool _) => true | _ => false end.

Definition no_boolean_field (c : Py.config_file) : bool :=
  match c with
  | Py.Parsed (Py.PDict d) =>
      negb (is_bool (d !! "year")) && negb (is_bool (d !! "month"))
      && negb (is_bool (d !! "day"))
  | _ => true
  end.

(** ** A concrete run: 2024-03-01 12:30:00, born 2024-02-01 *)

Definition scenario_world : Py.World :=
  Py.mkWorld (Calendar.mkdatetime 2024 3 1 12 30 0 0) Py.Absent true.

Definition scenario_birthdate : Calendar.date := Calendar.mkdate 2024 2 1.

(** The file [{"year": y, "month": 1, "day": 1}]. *)
Definition year_file (y : Py.pyvalue) : Py.config_file :=
  Py.Parsed (Py.PDict (<["year" := y]>
                      (<["month" := Py.PInt 1]>
                      (<["day" := Py.PInt 1]> ∅)))).

(** The same instant with the file [{"year": true, "month": 1, "day": 1}]. *)
Definition boolean_year_world : Py.World :=
  Py.mkWorld (Calendar.mkdatetime 2024 3 1 12 30 0 0)
    (year_file (Py.PBool true)) true.

(** ** Builtins of Python the windows use

    [int] on a float truncates toward zero; [min] and [max] return their
    first argument on a tie; [format(x, "0.2f")] rounds the exact value of
    the float to two decimals, ties to even. *)

Module Builtins.
Import Float Calendar Py.

Definition py_int (x : float) : Z :=
  if Qle_bool 0 x then Qfloor x else Qceiling x.

Definition py_min (a b : Q) : Q := if Qle_bool a b then a else b.
Definition py_max (a b : Q) : Q := if Qle_bool b a then a else b.

Definition fsub (a b : float) : float := round_b64 (a - b).

Definition weekday (d : date) : Z := (toordinal d + 6) mod 7.

Definition str (n : Z) : string := pretty n.

Definition two_digits (k : Z) : string :=
  if k <? 10 then "0" +:+ pretty k else pretty k.

Definition format_2f (x : Q) : string :=
  let n := rne (Qabs x * 100) in
  (if Qle_bool 0 x then EmptyString else "-")
  +:+ pretty (n / 100) +:+ "." +:+ two_digits (n mod 100).

(** The integer an [int] instance denotes: [True] is 1, [False] is 0. *)
Definition int_value (x : pyvalue) : option Z :=
  match x with
  | PInt n => Some n
  | PBool b => Some (if b then 1 else 0)
  | _ => None
  end.

End Builtins.

(** ** The Qt objects the windows use

    Each object is the part of its state that the Python code sets:
    a label's text and hidden flag, a progress bar's range and value,
    a rectangle's
    coordinates, and the painter calls of one [paintEvent] in order. *)

Module Qt.

Import Float Builtins.

Record QRectF := mkQRectF { rx : float; ry : float; rwidth : float; rheight : float }.

Record QRect := mkQRect { ix : Z; iy : Z; iwidth : Z; iheight : Z }.

(** [r.adjusted(dx1, dy1, dx2, dy2)]:
    [QRectF(x + dx1, y + dy1, w + dx2 - dx1, h + dy2 - dy1)]. *)
Definition adjusted (r : QRectF) (dx1 dy1 dx2 dy2 : float) : QRectF :=
  mkQRectF (fadd (rx r) dx1) (fadd (ry r) dy1)
           (fsub (fadd (rwidth r) dx2) dx1) (fsub (fadd (rheight r) dy2) dy1).

Inductive paint_command :=
| SetRenderHint (hint : string) (on : bool)
| SetPen (color : string) (width : Z)     (* setPen(QPen(QColor(color), width)) *)
| SetPenColor (color : string)            (* setPen(QColor(color)) *)
| DrawEllipse (r : QRectF)
| DrawArc (r : QRectF) (startAngle spanAngle : Z)
| SetFont (pointSize : Z) (bold : bool)
| DrawText (r : QRect) (flags : string) (text : string).

(** The arcs, ellipses and texts among the calls of a [paintEvent]. *)
Definition drawn_arcs (cmds : list paint_command) : list (QRectF * Z * Z) :=
  omap (fun c => match c with DrawArc r a s => Some (r, a, s) | _ => None end) cmds.

Definition drawn_ellipses (cmds : list paint_command) : list QRectF :=
  omap (fun c => match c with DrawEllipse r => Some r | _ => None end) cmds.

Definition drawn_texts (cmds : list paint_command) : list string :=
  omap (fun c => match c with DrawText _ _ t => Some t | _ => None end) cmds.

Record QLabel := mkQLabel { text : string; hidden : bool }.

Definition setText (s : string) (l : QLabel) : QLabel := mkQLabel s (hidden l).
Definition hide (l : QLabel) : QLabel := mkQLabel (text l) true.
Definition show (l : QLabel) : QLabel := mkQLabel (text l) false.

Record QProgressBar := mkQProgressBar { minimum : Z; maximum : Z; value : Z }.

(** [bar.setValue(v)]: no effect for [v] outside the range, unless the
    range is (0, 0). *)
Definition setValue (v : Z) (b : QProgressBar) : QProgressBar :=
  if ((maximum b <? v) || (v <? minimum b))
     && negb ((maximum b =? 0) && (minimum b =? 0))
  then b
  else mkQProgressBar (minimum b) (maximum b) v.

End Qt.

(** ** Methods of a window: state over the window and the world

    A method reads and writes the attributes of [self] (a [W]) and may
    call the module-level functions, which act on the [World]. *)

Module UI.

Import Py.

Inductive error :=
| PyError (e : exn)      (* raised by a module-level function *)
| IndexError.

Inductive result (A : Type) :=
| Ok (a : A)
| Err (e : error).
Arguments Ok {A} a.
Arguments Err {A} e.

Definition Slot (W A : Type) : Type := W -> World -> result A * W * World.

Definition sret {W A} (a : A) : Slot W A := fun self w => (Ok a, self, w).

Definition sbind {W A B} (c : Slot W A) (k : A -> Slot W B) : Slot W B :=
  fun self w => match c self w with
                | (Ok a, self', w') => k a self' w'
                | (Err e, self', w') => (Err e, self', w')
                end.

(** A call of a module-level function. *)
Definition call {W A} (c : M A) : Slot W A :=
  fun self w => match c w with
                | (Return a, w') => (Ok a, self, w')
                | (Raise e, w') => (Err (PyError e), self, w')
                end.

(** [self.attr] and [self.attr = v] (or a setter call on [self.attr]). *)
Definition gets {W A} (f : W -> A) : Slot W A := fun self w => (Ok (f self), self, w).
Definition modify {W} (f : W -> W) : Slot W unit := fun self w => (Ok tt, f self, w).

(** [l[i]] *)
Definition getitem {W A} (l : list A) (i : Z) : Slot W A :=
  fun self w =>
    let n := Z.of_nat (length l) in
    let j := if i <? 0 then n + i else i in
    match (if j <? 0 then None else l !! Z.to_nat j) with
    | Some a => (Ok a, self, w)
    | None => (Err IndexError, self, w)
    end.

(** The time of the next event: the clock moves, the files stay. *)
Definition at_time (t : Calendar.datetime) (w : World) : World :=
  mkWorld t (config w) (writable w).

Declare Scope slot_scope.
Delimit Scope slot_scope with slot.
Notation "x <~ c ;; k" := (sbind c (fun x => k))
  (at level 100, c at next level, right associativity) : slot_scope.

End UI.

(** ** HourPercentClock_en.py: the ring widget and the window *)

Module EnUI.

Import Float Calendar Py Builtins Qt UI.
Local Open Scope slot_scope.

Record HourCircleWidget := mkHourCircleWidget {
  _hour_percent : Q;
  _day_percent : Q;
  update_requested : bool }.       (* self.update() was called *)

(** [HourCircleWidget.__init__] *)
Definition HourCircleWidget_init : HourCircleWidget :=
  mkHourCircleWidget 0 0 false.

Definition setPercents (hour_pct day_pct : Q) (self : HourCircleWidget)
  : HourCircleWidget :=
  mkHourCircleWidget (py_max 0 (py_min 100 hour_pct))
                     (py_max 0 (py_min 100 day_pct))
                     true.

Definition sizeHint : Z * Z := (240, 240).

(** [paintEvent], for the [width] and [height] Qt reports: the painter
    calls in order. *)
Definition paintEvent (self : HourCircleWidget) (width height : Z)
  : list paint_command :=
  let w := width in
  let h := height in
  let margin := 8 in
  let side := Z.min w h - margin * 2 in
  if side <=? 0 then [SetRenderHint "Antialiasing" true]
  else
    let left := int_truediv (w - side) 2 in
    let top := int_truediv (h - side) 2 in
    let outer_rect := mkQRectF left top (float_of_int side) (float_of_int side) in
    let start_angle := 90 * 16 in
    let day_span :=
      py_int (fmul (float_of_int (-360 * 16))
                   (fdiv (_day_percent self) (float_of_int 100))) in
    let inner_margin := 16 in
    let inner_rect :=
      adjusted outer_rect (float_of_int inner_margin) (float_of_int inner_margin)
               (float_of_int (- inner_margin)) (float_of_int (- inner_margin)) in
    let hour_span :=
      py_int (fmul (float_of_int (-360 * 16))
                   (fdiv (_hour_percent self) (float_of_int 100))) in
    [ SetRenderHint "Antialiasing" true;
      SetPen "#d0d0d0" 8; DrawEllipse outer_rect;
      SetPen "#3498db" 8; DrawArc outer_rect start_angle day_span;
      SetPen "#e0e0e0" 10; DrawEllipse inner_rect;
      SetPen "#2ecc71" 10; DrawArc inner_rect start_angle hour_span;
      SetPenColor "#333"; SetFont 14 true;
      DrawText (mkQRect 0 0 w h) "AlignCenter"
               (format_2f (_hour_percent self) +:+ "%") ].

Record MainWindow := mkMainWindow {
  mode : string;
  birthdate : date;
  timeLabel : QLabel;
  circle : HourCircleWidget;
  hourText : QLabel;
  dayText : QLabel;
  dayBar : QProgressBar;
  remainingLabel : QLabel;
  livedLabel : QLabel;
  milestoneLabel : QLabel;
  birthLabel : QLabel;
  birthEdit_hidden : bool;       (* the QDateEdit, by its visibility *)
  toggleBtn : string }.          (* the QPushButton, by its text *)

Section Methods.

(** [now.strftime(format)], a function of the C library. *)
Variable strftime : string -> datetime -> string.

Definition updateClock : Slot MainWindow unit :=
  bd <~ gets birthdate ;;
  stats <~ call (En.compute_time_stats bd) ;;
  let now := now stats in
  let hour_pct := hour_pct stats in
  let day_pct := day_pct stats in
  let alive := days_alive stats in
  let left := days_to_next stats in
  weekday <~ getitem ["Mon"; "Tue"; "Wed"; "Thu"; "Fri"; "Sat"; "Sun"]
                     (weekday (datetime_date now)) ;;
  let iso_text := strftime ("%Y-%m-%d " +:+ weekday +:+ " %H:%M:%S") now in
  let remaining := fsub (100 # 1) day_pct in
  modify (fun self =>
    mkMainWindow
      (mode self) (birthdate self)
      (setText iso_text (timeLabel self))
      (setPercents hour_pct day_pct (circle self))
      (setText ("Hour Progress: " +:+ format_2f hour_pct +:+ "%") (hourText self))
      (setText ("Day Progress:  " +:+ format_2f day_pct +:+ "%") (dayText self))
      (setValue (py_int (fmul day_pct (float_of_int 100))) (dayBar self))
      (setText ("Remaining Today: " +:+ format_2f remaining +:+ "%")
               (remainingLabel self))
      (setText ("Days Alive: " +:+ str alive) (livedLabel self))
      (setText ("Next 100-Day Milestone: " +:+ str left +:+ " days left")
               (milestoneLabel self))
      (birthLabel self) (birthEdit_hidden self) (toggleBtn self)).

(** [onBirthChanged(qdate)], for the year, month and day of [qdate]. *)
Definition onBirthChanged (y m d : Z) : Slot MainWindow unit :=
  bd <~ call (date_new (PInt y) (PInt m) (PInt d)) ;;
  _ <~ modify (fun self =>
         mkMainWindow
           (mode self) bd (timeLabel self) (circle self) (hourText self)
           (dayText self) (dayBar self) (remainingLabel self) (livedLabel self)
           (milestoneLabel self) (birthLabel self) (birthEdit_hidden self)
           (toggleBtn self)) ;;
  _ <~ call (En.save_birthdate_to_config bd) ;;
  updateClock.

Definition toggleMode : Slot MainWindow unit :=
  m <~ gets mode ;;
  if String.eqb m "detailed"
  then modify (fun self =>
         mkMainWindow
           "compact" (birthdate self) (timeLabel self) (circle self)
           (hourText self) (dayText self) (dayBar self)
           (hide (remainingLabel self)) (hide (livedLabel self))
           (hide (milestoneLabel self)) (hide (birthLabel self)) true
           "Switch to Detailed Mode")
  else modify (fun self =>
         mkMainWindow
           "detailed" (birthdate self) (timeLabel self) (circle self)
           (hourText self) (dayText self) (dayBar self)
           (show (remainingLabel self)) (show (livedLabel self))
           (show (milestoneLabel self)) (show (birthLabel self)) false
           "Switch to Compact Mode").

(** The attributes that [MainWindow.__init__] assigns, for the birthday
    it found. *)
Definition attributes (bd : date) : MainWindow :=
  mkMainWindow
    "detailed"
    bd
    (mkQLabel "--:--:--" false)
    HourCircleWidget_init
    (mkQLabel "Hour Progress: 0.00%" false)
    (mkQLabel "Day Progress: 0.00%" false)
    (mkQProgressBar 0 10000 (-1))
    (mkQLabel "Remaining Today: 100.00%" false)
    (mkQLabel "Days Alive: 0" false)
    (mkQLabel "Next 100-Day Milestone: 0 days left" false)
    (mkQLabel "Your Birthday (YYYY-MM-DD):" false)
    false
    "Switch to Compact Mode".

(** [MainWindow()]: the window that [__init__] leaves. *)
Definition __init__ : World -> result MainWindow * World :=
  fun w =>
    match En.load_birthdate_from_config w with
    | (Return bd, w') =>
        let self := attributes (match bd with
                                | Some bd => bd
                                | None => mkdate 2001 11 14
                                end) in
        match updateClock self w' with
        | (Ok _, self', w'') => (Ok self', w'')
        | (Err e, _, w'') => (Err e, w'')
        end
    | (Raise e, w') => (Err (PyError e), w')
    end.

(** The signals that [__init__] connects, and their slots. *)
Inductive signal :=
| timeout                       (* self.timer, every second *)
| clicked                       (* the toggle button *)
| dateChanged (y m d : Z).      (* the date edit, with the new date *)

Definition slot (sg : signal) : Slot MainWindow unit :=
  match sg with
  | timeout => updateClock
  | clicked => toggleMode
  | dateChanged y m d => onBirthChanged y m d
  end.

(** [app.exec()]: the signals are delivered one after the other, each at
    its own time; an exception raised by a slot is reported and the loop
    goes on.  The result lists what each slot did. *)
Fixpoint exec (events : list (datetime * signal)) (self : MainWindow) (w : World)
  : list (result unit) * MainWindow * World :=
  match events with
  | [] => ([], self, w)
  | (t, sg) :: events' =>
      let '(r, self', w') := slot sg self (at_time t w) in
      let '(rs, self'', w'') := exec events' self' w' in
      (r :: rs, self'', w'')
  end.

(** [main()], for the signals that arrive until the application quits. *)
Definition main (events : list (datetime * signal)) (w : World)
  : option (list (result unit) * MainWindow) * World :=
  match __init__ w with
  | (Ok self, w') =>
      let '(rs, self', w'') := exec events self w' in (Some (rs, self'), w'')
  | (Err _, w') => (None, w')
  end.

End Methods.

End EnUI.

(** ** NEW_qt_hour_percent_clock_release.py: the ring widget and the window *)

Module ReleaseUI.

Import Float Calendar Py Builtins Qt UI.
Local Open Scope slot_scope.

Record HourCircleWidget := mkHourCircleWidget {
  _hour_percent : float;
  _day_percent : float;
  update_requested : bool }.      (* self.update() was called *)

(** [HourCircleWidget.__init__] *)
Definition HourCircleWidget_init : HourCircleWidget :=
  mkHourCircleWidget 0%Q 0%Q false.

Definition setPercents (hour_pct day_pct : float) (self : HourCircleWidget)
  : HourCircleWidget :=
  mkHourCircleWidget (py_max 0%Q (py_min (100 # 1) hour_pct))
                     (py_max 0%Q (py_min (100 # 1) day_pct))
                     true.

Definition sizeHint : Z * Z := (240, 240).

Definition paintEvent (self : HourCircleWidget) (width height : Z)
  : list paint_command :=
  let w := width in
  let h := height in
  let margin_outer := 8 in
  let side := Z.min w h - 2 * margin_outer in
  if side <=? 0 then [SetRenderHint "Antialiasing" true]
  else
    let left := int_truediv (w - side) 2 in
    let top := int_truediv (h - side) 2 in
    let outer_rect := mkQRectF left top (float_of_int side) (float_of_int side) in
    let outer_width := 8 in
    let start_deg := 90 in
    let start_angle := start_deg * 16 in
    let day_span_deg :=
      fmul (float_of_int (-360)) (fdiv (_day_percent self) (100 # 1)) in
    let day_span_angle := py_int (fmul day_span_deg (float_of_int 16)) in
    let inner_margin := 16 in
    let inner_rect :=
      adjusted outer_rect (float_of_int inner_margin) (float_of_int inner_margin)
               (float_of_int (- inner_margin)) (float_of_int (- inner_margin)) in
    let inner_width := 10 in
    let hour_span_deg :=
      fmul (float_of_int (-360)) (fdiv (_hour_percent self) (100 # 1)) in
    let hour_span_angle := py_int (fmul hour_span_deg (float_of_int 16)) in
    [ SetRenderHint "Antialiasing" true;
      SetPen "#e0e0e0" outer_width; DrawEllipse outer_rect;
      SetPen "#3498db" outer_width; DrawArc outer_rect start_angle day_span_angle;
      SetPen "#dddddd" inner_width; DrawEllipse inner_rect;
      SetPen "#2ecc71" inner_width; DrawArc inner_rect start_angle hour_span_angle;
      SetPenColor "#333333"; SetFont 14 true;
      DrawText (mkQRect 0 0 w h) "AlignCenter"
               (format_2f (_hour_percent self) +:+ "%") ].

Record MainWindow := mkMainWindow {
  mode : string;
  birthdate : date;
  timeLabel : QLabel;
  circle : HourCircleWidget;
  hourTextLabel : QLabel;
  dayTextLabel : QLabel;
  remainingLabel : QLabel;
  dayBar : QProgressBar;
  lifeLabel : QLabel;
  nextHundredLabel : QLabel;
  toggleButton : string;         (* the QPushButton, by its text *)
  detailFrame_hidden : bool }.   (* the frame around the details *)

Section Methods.

(** [now.strftime(format)], a function of the C library. *)
Variable strftime : string -> datetime -> string.

Definition updateClock : Slot MainWindow unit :=
  bd <~ gets birthdate ;;
  stats <~ call (Release.compute_time_stats bd) ;;
  let now := now stats in
  let hour_pct := hour_pct stats in
  let day_pct := day_pct stats in
  let days_alive := days_alive stats in
  let next_hundred := next_hundred stats in
  let days_to_next := days_to_next stats in
  weekday_cn <~ getitem ["一"; "二"; "三"; "四"; "五"; "六"; "日"]
                        (weekday (datetime_date now)) ;;
  let time_text := strftime ("%Y-%m-%d 周" +:+ weekday_cn +:+ "  %H:%M:%S") now in
  let remaining_pct := py_max 0%Q (fsub (100 # 1) day_pct) in
  modify (fun self =>
    mkMainWindow
      (mode self) (birthdate self)
      (setText time_text (timeLabel self))
      (setPercents hour_pct day_pct (circle self))
      (setText ("Hour: " +:+ format_2f hour_pct +:+ "%") (hourTextLabel self))
      (setText ("Day:  " +:+ format_2f day_pct +:+ "%") (dayTextLabel self))
      (setText ("今日剩余：" +:+ format_2f remaining_pct +:+ "%")
               (remainingLabel self))
      (setValue (py_int (fmul day_pct (float_of_int 100))) (dayBar self))
      (setText ("你已经在这个世界上待了： " +:+ str days_alive +:+ " 天") (lifeLabel self))
      (setText ("距离你人生的第 " +:+ str next_hundred +:+ " 天还有： "
                +:+ str days_to_next +:+ " 天") (nextHundredLabel self))
      (toggleButton self) (detailFrame_hidden self)).

Definition toggleMode : Slot MainWindow unit :=
  m <~ gets mode ;;
  if String.eqb m "detailed"
  then modify (fun self =>
         mkMainWindow
           "simple" (birthdate self) (timeLabel self) (circle self)
           (hourTextLabel self) (dayTextLabel self) (remainingLabel self)
           (dayBar self) (lifeLabel self) (nextHundredLabel self)
           "切换为详细模式" true)
  else modify (fun self =>
         mkMainWindow
           "detailed" (birthdate self) (timeLabel self) (circle self)
           (hourTextLabel self) (dayTextLabel self) (remainingLabel self)
           (dayBar self) (lifeLabel self) (nextHundredLabel self)
           "切换为简洁模式" false).

(** [onBirthdateChanged(qdate)], for the year, month and day of [qdate]. *)
Definition onBirthdateChanged (y m d : Z) : Slot MainWindow unit :=
  bd <~ call (date_new (PInt y) (PInt m) (PInt d)) ;;
  _ <~ modify (fun self =>
         mkMainWindow
           (mode self) bd (timeLabel self) (circle self) (hourTextLabel self)
           (dayTextLabel self) (remainingLabel self) (dayBar self)
           (lifeLabel self) (nextHundredLabel self) (toggleButton self)
           (detailFrame_hidden self)) ;;
  _ <~ call (Release.save_birthdate_to_config bd) ;;
  updateClock.

(** The attributes that [MainWindow.__init__] assigns, for the birthday
    it found. *)
Definition attributes (bd : date) : MainWindow :=
  mkMainWindow
    "detailed"
    bd
    (mkQLabel "--:--:--" false)
    HourCircleWidget_init
    (mkQLabel "Hour: 0.00%" false)
    (mkQLabel "Day: 0.00%" false)
    (mkQLabel "今日剩余：100.00%" false)
    (mkQProgressBar 0 10000 (-1))
    (mkQLabel "你已经在这个世界上待了：0 天" false)
    (mkQLabel "距离你人生的第 0 天还有：0 天" false)
    "切换为简洁模式"
    false.

(** [MainWindow()]: the window that [__init__] leaves. *)
Definition __init__ : World -> result MainWindow * World :=
  fun w =>
    match Release.load_birthdate_from_config w with
    | (Return loaded_birthdate, w') =>
        let self := attributes (match loaded_birthdate with
                                | Some bd => bd
                                | None => mkdate 2001 1 1
                                end) in
        match updateClock self w' with
        | (Ok _, self', w'') => (Ok self', w'')
        | (Err e, _, w'') => (Err e, w'')
        end
    | (Raise e, w') => (Err (PyError e), w')
    end.

(** The signals that [__init__] connects, and their slots. *)
Inductive signal :=
| timeout                       (* self.timer, every second *)
| clicked                       (* the toggle button *)
| dateChanged (y m d : Z).      (* the date edit, with the new date *)

Definition slot (sg : signal) : Slot MainWindow unit :=
  match sg with
  | timeout => updateClock
  | clicked => toggleMode
  | dateChanged y m d => onBirthdateChanged y m d
  end.

(** [app.exec()]: the signals are delivered one after the other, each at
    its own time; an exception raised by a slot is reported and the loop
    goes on.  The result lists what each slot did. *)
Fixpoint exec (events : list (datetime * signal)) (self : MainWindow) (w : World)
  : list (result unit) * MainWindow * World :=
  match events with
  | [] => ([], self, w)
  | (t, sg) :: events' =>
      let '(r, self', w') := slot sg self (at_time t w) in
      let '(rs, self'', w'') := exec events' self' w' in
      (r :: rs, self'', w'')
  end.

(** [main()], for the signals that arrive until the application quits. *)
Definition main (events : list (datetime * signal)) (w : World)
  : option (list (result unit) * MainWindow) * World :=
  match __init__ w with
  | (Ok self, w') =>
      let '(rs, self', w'') := exec events self w' in (Some (rs, self'), w'')
  | (Err _, w') => (None, w')
  end.

End Methods.

End ReleaseUI.

(** ** The loader in one equation

    What [load_birthdate_from_config] returns for the content [c] of the
    configuration file on the day [today]. *)

Definition loaded (c : Py.config_file) (today : Calendar.date) : option Calendar.date :=
  match c with
  | Py.Parsed (Py.PDict d) =>
      match Builtins.int_value (default Py.PNone (d !! "year")),
            Builtins.int_value (default Py.PNone (d !! "month")),
            Builtins.int_value (default Py.PNone (d !! "day")) with
      | Some y, Some m, Some dd =>
          if Calendar.valid_date (Calendar.mkdate y m dd)
             && Calendar.date_le (Calendar.mkdate y m dd) today
          then Some (Calendar.mkdate y m dd) else None
      | _, _, _ => None
      end
  | _ => None
  end.

(** ** The states a window is meant to be in

    The mode, the visibility of the detail widgets and the text of the
    toggle button go together, the birthday is a calendar date, and the
    progress bar has the range (0, 10000) and a value that it shows. *)

Definition En_mode_coherent (s : EnUI.MainWindow) : bool :=
  let details_hidden b :=
    Bool.eqb (Qt.hidden (EnUI.remainingLabel s)) b
    && Bool.eqb (Qt.hidden (EnUI.livedLabel s)) b
    && Bool.eqb (Qt.hidden (EnUI.milestoneLabel s)) b
    && Bool.eqb (Qt.hidden (EnUI.birthLabel s)) b
    && Bool.eqb (EnUI.birthEdit_hidden s) b in
  if String.eqb (EnUI.mode s) "detailed"
  then details_hidden false && String.eqb (EnUI.toggleBtn s) "Switch to Compact Mode"
  else String.eqb (EnUI.mode s) "compact" && details_hidden true
       && String.eqb (EnUI.toggleBtn s) "Switch to Detailed Mode".

Definition Release_mode_coherent (s : ReleaseUI.MainWindow) : bool :=
  if String.eqb (ReleaseUI.mode s) "detailed"
  then negb (ReleaseUI.detailFrame_hidden s)
       && String.eqb (ReleaseUI.toggleButton s) "切换为简洁模式"
  else String.eqb (ReleaseUI.mode s) "simple" && ReleaseUI.detailFrame_hidden s
       && String.eqb (ReleaseUI.toggleButton s) "切换为详细模式".

Definition bar_in_use (b : Qt.QProgressBar) : bool :=
  (Qt.minimum b =? 0) && (Qt.maximum b =? 10000)
  && (0 <=? Qt.value b) && (Qt.value b <=? 9999).

Definition En_settled (s : EnUI.MainWindow) : bool :=
  Calendar.valid_date (EnUI.birthdate s) && bar_in_use (EnUI.dayBar s)
  && En_mode_coherent s.

Definition Release_settled (s : ReleaseUI.MainWindow) : bool :=
  Calendar.valid_date (ReleaseUI.birthdate s) && bar_in_use (ReleaseUI.dayBar s)
  && Release_mode_coherent s.

(** An event that can reach the window: a time of the clock, and for a
    change of the date edit a calendar date. *)
Definition En_event_ok (e : Calendar.datetime * EnUI.signal) : bool :=
  Calendar.valid_datetime (fst e)
  && match snd e with
     | EnUI.dateChanged y m d => Calendar.valid_date (Calendar.mkdate y m d)
     | _ => true
     end.

Definition Release_event_ok (e : Calendar.datetime * ReleaseUI.signal) : bool :=
  Calendar.valid_datetime (fst e)
  && match snd e with
     | ReleaseUI.dateChanged y m d => Calendar.valid_date (Calendar.mkdate y m d)
     | _ => true
     end.

Definition is_Ok {A} (r : UI.result A) : bool :=
  match r with UI.Ok _ => true | UI.Err _ => false end.

(** ** Two more concrete runs *)

(** 2024-03-01 12:59:59.900000, a tenth of a second before the hour. *)
Definition end_of_hour_world : Py.World :=
  Py.mkWorld (Calendar.mkdatetime 2024 3 1 12 59 59 900000) Py.Absent true.

(** 2024-03-01 23:59:58, two seconds before midnight. *)
Definition end_of_day_world : Py.World :=
  Py.mkWorld (Calendar.mkdatetime 2024 3 1 23 59 58 0) Py.Absent true.

(** A [strftime] that leaves the format as it is. *)
Definition strftime_id (format : string) (t : Calendar.datetime) : string := format.

(** * Properties *)

(** ** Rounding: monotone, and the identity on binary64 numbers *)

Section FloatFacts.

Import Float.
Local Open Scope Q_scope.

Lemma pow2_pos e : 0 < pow2 e.
Proof. apply Qpower_0_lt. reflexivity. Qed.

Lemma pow2_add a b : pow2 (a + b) == pow2 a * pow2 b.
Proof. apply Qpower_plus. discriminate. Qed.

Lemma pow2_opp e : pow2 (- e) == / pow2 e.
Proof. apply Qpower_opp. Qed.

Lemma pow2_le a b : (a <= b)%Z -> pow2 a <= pow2 b.
Proof. intros H. apply Qpower_le_compat_l; [exact H | discriminate]. Qed.

Lemma pow2_lt a b : (a < b)%Z -> pow2 a < pow2 b.
Proof. intros H. apply Qpower_lt_compat_l; [exact H | reflexivity]. Qed.

Lemma pow2_lt_inv a b : pow2 a < pow2 b -> (a < b)%Z.
Proof. intros H. apply (Qpower_lt_compat_l_inv (2 # 1)); [exact H | reflexivity]. Qed.

Lemma pow2_Z n : (0 <= n)%Z -> pow2 n == inject_Z (2 ^ n).
Proof. intros H. unfold pow2. rewrite Zpower_Qpower by exact H. reflexivity. Qed.

Lemma pow2_cancel e : pow2 (- e) * pow2 e == 1.
Proof.
  rewrite <- pow2_add. replace (- e + e)%Z with 0%Z by lia. reflexivity.
Qed.


Lemma Qdiv_lt_bound A B PA PB :
  0 <= A -> A < PA -> 0 < PB -> PB <= B -> A / B < PA / PB.
Proof.
  intros HA HAP HPB HB.
  assert (HB0 : 0 < B) by lra.
  apply Qlt_shift_div_r; [assumption|].
  assert (E : PA / PB * B == PA * B / PB) by (field; lra). rewrite E.
  apply Qlt_shift_div_l; [assumption|]. nra.
Qed.

Lemma Qdiv_gt_bound A B PA PB :
  0 < PA -> PA <= A -> 0 < B -> B < PB -> PA / PB < A / B.
Proof.
  intros HA HAP HB HBP.
  assert (HP0 : 0 < PB) by lra.
  apply Qlt_shift_div_r; [assumption|].
  assert (E : A / B * PB == A * PB / B) by (field; lra). rewrite E.
  apply Qlt_shift_div_l; [assumption|]. nra.
Qed.

Lemma Q_log2_bounds (x : Q) :
  0 < x ->
  let l := (Z.log2 (Qnum x) - Z.log2 (Zpos (Qden x)))%Z in
  pow2 (l - 1) < x /\ x < pow2 (l + 1).
Proof.
  intros Hx l.
  destruct x as [a b]. 
  assert (Ha : (0 < a)%Z) by (unfold Qlt in Hx; simpl in Hx; lia).
  unfold l; clear l. cbn [Qnum Qden].
  set (la := Z.log2 a). set (lb := Z.log2 (Z.pos b)).
  assert (Hla : (0 <= la)%Z) by apply Z.log2_nonneg.
  assert (Hlb : (0 <= lb)%Z) by apply Z.log2_nonneg.
  destruct (Z.log2_spec a Ha) as [Ha1 Ha2]. fold la in Ha1, Ha2.
  destruct (Z.log2_spec (Z.pos b) eq_refl) as [Hb1 Hb2]. fold lb in Hb1, Hb2.
  rewrite (Qmake_Qdiv a b).
  assert (P1 : 0 < pow2 la) by apply pow2_pos.
  assert (P2 : 0 < pow2 lb) by apply pow2_pos.
  assert (QA1 : pow2 la <= inject_Z a) by (rewrite pow2_Z by lia; rewrite <- Zle_Qle; exact Ha1).
  assert (QA2 : inject_Z a < pow2 (la + 1)).
  { rewrite pow2_Z by lia. rewrite <- Zlt_Qlt. replace (la + 1)%Z with (Z.succ la) by lia. exact Ha2. }
  assert (QB1 : pow2 lb <= inject_Z (Z.pos b)) by (rewrite pow2_Z by lia; rewrite <- Zle_Qle; exact Hb1).
  assert (QB2 : inject_Z (Z.pos b) < pow2 (lb + 1)).
  { rewrite pow2_Z by lia. rewrite <- Zlt_Qlt. replace (lb + 1)%Z with (Z.succ lb) by lia. exact Hb2. }
  assert (QB0 : 0 < inject_Z (Z.pos b)) by reflexivity.
  split.
  - replace (la - lb - 1)%Z with (la + - (lb + 1))%Z by lia.
    rewrite pow2_add, pow2_opp.
    apply (Qdiv_gt_bound (inject_Z a) (inject_Z (Z.pos b)) (pow2 la) (pow2 (lb + 1))); assumption.
  - replace (la - lb + 1)%Z with ((la + 1) + - lb)%Z by lia.
    rewrite pow2_add, pow2_opp.
    apply (Qdiv_lt_bound (inject_Z a) (inject_Z (Z.pos b)) (pow2 (la + 1)) (pow2 lb)); try assumption. lra.
Qed.

Lemma ilog2_spec x : 0 < x -> pow2 (ilog2 x) <= x /\ x < pow2 (ilog2 x + 1).
Proof.
  intros Hx. destruct (Q_log2_bounds x Hx) as [H1 H2]. unfold ilog2.
  set (l := (Z.log2 (Qnum x) - Z.log2 (Z.pos (Qden x)))%Z) in *.
  destruct (Qle_bool (pow2 l) x) eqn:E.
  - apply Qle_bool_iff in E. split; assumption.
  - assert (~ pow2 l <= x) by (rewrite <- Qle_bool_iff; congruence).
    split; [apply Qlt_le_weak; exact H1|].
    replace (l - 1 + 1)%Z with l by lia. apply Qnot_le_lt. assumption.
Qed.

Lemma ilog2_unique x e : pow2 e <= x -> x < pow2 (e + 1) -> ilog2 x = e.
Proof.
  intros H1 H2.
  assert (Hx : 0 < x) by (pose proof (pow2_pos e); lra).
  destruct (ilog2_spec x Hx) as [H3 H4].
  assert (ilog2 x < e + 1)%Z by (apply pow2_lt_inv; lra).
  assert (e < ilog2 x + 1)%Z by (apply pow2_lt_inv; lra).
  lia.
Qed.

Lemma ilog2_mono x y : 0 < x -> x <= y -> (ilog2 x <= ilog2 y)%Z.
Proof.
  intros Hx Hxy.
  destruct (ilog2_spec x Hx) as [H1 _].
  destruct (ilog2_spec y ltac:(lra)) as [_ H2].
  assert (ilog2 x < ilog2 y + 1)%Z by (apply pow2_lt_inv; lra).
  lia.
Qed.

Lemma rne_bounds q : (Qfloor q <= rne q <= Qfloor q + 1)%Z.
Proof.
  unfold rne. destruct (Qcompare _ _); try destruct (Z.even _); lia.
Qed.

Lemma rne_inject n : rne (inject_Z n) = n.
Proof.
  unfold rne. rewrite Qfloor_Z.
  assert (E : inject_Z n - inject_Z n < 1 # 2) by lra.
  rewrite Qlt_alt in E. rewrite E. reflexivity.
Qed.

Lemma Qfloor_eq q n : inject_Z n <= q -> q < inject_Z (n + 1) -> Qfloor q = n.
Proof.
  intros H1 H2.
  pose proof (Qfloor_le q). pose proof (Qlt_floor q).
  assert (inject_Z (Qfloor q) < inject_Z (n + 1)) by lra.
  assert (inject_Z n < inject_Z (Qfloor q + 1)) by lra.
  rewrite <- Zlt_Qlt in *. lia.
Qed.

Lemma rne_mono q1 q2 : q1 <= q2 -> (rne q1 <= rne q2)%Z.
Proof.
  intros H.
  pose proof (Qfloor_resp_le _ _ H) as Hf.
  pose proof (rne_bounds q1). pose proof (rne_bounds q2).
  destruct (Z.eq_dec (Qfloor q1) (Qfloor q2)) as [E|NE]; [|lia].
  unfold rne in *. rewrite E in *.
  destruct (Qcompare_spec (q1 - inject_Z (Qfloor q2)) (1 # 2));
  destruct (Qcompare_spec (q2 - inject_Z (Qfloor q2)) (1 # 2));
  try destruct (Z.even _); try lia; exfalso; lra.
Qed.

Lemma rne_le q n : q <= inject_Z n -> (rne q <= n)%Z.
Proof. intros H. rewrite <- (rne_inject n). apply rne_mono, H. Qed.

Lemma rne_ge q n : inject_Z n <= q -> (n <= rne q)%Z.
Proof. intros H. rewrite <- (rne_inject n). apply rne_mono, H. Qed.

Lemma rne_half q : Qabs (inject_Z (rne q) - q) <= 1 # 2.
Proof.
  pose proof (Qfloor_le q). pose proof (Qlt_floor q).
  rewrite inject_Z_plus in *. change (inject_Z 1) with 1 in *.
  apply Qabs_Qle_condition. unfold rne.
  destruct (Qcompare_spec (q - inject_Z (Qfloor q)) (1 # 2));
    try destruct (Z.even _); rewrite ?inject_Z_plus; change (inject_Z 1) with 1; split; lra.
Qed.

Lemma cexp_ge x : (emin <= cexp x)%Z.
Proof. unfold cexp. lia. Qed.

Lemma cexp_mono x y : 0 < x -> x <= y -> (cexp x <= cexp y)%Z.
Proof. intros H1 H2. pose proof (ilog2_mono x y H1 H2). unfold cexp. lia. Qed.

Lemma pow2_nz e : ~ pow2 e == 0.
Proof. pose proof (pow2_pos e). lra. Qed.

Lemma scale_cancel q e : pow2 e * q * pow2 (- e) == q.
Proof. rewrite pow2_opp. field. apply pow2_nz. Qed.

(** scaled significand bounds *)
Lemma scaled_lt x : 0 < x -> x * pow2 (- cexp x) < inject_Z (2 ^ prec).
Proof.
  intros Hx. destruct (ilog2_spec x Hx) as [_ H].
  assert (Hc : (ilog2 x + 1 <= cexp x + prec)%Z) by (unfold cexp, prec; lia).
  pose proof (pow2_le _ _ Hc) as H1.
  rewrite (pow2_add (cexp x) prec) in H1.
  assert (EP : pow2 prec == inject_Z (2 ^ prec)) by (apply pow2_Z; unfold prec; lia).
  rewrite EP in H1.
  pose proof (pow2_pos (cexp x)). pose proof (pow2_pos (- cexp x)).
  pose proof (pow2_cancel (cexp x)).
  assert (x < pow2 (cexp x) * inject_Z (2 ^ prec)) by lra.
  assert (E : inject_Z (2 ^ prec) == pow2 (cexp x) * inject_Z (2 ^ prec) * pow2 (- cexp x)).
  { symmetry. apply scale_cancel. }
  rewrite E. apply Qmult_lt_compat_r; assumption.
Qed.

Lemma scaled_ge x : 0 < x -> (emin < cexp x)%Z -> inject_Z (2 ^ (prec - 1)) <= x * pow2 (- cexp x).
Proof.
  intros Hx Hc. destruct (ilog2_spec x Hx) as [H _].
  assert (Hc' : (ilog2 x = cexp x + (prec - 1))%Z) by (unfold cexp, prec in *; lia).
  rewrite Hc', (pow2_add (cexp x) (prec - 1)) in H.
  assert (EP : pow2 (prec - 1) == inject_Z (2 ^ (prec - 1))) by (apply pow2_Z; unfold prec; lia).
  rewrite EP in H.
  pose proof (pow2_pos (cexp x)). pose proof (pow2_pos (- cexp x)).
  pose proof (pow2_cancel (cexp x)).
  assert (E : inject_Z (2 ^ (prec - 1)) == pow2 (cexp x) * inject_Z (2 ^ (prec - 1)) * pow2 (- cexp x)).
  { symmetry. apply scale_cancel. }
  rewrite E. apply Qmult_le_compat_r; lra.
Qed.

Lemma round_pos_eq x : round_pos x == inject_Z (rne (x * pow2 (- cexp x))) * pow2 (cexp x).
Proof. unfold round_pos. apply Qred_correct. Qed.

Lemma round_pos_mono x y : 0 < x -> x <= y -> round_pos x <= round_pos y.
Proof.
  intros Hx Hxy. rewrite !round_pos_eq.
  pose proof (cexp_mono x y Hx Hxy) as Hc.
  assert (Hy : 0 < y) by lra.
  destruct (Z.eq_dec (cexp x) (cexp y)) as [E|NE].
  - rewrite E. apply Qmult_le_compat_r; [|apply Qlt_le_weak, pow2_pos].
    rewrite <- Zle_Qle. apply rne_mono.
    apply Qmult_le_compat_r; [assumption|apply Qlt_le_weak, pow2_pos].
  - assert (Hlt : (cexp x + 1 <= cexp y)%Z) by lia.
    pose proof (cexp_ge x).
    apply Qle_trans with (pow2 (cexp x + prec)).
    + assert (EP : pow2 prec == inject_Z (2 ^ prec)) by (apply pow2_Z; unfold prec; lia).
      rewrite pow2_add, (Qmult_comm (pow2 (cexp x))), EP.
      apply Qmult_le_compat_r; [|apply Qlt_le_weak, pow2_pos].
      rewrite <- Zle_Qle. apply rne_le. apply Qlt_le_weak, scaled_lt, Hx.
    + apply Qle_trans with (pow2 (cexp y + (prec - 1))).
      * apply pow2_le. lia.
      * assert (EP : pow2 (prec - 1) == inject_Z (2 ^ (prec - 1))) by (apply pow2_Z; unfold prec; lia).
        rewrite pow2_add, (Qmult_comm (pow2 (cexp y))), EP.
        apply Qmult_le_compat_r; [|apply Qlt_le_weak, pow2_pos].
        rewrite <- Zle_Qle. apply rne_ge. apply scaled_ge; [assumption|lia].
Qed.

Lemma round_pos_nonneg x : 0 < x -> 0 <= round_pos x.
Proof.
  intros Hx. rewrite round_pos_eq.
  apply Qmult_le_0_compat; [|apply Qlt_le_weak, pow2_pos].
  change 0 with (inject_Z 0). rewrite <- Zle_Qle. apply rne_ge.
  change (inject_Z 0) with 0. apply Qmult_le_0_compat; [lra|apply Qlt_le_weak, pow2_pos].
Qed.

Lemma Qnum_pos x : 0 < x <-> (0 < Qnum x)%Z.
Proof. unfold Qlt. simpl. lia. Qed.

Lemma Qnum_neg x : x < 0 <-> (Qnum x < 0)%Z.
Proof. unfold Qlt. simpl. lia. Qed.

Lemma round_b64_pos x : 0 < x -> round_b64 x = round_pos x.
Proof. intros H. apply Qnum_pos in H. unfold round_b64. destruct (Qnum x); try lia. reflexivity. Qed.

Lemma round_b64_neg x : x < 0 -> round_b64 x = - round_pos (- x).
Proof. intros H. apply Qnum_neg in H. unfold round_b64. destruct (Qnum x); try lia. reflexivity. Qed.

Lemma round_b64_zero x : x == 0 -> round_b64 x = 0.
Proof.
  intros H. unfold round_b64. unfold Qeq in H. simpl in H.
  destruct (Qnum x); try lia. reflexivity.
Qed.

Theorem round_b64_mono x y : x <= y -> round_b64 x <= round_b64 y.
Proof.
  intros H.
  destruct (Q_dec x 0) as [[Hx|Hx]|Hx]; destruct (Q_dec y 0) as [[Hy|Hy]|Hy];
    rewrite ?(round_b64_pos x), ?(round_b64_pos y), ?(round_b64_neg x), ?(round_b64_neg y),
            ?(round_b64_zero x), ?(round_b64_zero y) by assumption; try lra.
  - apply Qopp_le_compat. apply round_pos_mono; lra.
  - pose proof (round_pos_nonneg (- x)). pose proof (round_pos_nonneg y). lra.
  - pose proof (round_pos_nonneg (- x)). lra.
  - apply round_pos_mono; lra.
  - pose proof (round_pos_nonneg y). lra.
Qed.

Lemma rne_compat q1 q2 : q1 == q2 -> rne q1 = rne q2.
Proof.
  intros E. apply Z.le_antisymm; apply rne_mono; rewrite E; apply Qle_refl.
Qed.

Lemma round_pos_fix m e :
  (0 < m < 2 ^ prec)%Z -> (emin <= e)%Z ->
  round_pos (inject_Z m * pow2 e) == inject_Z m * pow2 e.
Proof.
  intros Hm He. set (x := inject_Z m * pow2 e).
  assert (Hm0 : 0 < inject_Z m) by (change 0 with (inject_Z 0); rewrite <- Zlt_Qlt; lia).
  assert (Hx : 0 < x).
  { unfold x. pose proof (pow2_pos e). nra. }
  assert (Hc : (cexp x <= e)%Z).
  { destruct (ilog2_spec x Hx) as [H1 _].
    assert (x < pow2 (e + prec)).
    { unfold x. rewrite pow2_add, Qmult_comm.
      apply Qmult_lt_l; [apply pow2_pos|].
      assert (EP : pow2 prec == inject_Z (2 ^ prec)) by (apply pow2_Z; unfold prec; lia).
      rewrite EP. rewrite <- Zlt_Qlt. lia. }
    assert (ilog2 x < e + prec)%Z by (apply pow2_lt_inv; lra).
    unfold cexp, prec in *. lia. }
  rewrite round_pos_eq.
  assert (E : x * pow2 (- cexp x) == inject_Z (m * 2 ^ (e - cexp x))).
  { rewrite inject_Z_mult, <- pow2_Z by lia.
    replace (e - cexp x)%Z with (e + - cexp x)%Z by lia. rewrite pow2_add. unfold x. ring. }
  rewrite (rne_compat _ _ E), rne_inject.
  rewrite inject_Z_mult, <- pow2_Z by lia.
  rewrite <- Qmult_assoc, <- pow2_add.
  replace (e - cexp x + cexp x)%Z with e by lia.
  reflexivity.
Qed.

Theorem round_b64_fix m e :
  (Z.abs m < 2 ^ prec)%Z -> (emin <= e)%Z ->
  round_b64 (inject_Z m * pow2 e) == inject_Z m * pow2 e.
Proof.
  intros Hm He. pose proof (pow2_pos e) as Hp.
  destruct (Z.lt_trichotomy m 0) as [Hn|[Hz|Hpz]].
  - assert (Hm0 : inject_Z m < 0) by (change 0 with (inject_Z 0); rewrite <- Zlt_Qlt; lia).
    assert (Hx : inject_Z m * pow2 e < 0) by nra.
    rewrite (round_b64_neg _ Hx).
    assert (E : - (inject_Z m * pow2 e) == inject_Z (- m) * pow2 e) by (rewrite inject_Z_opp; ring).
    assert (E2 : round_pos (- (inject_Z m * pow2 e)) == round_pos (inject_Z (- m) * pow2 e)).
    { apply Qle_antisym; apply round_pos_mono; rewrite ?E; try lra; rewrite <- E; lra. }
    rewrite E2, round_pos_fix by lia. rewrite inject_Z_opp. ring.
  - subst m. rewrite round_b64_zero; [ring_simplify; reflexivity | ring].
  - assert (Hm0 : 0 < inject_Z m) by (change 0 with (inject_Z 0); rewrite <- Zlt_Qlt; lia).
    assert (Hx : 0 < inject_Z m * pow2 e) by nra.
    rewrite (round_b64_pos _ Hx). apply round_pos_fix; lia.
Qed.

Lemma round_b64_int n : (Z.abs n < 2 ^ prec)%Z -> round_b64 (inject_Z n) == inject_Z n.
Proof.
  intros H. pose proof (round_b64_fix n 0 H ltac:(unfold emin; lia)) as E.
  assert (E1 : inject_Z n * pow2 0 == inject_Z n) by (change (pow2 0) with 1; ring).
  assert (E2 : round_b64 (inject_Z n * pow2 0) == round_b64 (inject_Z n)).
  { apply Qle_antisym; apply round_b64_mono; rewrite E1; apply Qle_refl. }
  rewrite <- E2, E. exact E1.
Qed.

Lemma round_b64_compat x y : x == y -> round_b64 x == round_b64 y.
Proof. intros E. apply Qle_antisym; apply round_b64_mono; rewrite E; apply Qle_refl. Qed.

Lemma rne_half_le q : - (1 # 2) <= inject_Z (rne q) - q <= 1 # 2.
Proof. apply Qabs_Qle_condition. apply rne_half. Qed.

Lemma pow2_half e : pow2 (e - 1) == pow2 e * (1 # 2).
Proof.
  replace (e - 1)%Z with (e + -1)%Z by lia. rewrite pow2_add. reflexivity.
Qed.

(** Rounding error for [0 <= x <= 2^k]: at most 2^(k - 53). *)
Lemma round_b64_error x k :
  0 <= x -> x <= pow2 k -> (emin + prec - 1 <= k)%Z ->
  - pow2 (k - prec) <= round_b64 x - x <= pow2 (k - prec).
Proof.
  intros H0 Hk Hemin.
  destruct (Qle_lt_or_eq _ _ H0) as [Hx|Hx].
  2:{ rewrite round_b64_zero by (symmetry; exact Hx). rewrite <- Hx.
      pose proof (pow2_pos (k - prec)). lra. }
  rewrite (round_b64_pos x Hx), round_pos_eq.
  set (c := cexp x).
  assert (Hc : (c <= k - prec + 1)%Z).
  { destruct (ilog2_spec x Hx) as [H1 _].
    assert (ilog2 x < k + 1)%Z.
    { apply pow2_lt_inv. apply Qle_lt_trans with x; [exact H1|].
      apply Qle_lt_trans with (pow2 k); [exact Hk|]. apply pow2_lt. lia. }
    unfold c, cexp, prec, emin in *. lia. }
  pose proof (rne_half_le (x * pow2 (- c))) as [E1 E2].
  pose proof (pow2_pos c) as Pc.
  assert (S : x * pow2 (- c) * pow2 c == x).
  { rewrite <- Qmult_assoc, pow2_cancel. ring. }
  set (s := x * pow2 (- c)) in *.
  assert (B : pow2 c * (1 # 2) <= pow2 (k - prec)).
  { rewrite <- pow2_half. apply pow2_le. lia. }
  set (r := inject_Z (rne s)) in *.
  assert (D : r * pow2 c - x == (r - s) * pow2 c) by (rewrite <- S at 1; ring).
  rewrite D. clear D S. 
  remember (pow2 c) as Q eqn:EQ. remember (pow2 (k - prec)) as P eqn:EP.
  clear - E1 E2 Pc B. nra.
Qed.

End FloatFacts.

(** ** The calendar: ordinals count days *)

Section CalendarFacts.

Import Calendar.

Lemma valid_date_iff d :
  valid_date d = true <->
  1 <= year d <= 9999 /\ 1 <= month d <= 12 /\ 1 <= day d <= days_in_month (year d) (month d).
Proof.
  unfold valid_date, MINYEAR, MAXYEAR.
  rewrite !andb_true_iff, !Z.leb_le. tauto.
Qed.

Lemma month_cases m : 1 <= m <= 12 ->
  m = 1 \/ m = 2 \/ m = 3 \/ m = 4 \/ m = 5 \/ m = 6 \/
  m = 7 \/ m = 8 \/ m = 9 \/ m = 10 \/ m = 11 \/ m = 12.
Proof. lia. Qed.

Ltac month_split m H :=
  destruct (month_cases m H) as [?|[?|[?|[?|[?|[?|[?|[?|[?|[?|[?|?]]]]]]]]]]]; subst m.

Lemma days_before_year_succ y :
  days_before_year (y + 1) = days_before_year y + (if is_leap y then 366 else 365).
Proof.
  unfold days_before_year, is_leap. cbv zeta.
  replace (y + 1 - 1) with y by lia.
  destruct (y mod 4 =? 0) eqn:E4; destruct (y mod 100 =? 0) eqn:E100;
    destruct (y mod 400 =? 0) eqn:E400; cbn [andb orb negb];
    rewrite ?Z.eqb_eq, ?Z.eqb_neq in *; Z.div_mod_to_equations; lia.
Qed.

Lemma days_before_year_mono y y' : y <= y' -> days_before_year y <= days_before_year y'.
Proof. unfold days_before_year. cbv zeta. intros H. Z.div_mod_to_equations. lia. Qed.

Lemma days_in_month_bounds y m : 1 <= m <= 12 -> 28 <= days_in_month y m <= 31.
Proof. intros H. month_split m H; unfold days_in_month; destruct (is_leap y); lia. Qed.

Lemma days_before_month_succ y m : 1 <= m < 12 ->
  days_before_month y (m + 1) = days_before_month y m + days_in_month y m.
Proof.
  intros H. assert (H' : 1 <= m <= 12) by lia.
  month_split m H'; try lia; unfold days_before_month, days_in_month;
    destruct (is_leap y); reflexivity.
Qed.

Lemma days_before_month_12 y :
  days_before_month y 12 + 31 = if is_leap y then 366 else 365.
Proof. unfold days_before_month. destruct (is_leap y); reflexivity. Qed.

Lemma days_before_month_mono y m m' : 1 <= m -> m < m' -> m' <= 12 ->
  days_before_month y m + days_in_month y m <= days_before_month y m'.
Proof.
  intros H1 H2 H3. assert (Hm : 1 <= m <= 12) by lia. assert (Hm' : 1 <= m' <= 12) by lia.
  month_split m Hm; month_split m' Hm'; try lia;
    unfold days_before_month, days_in_month; destruct (is_leap y); cbn; lia.
Qed.

Lemma day_of_year_bounds d : valid_date d = true ->
  1 <= days_before_month (year d) (month d) + day d <= (if is_leap (year d) then 366 else 365).
Proof.
  intros H. apply valid_date_iff in H. destruct H as (Hy & Hm & Hd).
  destruct d as [y m dd]; cbn [year month day] in *.
  month_split m Hm; unfold days_before_month, days_in_month in *; destruct (is_leap y); cbn in *; lia.
Qed.

Lemma toordinal_bounds d : valid_date d = true -> 1 <= toordinal d <= 3652059.
Proof.
  intros H. pose proof (day_of_year_bounds d H) as Hb.
  apply valid_date_iff in H. destruct H as (Hy & _).
  unfold toordinal.
  pose proof (days_before_year_mono 1 (year d) ltac:(lia)).
  pose proof (days_before_year_mono (year d + 1) 10000 ltac:(lia)).
  rewrite days_before_year_succ in *.
  change (days_before_year 1) with 0 in *. change (days_before_year 10000) with 3652059 in *.
  lia.
Qed.

Lemma toordinal_lt a b : valid_date a = true -> valid_date b = true ->
  date_cmp a b = Lt -> toordinal a < toordinal b.
Proof.
  intros Ha Hb Hc.
  pose proof (day_of_year_bounds a Ha) as Da. pose proof (day_of_year_bounds b Hb) as Db.
  apply valid_date_iff in Ha, Hb. destruct Ha as (Hya & Hma & Hda), Hb as (Hyb & Hmb & Hdb).
  unfold date_cmp in Hc. unfold toordinal.
  destruct a as [ya ma da], b as [yb mb db]; cbn [year month day] in *.
  destruct (Z.compare_spec ya yb) as [Ey|Ly|Gy]; try discriminate.
  - subst yb.
    destruct (Z.compare_spec ma mb) as [Em|Lm|Gm]; try discriminate.
    + subst mb. rewrite Z.compare_lt_iff in Hc. lia.
    + pose proof (days_before_month_mono ya ma mb). lia.
  - pose proof (days_before_year_mono (ya + 1) yb ltac:(lia)) as Hm.
    rewrite days_before_year_succ in Hm. lia.
Qed.

Lemma date_cmp_antisym a b : date_cmp b a = CompOpp (date_cmp a b).
Proof.
  unfold date_cmp.
  rewrite (Z.compare_antisym (year a)), (Z.compare_antisym (month a)), (Z.compare_antisym (day a)).
  destruct (year a ?= year b); destruct (month a ?= month b); destruct (day a ?= day b); reflexivity.
Qed.

Lemma date_cmp_eq a b : date_cmp a b = Eq -> a = b.
Proof.
  unfold date_cmp. destruct a as [ya ma da], b as [yb mb db]; cbn [year month day].
  destruct (Z.compare_spec ya yb) as [Ey| |]; try discriminate.
  destruct (Z.compare_spec ma mb) as [Em| |]; try discriminate.
  intros Ed. apply Z.compare_eq in Ed. congruence.
Qed.

Lemma date_cmp_toordinal a b : valid_date a = true -> valid_date b = true ->
  date_cmp a b = (toordinal a ?= toordinal b).
Proof.
  intros Ha Hb. destruct (date_cmp a b) eqn:E.
  - apply date_cmp_eq in E. subst. symmetry. apply Z.compare_refl.
  - symmetry. apply Z.compare_lt_iff. apply toordinal_lt; assumption.
  - symmetry. apply Z.compare_gt_iff. apply toordinal_lt; try assumption.
    rewrite date_cmp_antisym, E. reflexivity.
Qed.

Lemma toordinal_inj a b : valid_date a = true -> valid_date b = true ->
  toordinal a = toordinal b -> a = b.
Proof.
  intros Ha Hb E. apply date_cmp_eq. rewrite date_cmp_toordinal by assumption.
  rewrite E. apply Z.compare_refl.
Qed.

Lemma next_day_spec d : valid_date d = true -> toordinal d < 3652059 ->
  valid_date (next_day d) = true /\ toordinal (next_day d) = toordinal d + 1.
Proof.
  intros H Hlt.
  pose proof (proj1 (valid_date_iff d) H) as (Hy & Hm & Hd). clear H.
  unfold next_day.
  destruct (Z.ltb_spec (day d) (days_in_month (year d) (month d))) as [L|L].
  - split; [apply valid_date_iff; cbn [year month day]; lia
           | unfold toordinal; cbn [year month day]; lia].
  - destruct (Z.ltb_spec (month d) 12) as [L2|L2].
    + split.
      * apply valid_date_iff; cbn [year month day].
        pose proof (days_in_month_bounds (year d) (month d + 1)). lia.
      * unfold toordinal; cbn [year month day].
        rewrite days_before_month_succ by lia. lia.
    + assert (Em : month d = 12) by lia.
      assert (Ed : day d = 31).
      { rewrite Em in Hd, L. unfold days_in_month in Hd, L. lia. }
      assert (Hy' : year d < 9999).
      { destruct (Z.eq_dec (year d) 9999) as [E|]; [|lia].
        unfold toordinal in Hlt. rewrite E, Em, Ed in Hlt. vm_compute in Hlt. discriminate. }
      split.
      * apply valid_date_iff; cbn [year month day]. unfold days_in_month. lia.
      * unfold toordinal; cbn [year month day]. rewrite days_before_year_succ.
        pose proof (days_before_month_12 (year d)) as H12. rewrite Em, Ed.
        unfold days_before_month at 1. cbn [Z.ltb Z.compare andb Pos.compare Pos.compare_cont].
        lia.
Qed.

End CalendarFacts.

(** ** [math.ceil] of a rounded quotient *)

Section CeilFacts.

Import Float.
Local Open Scope Q_scope.

Lemma Qceiling_eq q k : inject_Z k < q -> q <= inject_Z (k + 1) -> Qceiling q = (k + 1)%Z.
Proof.
  intros H1 H2.
  pose proof (Qle_ceiling q). pose proof (Qceiling_lt q).
  assert (inject_Z k < inject_Z (Qceiling q)) by lra.
  assert (inject_Z (Qceiling q - 1) < inject_Z (k + 1)) by lra.
  rewrite <- Zlt_Qlt in *. lia.
Qed.

Lemma Qceiling_compat q1 q2 : q1 == q2 -> Qceiling q1 = Qceiling q2.
Proof.
  intros E. apply Z.le_antisymm; apply Qceiling_resp_le; rewrite E; apply Qle_refl.
Qed.

Lemma ceil_truediv_100 n :
  (0 <= n < 2 ^ 45)%Z -> ceil (int_truediv n 100) = ((n + 99) / 100)%Z.
Proof.
  intros Hn. unfold ceil, int_truediv.
  set (k := (n / 100)%Z). set (r := (n mod 100)%Z).
  assert (Hdiv : (n = 100 * k + r /\ 0 <= r < 100)%Z).
  { unfold k, r. pose proof (Z.div_mod n 100). pose proof (Z.mod_pos_bound n 100). lia. }
  destruct Hdiv as [En Hr]. clearbody k r.
  assert (Hk : (0 <= k < 2 ^ 45)%Z) by lia.
  destruct (Z.eq_dec r 0) as [R0|R0].
  - (* exact quotient *)
    assert (E : inject_Z n / inject_Z 100 == inject_Z k).
    { rewrite En, R0, Z.add_0_r, inject_Z_mult. field. }
    rewrite (Qceiling_compat _ _ (round_b64_compat _ _ E)).
    rewrite (Qceiling_compat _ _ (round_b64_int k ltac:(unfold prec; lia))).
    rewrite Qceiling_Z. subst n r. Z.div_mod_to_equations. lia.
  - (* strictly between k and k + 1 *)
    replace ((n + 99) / 100)%Z with (k + 1)%Z by (Z.div_mod_to_equations; lia).
    assert (Hx : inject_Z n / inject_Z 100 == inject_Z k + inject_Z r * (1 # 100)).
    { rewrite En, inject_Z_plus, inject_Z_mult. field. }
    assert (Hr1 : 1 <= inject_Z r) by (change 1 with (inject_Z 1); rewrite <- Zle_Qle; lia).
    assert (Hr2 : inject_Z r <= 99) by (change 99 with (inject_Z 99); rewrite <- Zle_Qle; lia).
    apply Qceiling_eq.
    + (* above k + 1/128, which is a binary64 number *)
      apply Qlt_le_trans with (inject_Z (128 * k + 1) * pow2 (-7)).
      * rewrite inject_Z_plus, inject_Z_mult. change (pow2 (-7)) with (1 # 128).
        change (inject_Z 128) with 128. change (inject_Z 1) with 1.
        clear Hx. lra.
      * rewrite <- (round_b64_fix (128 * k + 1) (-7)) by (unfold prec, emin; lia).
        apply round_b64_mono. rewrite Hx.
        rewrite inject_Z_plus, inject_Z_mult. change (pow2 (-7)) with (1 # 128).
        change (inject_Z 128) with 128. change (inject_Z 1) with 1.
        clear - Hr1. lra.
    + rewrite <- (round_b64_int (k + 1)) by (unfold prec; lia).
      apply round_b64_mono. rewrite Hx, inject_Z_plus. change (inject_Z 1) with 1.
      clear - Hr2. lra.
Qed.

End CeilFacts.

(** ** Running the calculator *)

Section Runs.

Import Float Calendar Py.

Lemma float_of_int_3600 : float_of_int 3600 = (3600 # 1)%Q.
Proof. vm_compute. reflexivity. Qed.

Lemma float_of_int_86400 : float_of_int 86400 = (86400 # 1)%Q.
Proof. vm_compute. reflexivity. Qed.

Lemma truediv_run n m w : m <> 0 -> truediv n m w = (Return (int_truediv n m), w).
Proof. intros H. unfold truediv. apply Z.eqb_neq in H. rewrite H. reflexivity. Qed.

Lemma float_truediv_run a b w :
  Qeq_bool b 0 = false -> float_truediv a b w = (Return (fdiv a b), w).
Proof. intros H. unfold float_truediv. rewrite H. reflexivity. Qed.

Lemma valid_datetime_iff t :
  valid_datetime t = true <->
  valid_date (datetime_date t) = true /\
  0 <= hour t < 24 /\ 0 <= minute t < 60 /\ 0 <= second t < 60 /\
  0 <= microsecond t < 1000000.
Proof.
  unfold valid_datetime.
  rewrite !andb_true_iff, !Z.leb_le, !Z.ltb_lt. tauto.
Qed.

Lemma date_sub_days_run a b w :
  valid_date a = true -> valid_date b = true ->
  date_sub_days a b w = (Return (toordinal a - toordinal b), w).
Proof.
  intros Ha Hb. pose proof (toordinal_bounds a Ha). pose proof (toordinal_bounds b Hb).
  unfold date_sub_days, timedelta.
  destruct (Z.leb_spec (Z.abs (toordinal a - toordinal b)) 999999999); [reflexivity|lia].
Qed.

Lemma compute_time_stats_run birthdate w :
  valid_datetime (clock w) = true -> valid_date birthdate = true ->
  exists r,
    En.compute_time_stats birthdate w = (Return r, w) /\
    now r = clock w /\
    hour_pct r =
      fmul (fdiv (fadd (float_of_int (minute (clock w) * 60 + second (clock w)))
                       (int_truediv (microsecond (clock w)) 1000000))
                 (3600 # 1)) (100 # 1) /\
    day_pct r =
      fmul (fdiv (fadd (float_of_int (hour (clock w) * 3600 + minute (clock w) * 60
                                      + second (clock w)))
                       (int_truediv (microsecond (clock w)) 1000000))
                 (86400 # 1)) (100 # 1) /\
    days_alive r = Z.max 0 (toordinal (datetime_date (clock w)) - toordinal birthdate) /\
    next_hundred r = milestone (days_alive r) /\
    days_to_next r = Z.max 0 (next_hundred r - days_alive r).
Proof.
  intros Hw Hb. apply valid_datetime_iff in Hw. destruct Hw as (Hd & _).
  unfold En.compute_time_stats, bind, datetime_now.
  rewrite float_of_int_3600, float_of_int_86400. cbv beta iota.
  rewrite truediv_run by discriminate. cbv beta iota.
  rewrite float_truediv_run by reflexivity. cbv beta iota.
  rewrite truediv_run by discriminate. cbv beta iota.
  rewrite float_truediv_run by reflexivity. cbv beta iota.
  rewrite (date_sub_days_run _ _ _ Hd Hb). cbv beta iota zeta.
  set (days := toordinal (datetime_date (clock w)) - toordinal birthdate).
  set (da := if days <? 0 then 0 else days).
  assert (Eda : da = Z.max 0 days) by (unfold da; destruct (Z.ltb_spec days 0); lia).
  destruct (Z.eqb_spec da 0) as [E0|N0].
  - eexists. split; [reflexivity|]. cbn [now hour_pct day_pct days_alive next_hundred days_to_next].
    repeat split; try assumption. unfold milestone. rewrite E0. reflexivity.
  - rewrite truediv_run by discriminate. cbv beta iota.
    eexists. split; [reflexivity|]. cbn [now hour_pct day_pct days_alive next_hundred days_to_next].
    repeat split; try assumption. unfold milestone.
    destruct (Z.eqb_spec da 0); [contradiction|]. reflexivity.
Qed.

Lemma milestone_closed da : 0 <= da < 2 ^ 45 -> milestone da = 100 * (da / 100 + 1).
Proof.
  intros H. unfold milestone.
  destruct (Z.eqb_spec da 0) as [E|N]; [subst; reflexivity|].
  rewrite ceil_truediv_100 by lia. cbv zeta.
  destruct (Z.eqb_spec ((da + 99) / 100 * 100) da) as [E|NE];
    Z.div_mod_to_equations; lia.
Qed.

Section PctFacts.
Local Open Scope Q_scope.

Lemma int_truediv_mono n n' : (n <= n')%Z ->
  int_truediv n 1000000 <= int_truediv n' 1000000.
Proof.
  intros H. unfold int_truediv. apply round_b64_mono.
  unfold Qdiv. apply Qmult_le_compat_r; [rewrite <- Zle_Qle; exact H | discriminate].
Qed.

Lemma float_of_int_mono n n' : (n <= n')%Z -> float_of_int n <= float_of_int n'.
Proof. intros H. apply round_b64_mono. rewrite <- Zle_Qle. exact H. Qed.

Lemma pct_mono (D : Q) n n' f f' :
  0 < D -> (n <= n')%Z -> f <= f' ->
  fmul (fdiv (fadd (float_of_int n) f) D) (100 # 1) <=
  fmul (fdiv (fadd (float_of_int n') f') D) (100 # 1).
Proof.
  intros HD Hn Hf. unfold fmul, fdiv, fadd.
  apply round_b64_mono. apply Qmult_le_compat_r; [|discriminate].
  apply round_b64_mono. unfold Qdiv. apply Qmult_le_compat_r.
  - apply round_b64_mono. apply Qplus_le_compat; [apply float_of_int_mono, Hn | exact Hf].
  - apply Qlt_le_weak, Qinv_lt_0_compat, HD.
Qed.

End PctFacts.

Lemma iter_next_day n : forall a b,
  valid_date a = true -> valid_date b = true ->
  toordinal b - toordinal a = Z.of_nat n ->
  Nat.iter n next_day a = b.
Proof.
  induction n as [|n IH]; intros a b Ha Hb E.
  - cbn. apply toordinal_inj; try assumption. lia.
  - pose proof (toordinal_bounds b Hb) as Bb.
    destruct (next_day_spec a Ha ltac:(lia)) as [Hv Ho].
    rewrite Nat.iter_succ_r. apply IH; try assumption. lia.
Qed.

Lemma date_le_toordinal a b : valid_date a = true -> valid_date b = true ->
  date_le a b = true <-> toordinal a <= toordinal b.
Proof.
  intros Ha Hb. unfold date_le. rewrite (date_cmp_toordinal a b Ha Hb).
  destruct (Z.compare_spec (toordinal a) (toordinal b)); split; intros; try lia; try reflexivity; discriminate.
Qed.

Lemma date_gt_toordinal a b : valid_date a = true -> valid_date b = true ->
  date_gt a b = true <-> toordinal b < toordinal a.
Proof.
  intros Ha Hb. unfold date_gt. rewrite (date_cmp_toordinal a b Ha Hb).
  destruct (Z.compare_spec (toordinal a) (toordinal b)); split; intros; try lia; try reflexivity; discriminate.
Qed.

Lemma compute_time_stats_same birthdate w :
  Release.compute_time_stats birthdate w = En.compute_time_stats birthdate w.
Proof.
  unfold Release.compute_time_stats, En.compute_time_stats.
  rewrite float_of_int_3600, float_of_int_86400. reflexivity.
Qed.

Lemma compute_time_stats_reads_clock birthdate w :
  En.compute_time_stats birthdate w =
  (fst (En.compute_time_stats birthdate (mkWorld (clock w) Absent false)), w).
Proof.
  unfold En.compute_time_stats.
  rewrite float_of_int_3600, float_of_int_86400.
  unfold bind, datetime_now, truediv, float_truediv, date_sub_days, timedelta, ret, raise.
  cbn [clock fst].
  change (1000000 =? 0) with false. change (100 =? 0) with false.
  change (Qeq_bool (3600 # 1) 0) with false. change (Qeq_bool (86400 # 1) 0) with false.
  cbv beta iota.
  destruct (Z.abs _ <=? 999999999); [|reflexivity].
  cbv beta iota zeta.
  destruct ((if _ <? 0 then 0 else _) =? 0); reflexivity.
Qed.

End Runs.

(** ** Distance of the binary64 percentages from the exact ones *)

Section Accuracy.

Import Float.
Local Open Scope Q_scope.

Lemma round_b64_range x lo hi :
  (Z.abs lo < 2 ^ prec)%Z -> (Z.abs hi < 2 ^ prec)%Z ->
  inject_Z lo <= x <= inject_Z hi ->
  inject_Z lo <= round_b64 x <= inject_Z hi.
Proof.
  intros Hlo Hhi [H1 H2]. split.
  - rewrite <- (round_b64_int lo Hlo). apply round_b64_mono, H1.
  - rewrite <- (round_b64_int hi Hhi). apply round_b64_mono, H2.
Qed.

Ltac err_at H x k :=
  pose proof (round_b64_error x k) as H;
  let v := eval vm_compute in (pow2 k) in change (pow2 k) with v in H;
  let v := eval vm_compute in (pow2 (k - prec)) in change (pow2 (k - prec)) with v in H.

Lemma pct_accuracy (D n us : Z) (k : Z) :
  (0 <= n)%Z -> (n + 1 <= D)%Z -> (D <= 2 ^ k)%Z -> (0 <= k < prec)%Z ->
  (0 <= us < 1000000)%Z ->
  let p := fmul (fdiv (fadd (float_of_int n) (int_truediv us 1000000)) (inject_Z D))
                (100 # 1) in
  let e := (inject_Z n + inject_Z us * (1 # 1000000)) * / inject_Z D * 100 in
  let bound := (1 # 2 ^ 46) + 100 * ((1 # 2 ^ 53)
                 + (pow2 (k - prec) + (1 # 2 ^ 53)) * / inject_Z D) in
  - bound <= p - e <= bound.
Proof.
  intros Hn HnD HDk Hk Hus p e bound.
  assert (Qn : 0 <= inject_Z n) by (change 0 with (inject_Z 0); rewrite <- Zle_Qle; lia).
  assert (QnD : inject_Z n + 1 <= inject_Z D).
  { change 1 with (inject_Z 1). rewrite <- inject_Z_plus, <- Zle_Qle. lia. }
  assert (Qus0 : 0 <= inject_Z us) by (change 0 with (inject_Z 0); rewrite <- Zle_Qle; lia).
  assert (Qus1 : inject_Z us <= 999999) by (change 999999 with (inject_Z 999999); rewrite <- Zle_Qle; lia).
  assert (HD53 : (Z.abs D < 2 ^ prec)%Z).
  { assert (2 ^ k < 2 ^ prec)%Z by (apply Z.pow_lt_mono_r; lia). lia. }
  (* fractional seconds *)
  set (x1 := inject_Z us / inject_Z 1000000).
  assert (E1 : x1 == inject_Z us * (1 # 1000000)) by (unfold x1; field).
  set (f := int_truediv us 1000000) in *.
  assert (F : f = round_b64 x1) by reflexivity.
  err_at R1 x1 0%Z. specialize (R1 ltac:(lra) ltac:(lra) ltac:(unfold emin, prec; lia)).
  pose proof (round_b64_range x1 0 1 ltac:(unfold prec; lia) ltac:(unfold prec; lia)) as B1.
  change (inject_Z 0) with 0 in B1. change (inject_Z 1) with 1 in B1.
  specialize (B1 ltac:(lra)). rewrite <- F in R1, B1.
  (* the integer seconds are exact *)
  set (n' := float_of_int n) in *.
  assert (N : n' == inject_Z n) by (apply round_b64_int; lia).
  (* the sum *)
  set (x2 := n' + f).
  set (s := fadd n' f) in *.
  assert (S : s = round_b64 x2) by reflexivity.
  assert (QDk : inject_Z D <= pow2 k).
  { rewrite pow2_Z by lia. rewrite <- Zle_Qle. exact HDk. }
  pose proof (round_b64_error x2 k) as R2.
  specialize (R2 ltac:(unfold x2; lra) ltac:(unfold x2; lra) ltac:(unfold emin, prec; lia)).
  pose proof (round_b64_range x2 0 D ltac:(unfold prec; lia) HD53) as B2.
  change (inject_Z 0) with 0 in B2.
  specialize (B2 ltac:(unfold x2; lra)). rewrite <- S in R2, B2.
  (* the quotient *)
  assert (QD : 0 < inject_Z D) by lra.
  set (Di := / inject_Z D) in *.
  assert (HDi : 0 < Di) by (apply Qinv_lt_0_compat; exact QD).
  assert (HDi1 : inject_Z D * Di == 1) by (unfold Di; field; lra).
  set (x3 := s / inject_Z D).
  assert (E3 : x3 == s * Di) by reflexivity.
  set (q := fdiv s (inject_Z D)) in *.
  assert (Q : q = round_b64 x3) by reflexivity.
  assert (X3 : 0 <= x3 <= 1).
  { rewrite E3. split; [nra|]. rewrite <- HDi1. nra. }
  err_at R3 x3 0%Z. specialize (R3 ltac:(lra) ltac:(lra) ltac:(unfold emin, prec; lia)).
  pose proof (round_b64_range x3 0 1 ltac:(unfold prec; lia) ltac:(unfold prec; lia)) as B3.
  change (inject_Z 0) with 0 in B3. change (inject_Z 1) with 1 in B3.
  specialize (B3 ltac:(lra)). rewrite <- Q in R3, B3.
  (* the percentage *)
  set (x4 := q * (100 # 1)).
  assert (P : p = round_b64 x4) by reflexivity.
  err_at R4 x4 7%Z. specialize (R4 ltac:(unfold x4; lra) ltac:(unfold x4; lra) ltac:(unfold emin, prec; lia)).
  rewrite <- P in R4.
  (* collect *)
  unfold e, bound. change (1 # 2 ^ 46) with (1 # 70368744177664).
  change (1 # 2 ^ 53) with (1 # 9007199254740992).
  fold Di. unfold x4 in R4. rewrite E3 in R3. unfold x2 in R2. rewrite E1 in R1.
  remember (pow2 (k - prec)) as u eqn:Eu.
  clear - R1 R2 R3 R4 N HDi.
  set (d1 := f - inject_Z us * (1 # 1000000)) in *.
  set (d2 := s - (n' + f)) in *.
  set (d3 := q - s * Di) in *.
  set (d4 := p - q * 100) in *.
  assert (T : p - (inject_Z n + inject_Z us * (1 # 1000000)) * Di * 100 ==
              d4 + 100 * d3 + 100 * (Di * d2) + 100 * (Di * d1)
              + 100 * Di * (n' - inject_Z n)) by (unfold d1, d2, d3, d4; ring).
  rewrite T, N. clear T N. clearbody d1 d2 d3 d4. clear - R1 R2 R3 R4 HDi.
  assert (M1 : - (Di * (1 # 9007199254740992)) <= Di * d1 <= Di * (1 # 9007199254740992)).
  { split; [setoid_replace (- (Di * (1 # 9007199254740992)))
               with (Di * - (1 # 9007199254740992)) using relation Qeq by ring|];
      apply Qmult_le_l; lra. }
  assert (M2 : - (Di * u) <= Di * d2 <= Di * u).
  { split; [setoid_replace (- (Di * u)) with (Di * - u) using relation Qeq by ring|];
      apply Qmult_le_l; lra. }
  set (m1 := Di * d1) in *. set (m2 := Di * d2) in *.
  set (c1 := Di * (1 # 9007199254740992)) in *. set (c2 := Di * u) in *.
  assert (T : (1 # 70368744177664)
                + 100 * ((1 # 9007199254740992) + (u + (1 # 9007199254740992)) * Di)
              == (1 # 70368744177664) + 100 * (1 # 9007199254740992)
                 + 100 * c2 + 100 * c1) by (unfold c1, c2; ring).
  rewrite T. clear T. clearbody m1 m2 c1 c2.
  split; lra.
Qed.

End Accuracy.

(** ** The birthday loader *)

Section Loader.

Import Float Calendar Py.

Lemma date_gt_le a b : date_gt a b = negb (date_le a b).
Proof. unfold date_gt, date_le. destruct (date_cmp a b); reflexivity. Qed.

Lemma load_birthdate_same w :
  Release.load_birthdate_from_config w = En.load_birthdate_from_config w.
Proof.
  unfold Release.load_birthdate_from_config, En.load_birthdate_from_config.
  unfold bind, try_except, path_exists, json_load_config. cbv beta.
  destruct (config w) as [| | |data] eqn:Ec; cbn [negb]; cbv beta iota;
    rewrite ?Ec; try reflexivity.
  destruct data; try reflexivity.
  unfold py_get, ret. cbv beta iota.
  destruct (forallb isinstance_int _); cbn [negb]; [|reflexivity].
  destruct (date_new _ _ _ w) as [[bd|e] w']; [|reflexivity].
  unfold date_today. cbv beta iota. rewrite date_gt_le.
  destruct (date_le bd _); reflexivity.
Qed.

Lemma valid_date_small y m d : valid_date (mkdate y m d) = true ->
  (Z.abs y <? 2 ^ 31) && (Z.abs m <? 2 ^ 31) && (Z.abs d <? 2 ^ 31) = true.
Proof.
  intros H. unfold valid_date, MINYEAR, MAXYEAR in H. cbn [year month day] in H.
  rewrite !andb_true_iff, !Z.leb_le in H. destruct H as (((((H1 & H2) & H3) & H4) & H5) & H6).
  pose proof (days_in_month_bounds y m ltac:(lia)).
  rewrite !andb_true_iff, !Z.ltb_lt. lia.
Qed.

Lemma date_new_ints y m d w :
  exists e,
    date_new (PInt y) (PInt m) (PInt d) w =
    if valid_date (mkdate y m d) then (Return (mkdate y m d), w) else (Raise e, w).
Proof.
  unfold date_new, as_index, bind, ret, raise. cbv beta iota.
  destruct (valid_date (mkdate y m d)) eqn:V.
  - rewrite (valid_date_small _ _ _ V). exists ValueError. reflexivity.
  - destruct (_ && _); eexists; reflexivity.
Qed.

Lemma load_birthdate_spec w :
  no_boolean_field (config w) = true ->
  En.load_birthdate_from_config w =
  (Return (Spec.config_date (config w) (datetime_date (clock w))), w).
Proof.
  intros NB.
  unfold En.load_birthdate_from_config, bind, try_except, path_exists, json_load_config.
  unfold Spec.config_date. unfold no_boolean_field in NB. cbv beta.
  destruct (config w) as [| | |data] eqn:Ec; cbn [negb]; cbv beta iota;
    rewrite ?Ec; try reflexivity.
  destruct data as [| | | | | |d]; try reflexivity.
  unfold py_get, ret. cbv beta iota.
  destruct (d !! "year") as [[| |y| | | |]|]; try reflexivity; try discriminate NB;
  destruct (d !! "month") as [[| |m| | | |]|]; try reflexivity; try discriminate NB;
  destruct (d !! "day") as [[| |dd| | | |]|]; try reflexivity; try discriminate NB.
  unfold default, from_option, id. cbn [forallb isinstance_int andb]. cbv beta iota.
  destruct (date_new_ints y m dd w) as [e ->]. unfold date_today.
  destruct (valid_date (mkdate y m dd)); cbn [andb]; [|reflexivity].
  cbv beta iota. destruct (date_le _ _); reflexivity.
Qed.

(** A saved birthday is read back when it is not in the future, and a
    failed write is swallowed. *)
Lemma save_then_load bd w :
  writable w = true -> valid_date bd = true ->
  date_le bd (datetime_date (clock w)) = true ->
  exists w',
    En.save_birthdate_to_config bd w = (Return tt, w') /\
    En.load_birthdate_from_config w' = (Return (Some bd), w').
Proof.
  intros Hw Hv Hle.
  unfold En.save_birthdate_to_config, try_except, json_dump_config.
  rewrite Hw. eexists. split; [reflexivity|].
  rewrite load_birthdate_spec by reflexivity.
  unfold Spec.config_date. cbn [config clock].
  rewrite lookup_insert_eq.
  rewrite lookup_insert_ne by discriminate. rewrite lookup_insert_eq.
  rewrite !lookup_insert_ne by discriminate. rewrite lookup_insert_eq.
  destruct bd as [y m d]. cbn [year month day] in *.
  rewrite Hv, Hle. reflexivity.
Qed.

Lemma save_failure_is_silent bd w :
  writable w = false -> En.save_birthdate_to_config bd w = (Return tt, w).
Proof.
  intros Hw. unfold En.save_birthdate_to_config, try_except, json_dump_config.
  rewrite Hw. reflexivity.
Qed.

End Loader.

(** ** The specification's concrete scenarios *)

Section Scenarios.

Import Float Calendar Py.

(** 1. Born today, at midnight. *)
Example scenario_1 :
  fst (En.compute_time_stats (mkdate 2024 3 1) (mkWorld (mkdatetime 2024 3 1 0 0 0 0) Absent true))
  = Return (mkTimeStats (mkdatetime 2024 3 1 0 0 0 0) 0%Q 0%Q 0 100 100).
Proof. vm_compute. reflexivity. Qed.

(** 2. Born 2024-02-01, at 12:30: 29 days, 50 %, 52.0833... % as the
    binary64 number 7330077518506667 / 2^47. *)
Example scenario_2 :
  fst (En.compute_time_stats scenario_birthdate scenario_world)
  = Return (mkTimeStats (mkdatetime 2024 3 1 12 30 0 0) (50 # 1)%Q
              (7330077518506667 # 140737488355328)%Q 29 100 71).
Proof. vm_compute. reflexivity. Qed.

(** 3. Exactly 100 days alive. *)
Example scenario_3 :
  fst (En.compute_time_stats (mkdate 2023 11 22) scenario_world)
  = Return (mkTimeStats (mkdatetime 2024 3 1 12 30 0 0) (50 # 1)%Q
              (7330077518506667 # 140737488355328)%Q 100 200 100).
Proof. vm_compute. reflexivity. Qed.

(** 4. A birthdate in the future. *)
Example scenario_4 :
  fst (Release.compute_time_stats (mkdate 2999 1 1) scenario_world)
  = Return (mkTimeStats (mkdatetime 2024 3 1 12 30 0 0) (50 # 1)%Q
              (7330077518506667 # 140737488355328)%Q 0 100 100).
Proof. vm_compute. reflexivity. Qed.

(** 5. and 6. A future year and a string year are rejected. *)
Example scenario_5 :
  fst (En.load_birthdate_from_config
         (mkWorld (clock scenario_world) (year_file (PInt 2999)) true)) = Return None.
Proof. vm_compute. reflexivity. Qed.

Example scenario_6 :
  fst (En.load_birthdate_from_config
         (mkWorld (clock scenario_world) (year_file (PStr "2001")) true)) = Return None.
Proof. vm_compute. reflexivity. Qed.

(** The last microsecond of a day: both percentages stay below 100. *)
Example last_microsecond :
  fst (En.compute_time_stats scenario_birthdate
         (mkWorld (mkdatetime 2024 3 1 23 59 59 999999) Absent true))
  = Return (mkTimeStats (mkdatetime 2024 3 1 23 59 59 999999)
              (54975581373529 # 549755813888)%Q
              (7036874417684955 # 70368744177664)%Q 29 100 71).
Proof. vm_compute. reflexivity. Qed.

End Scenarios.

(** * The claims *)

Section Claims.

Import Float Calendar Py.

Lemma round_up_100_least n :
  Spec.round_up_100 n mod 100 = 0 /\ n <= Spec.round_up_100 n < n + 100.
Proof. unfold Spec.round_up_100. Z.div_mod_to_equations. lia. Qed.

Lemma days_alive_range birthdate w :
  valid_datetime (clock w) = true -> valid_date birthdate = true ->
  0 <= Z.max 0 (toordinal (datetime_date (clock w)) - toordinal birthdate) < 2 ^ 45.
Proof.
  intros Hw Hb. apply valid_datetime_iff in Hw. destruct Hw as (Hd & _).
  pose proof (toordinal_bounds _ Hd). pose proof (toordinal_bounds _ Hb). lia.
Qed.

(** Both editions return, leave the world as it was, and produce the
    same record, whose integer fields are as follows. *)
Lemma both_editions_run birthdate w :
  valid_datetime (clock w) = true -> valid_date birthdate = true ->
  exists r,
    En.compute_time_stats birthdate w = (Return r, w) /\
    Release.compute_time_stats birthdate w = (Return r, w) /\
    days_alive r = Z.max 0 (toordinal (datetime_date (clock w)) - toordinal birthdate) /\
    next_hundred r = 100 * (days_alive r / 100 + 1) /\
    days_to_next r = Z.max 0 (next_hundred r - days_alive r).
Proof.
  intros Hw Hb.
  destruct (compute_time_stats_run birthdate w Hw Hb)
    as (r & Hr & _ & _ & _ & Hda & Hnh & Hdn).
  exists r. split; [exact Hr|].
  split; [rewrite compute_time_stats_same; exact Hr|].
  split; [exact Hda|]. split; [|exact Hdn].
  rewrite Hnh. apply milestone_closed. rewrite Hda.
  apply days_alive_range; assumption.
Qed.

(** C1: the [next_hundred] that [compute_time_stats] returns is a multiple
    of 100 strictly greater than the returned [days_alive]; it is 100 when
    [days_alive] is 0, and otherwise [days_alive] rounded up to the nearest
    multiple of 100, advanced by a further 100 when [days_alive] is itself
    a multiple of 100. *)
Theorem next_hundred_rounds_up birthdate w :
  valid_datetime (clock w) = true -> valid_date birthdate = true ->
  exists r,
    En.compute_time_stats birthdate w = (Return r, w) /\
    Release.compute_time_stats birthdate w = (Return r, w) /\
    next_hundred r mod 100 = 0 /\
    days_alive r < next_hundred r /\
    (days_alive r = 0 -> next_hundred r = 100) /\
    (0 < days_alive r ->
     next_hundred r =
       if Spec.round_up_100 (days_alive r) =? days_alive r
       then Spec.round_up_100 (days_alive r) + 100
       else Spec.round_up_100 (days_alive r)).
Proof.
  intros Hw Hb.
  destruct (both_editions_run birthdate w Hw Hb) as (r & He & Hr & Hda & Hnh & _).
  exists r. split; [exact He|]. split; [exact Hr|].
  pose proof (days_alive_range birthdate w Hw Hb) as Hrange. rewrite <- Hda in Hrange.
  rewrite Hnh. unfold Spec.round_up_100.
  repeat split.
  - Z.div_mod_to_equations. lia.
  - Z.div_mod_to_equations. lia.
  - intros E. rewrite E. reflexivity.
  - intros Hpos.
    destruct (Z.eqb_spec (100 * ((days_alive r + 99) / 100)) (days_alive r));
      Z.div_mod_to_equations; lia.
Qed.

Lemma next_hundred_rounds_up_witness :
  valid_datetime (clock scenario_world) = true /\
  valid_date scenario_birthdate = true /\
  exists r, En.compute_time_stats scenario_birthdate scenario_world
            = (Return r, scenario_world) /\ next_hundred r mod 100 = 0.
Proof.
  split; [reflexivity|]. split; [reflexivity|].
  destruct (next_hundred_rounds_up scenario_birthdate scenario_world eq_refl eq_refl)
    as (r & He & _ & Hm & _).
  exists r. split; [exact He | exact Hm].
Defined.

(** C2: the returned [days_alive] is the number of calendar days from the
    birthdate to the date of the timestamp when the birthdate is not after
    that date (the difference of the ordinals, which is the number of
    [next_day] steps from one to the other), and 0 when the birthdate is
    strictly after it. *)
Theorem days_alive_is_clamped_difference birthdate w :
  valid_datetime (clock w) = true -> valid_date birthdate = true ->
  exists r,
    En.compute_time_stats birthdate w = (Return r, w) /\
    Release.compute_time_stats birthdate w = (Return r, w) /\
    (date_le birthdate (datetime_date (clock w)) = true ->
     days_alive r = toordinal (datetime_date (clock w)) - toordinal birthdate /\
     0 <= days_alive r /\
     Nat.iter (Z.to_nat (days_alive r)) next_day birthdate = datetime_date (clock w)) /\
    (date_gt birthdate (datetime_date (clock w)) = true -> days_alive r = 0).
Proof.
  intros Hw Hb.
  destruct (both_editions_run birthdate w Hw Hb) as (r & He & Hr & Hda & _).
  exists r. split; [exact He|]. split; [exact Hr|].
  apply valid_datetime_iff in Hw. destruct Hw as (Hd & _).
  split.
  - intros Hle. apply (date_le_toordinal _ _ Hb Hd) in Hle.
    assert (E : days_alive r = toordinal (datetime_date (clock w)) - toordinal birthdate)
      by lia.
    split; [exact E|]. split; [lia|].
    apply iter_next_day; try assumption. lia.
  - intros Hgt. apply (date_gt_toordinal _ _ Hb Hd) in Hgt. lia.
Qed.

Lemma days_alive_is_clamped_difference_witness :
  valid_datetime (clock scenario_world) = true /\
  valid_date scenario_birthdate = true /\
  exists r, En.compute_time_stats scenario_birthdate scenario_world
            = (Return r, scenario_world) /\ days_alive r = 29.
Proof.
  split; [reflexivity|]. split; [reflexivity|].
  destruct (days_alive_is_clamped_difference scenario_birthdate scenario_world
              eq_refl eq_refl) as (r & He & _ & Hle & _).
  exists r. split; [exact He|]. exact (proj1 (Hle eq_refl)).
Defined.

Lemma hour_pct_accuracy m s us :
  0 <= m < 60 -> 0 <= s < 60 -> 0 <= us < 1000000 ->
  (Qabs (Spec.hour_pct m s (Spec.fractional_seconds us) - Spec.exact_hour_pct m s us)
   <= 1 # 2 ^ 44)%Q.
Proof.
  intros Hm Hs Hus.
  pose proof (pct_accuracy 3600 (m * 60 + s) us 12
                ltac:(lia) ltac:(lia) ltac:(lia) ltac:(unfold prec; lia) Hus) as H.
  cbv zeta in H.
  assert (E : (Spec.exact_hour_pct m s us ==
               (inject_Z (m * 60 + s) + inject_Z us * (1 # 1000000))
               * / inject_Z 3600 * 100)%Q)
    by (unfold Spec.exact_hour_pct; field).
  rewrite <- E in H. apply Qabs_Qle_condition.
  change (fmul (fdiv (fadd (float_of_int (m * 60 + s)) (int_truediv us 1000000))
                     (inject_Z 3600)) (100 # 1))
    with (Spec.hour_pct m s (Spec.fractional_seconds us)) in H.
  set (d := (Spec.hour_pct m s (Spec.fractional_seconds us)
             - Spec.exact_hour_pct m s us)%Q) in *.
  clearbody d.
  assert (B : ((1 # 2 ^ 46) + 100 * ((1 # 2 ^ 53)
                + (pow2 (12 - prec) + (1 # 2 ^ 53)) * / inject_Z 3600)
               <= 1 # 2 ^ 44)%Q) by (vm_compute; discriminate).
  remember ((1 # 2 ^ 46) + 100 * ((1 # 2 ^ 53)
             + (pow2 (12 - prec) + (1 # 2 ^ 53)) * / inject_Z 3600))%Q as b.
  clear - H B. split; lra.
Qed.

Lemma day_pct_accuracy h m s us :
  0 <= h < 24 -> 0 <= m < 60 -> 0 <= s < 60 -> 0 <= us < 1000000 ->
  (Qabs (Spec.day_pct h m s (Spec.fractional_seconds us) - Spec.exact_day_pct h m s us)
   <= 1 # 2 ^ 44)%Q.
Proof.
  intros Hh Hm Hs Hus.
  pose proof (pct_accuracy 86400 (h * 3600 + m * 60 + s) us 17
                ltac:(lia) ltac:(lia) ltac:(lia) ltac:(unfold prec; lia) Hus) as H.
  cbv zeta in H.
  assert (E : (Spec.exact_day_pct h m s us ==
               (inject_Z (h * 3600 + m * 60 + s) + inject_Z us * (1 # 1000000))
               * / inject_Z 86400 * 100)%Q)
    by (unfold Spec.exact_day_pct; field).
  rewrite <- E in H. apply Qabs_Qle_condition.
  change (fmul (fdiv (fadd (float_of_int (h * 3600 + m * 60 + s))
                           (int_truediv us 1000000))
                     (inject_Z 86400)) (100 # 1))
    with (Spec.day_pct h m s (Spec.fractional_seconds us)) in H.
  set (d := (Spec.day_pct h m s (Spec.fractional_seconds us)
             - Spec.exact_day_pct h m s us)%Q) in *.
  clearbody d.
  assert (B : ((1 # 2 ^ 46) + 100 * ((1 # 2 ^ 53)
                + (pow2 (17 - prec) + (1 # 2 ^ 53)) * / inject_Z 86400)
               <= 1 # 2 ^ 44)%Q) by (vm_compute; discriminate).
  remember ((1 # 2 ^ 46) + 100 * ((1 # 2 ^ 53)
             + (pow2 (17 - prec) + (1 # 2 ^ 53)) * / inject_Z 86400))%Q as b.
  clear - H B. split; lra.
Qed.

(** C3: the returned [hour_pct] is (m * 60 + s + f) / 3600 * 100 and the
    returned [day_pct] is (h * 3600 + m * 60 + s + f) / 86400 * 100, for the
    hours h, minutes m, seconds s and fractional seconds f of the timestamp:
    they are these formulas evaluated in binary64 arithmetic, and they lie
    within 2^-44 of the formulas' exact rational values. *)
Theorem percentages_follow_formulas birthdate w :
  valid_datetime (clock w) = true -> valid_date birthdate = true ->
  exists r,
    En.compute_time_stats birthdate w = (Return r, w) /\
    Release.compute_time_stats birthdate w = (Return r, w) /\
    hour_pct r =
      Spec.hour_pct (minute (clock w)) (second (clock w))
        (Spec.fractional_seconds (microsecond (clock w))) /\
    day_pct r =
      Spec.day_pct (hour (clock w)) (minute (clock w)) (second (clock w))
        (Spec.fractional_seconds (microsecond (clock w))) /\
    (Qabs (hour_pct r
           - Spec.exact_hour_pct (minute (clock w)) (second (clock w))
               (microsecond (clock w))) <= 1 # 2 ^ 44)%Q /\
    (Qabs (day_pct r
           - Spec.exact_day_pct (hour (clock w)) (minute (clock w)) (second (clock w))
               (microsecond (clock w))) <= 1 # 2 ^ 44)%Q.
Proof.
  intros Hw Hb.
  destruct (compute_time_stats_run birthdate w Hw Hb) as (r & Hr & _ & Hh & Hd & _).
  exists r. split; [exact Hr|].
  split; [rewrite compute_time_stats_same; exact Hr|].
  split; [exact Hh|]. split; [exact Hd|].
  apply valid_datetime_iff in Hw. destruct Hw as (_ & H1 & H2 & H3 & H4).
  rewrite Hh, Hd. split.
  - apply hour_pct_accuracy; assumption.
  - apply day_pct_accuracy; assumption.
Qed.

Lemma percentages_follow_formulas_witness :
  valid_datetime (clock scenario_world) = true /\
  valid_date scenario_birthdate = true /\
  exists r, En.compute_time_stats scenario_birthdate scenario_world
            = (Return r, scenario_world) /\
            hour_pct r = Spec.hour_pct 30 0 (Spec.fractional_seconds 0).
Proof.
  split; [reflexivity|]. split; [reflexivity|].
  destruct (percentages_follow_formulas scenario_birthdate scenario_world
              eq_refl eq_refl) as (r & He & _ & Hh & _).
  exists r. split; [exact He | exact Hh].
Defined.

Lemma hour_pct_bounds m s us :
  0 <= m < 60 -> 0 <= s < 60 -> 0 <= us < 1000000 ->
  (0 <= Spec.hour_pct m s (Spec.fractional_seconds us) < 100)%Q.
Proof.
  intros Hm Hs Hus. unfold Spec.hour_pct, Spec.fractional_seconds. split.
  - apply Qle_trans with (Spec.hour_pct 0 0 (Spec.fractional_seconds 0)).
    + vm_compute. discriminate.
    + apply pct_mono; [reflexivity | lia | apply int_truediv_mono; lia].
  - apply Qle_lt_trans with (Spec.hour_pct 59 59 (Spec.fractional_seconds 999999)).
    + apply pct_mono; [reflexivity | lia | apply int_truediv_mono; lia].
    + vm_compute. reflexivity.
Qed.

Lemma day_pct_bounds h m s us :
  0 <= h < 24 -> 0 <= m < 60 -> 0 <= s < 60 -> 0 <= us < 1000000 ->
  (0 <= Spec.day_pct h m s (Spec.fractional_seconds us) < 100)%Q.
Proof.
  intros Hh Hm Hs Hus. unfold Spec.day_pct, Spec.fractional_seconds. split.
  - apply Qle_trans with (Spec.day_pct 0 0 0 (Spec.fractional_seconds 0)).
    + vm_compute. discriminate.
    + apply pct_mono; [reflexivity | lia | apply int_truediv_mono; lia].
  - apply Qle_lt_trans with (Spec.day_pct 23 59 59 (Spec.fractional_seconds 999999)).
    + apply pct_mono; [reflexivity | lia | apply int_truediv_mono; lia].
    + vm_compute. reflexivity.
Qed.

(** C4: for a valid timestamp the returned [hour_pct] and [day_pct] are at
    least 0 and strictly less than 100, in binary64 arithmetic. *)
Theorem percentages_in_range birthdate w :
  valid_datetime (clock w) = true -> valid_date birthdate = true ->
  exists r,
    En.compute_time_stats birthdate w = (Return r, w) /\
    Release.compute_time_stats birthdate w = (Return r, w) /\
    (0 <= hour_pct r < 100)%Q /\
    (0 <= day_pct r < 100)%Q.
Proof.
  intros Hw Hb.
  destruct (compute_time_stats_run birthdate w Hw Hb) as (r & Hr & _ & Hh & Hd & _).
  exists r. split; [exact Hr|].
  split; [rewrite compute_time_stats_same; exact Hr|].
  apply valid_datetime_iff in Hw. destruct Hw as (_ & H1 & H2 & H3 & H4).
  rewrite Hh, Hd. split.
  - apply hour_pct_bounds; assumption.
  - apply day_pct_bounds; assumption.
Qed.

Lemma percentages_in_range_witness :
  valid_datetime (clock scenario_world) = true /\
  valid_date scenario_birthdate = true /\
  exists r, En.compute_time_stats scenario_birthdate scenario_world
            = (Return r, scenario_world) /\ (hour_pct r < 100)%Q.
Proof.
  split; [reflexivity|]. split; [reflexivity|].
  destruct (percentages_in_range scenario_birthdate scenario_world eq_refl eq_refl)
    as (r & He & _ & Hh & _).
  exists r. split; [exact He | exact (proj2 Hh)].
Defined.

(** C5: the returned [days_to_next] is [next_hundred - days_alive] floored
    at 0, the floor never applies, and the value is at least 0. *)
Theorem days_to_next_is_difference birthdate w :
  valid_datetime (clock w) = true -> valid_date birthdate = true ->
  exists r,
    En.compute_time_stats birthdate w = (Return r, w) /\
    Release.compute_time_stats birthdate w = (Return r, w) /\
    days_to_next r = Z.max 0 (next_hundred r - days_alive r) /\
    days_to_next r = next_hundred r - days_alive r /\
    0 <= days_to_next r.
Proof.
  intros Hw Hb.
  destruct (both_editions_run birthdate w Hw Hb) as (r & He & Hr & Hda & Hnh & Hdn).
  exists r. split; [exact He|]. split; [exact Hr|]. split; [exact Hdn|].
  pose proof (days_alive_range birthdate w Hw Hb) as Hrange. rewrite <- Hda in Hrange.
  rewrite Hdn, Hnh. Z.div_mod_to_equations. lia.
Qed.

Lemma days_to_next_is_difference_witness :
  valid_datetime (clock scenario_world) = true /\
  valid_date scenario_birthdate = true /\
  exists r, En.compute_time_stats scenario_birthdate scenario_world
            = (Return r, scenario_world) /\ 0 <= days_to_next r.
Proof.
  split; [reflexivity|]. split; [reflexivity|].
  destruct (days_to_next_is_difference scenario_birthdate scenario_world
              eq_refl eq_refl) as (r & He & _ & _ & _ & H0).
  exists r. split; [exact He | exact H0].
Defined.

(** C10: the returned [days_to_next] lies between 1 and 100 inclusive. *)
Theorem days_to_next_between_1_and_100 birthdate w :
  valid_datetime (clock w) = true -> valid_date birthdate = true ->
  exists r,
    En.compute_time_stats birthdate w = (Return r, w) /\
    Release.compute_time_stats birthdate w = (Return r, w) /\
    1 <= days_to_next r <= 100.
Proof.
  intros Hw Hb.
  destruct (both_editions_run birthdate w Hw Hb) as (r & He & Hr & Hda & Hnh & Hdn).
  exists r. split; [exact He|]. split; [exact Hr|].
  pose proof (days_alive_range birthdate w Hw Hb) as Hrange. rewrite <- Hda in Hrange.
  rewrite Hdn, Hnh. Z.div_mod_to_equations. lia.
Qed.

Lemma days_to_next_between_1_and_100_witness :
  valid_datetime (clock scenario_world) = true /\
  valid_date scenario_birthdate = true /\
  exists r, En.compute_time_stats scenario_birthdate scenario_world
            = (Return r, scenario_world) /\ 1 <= days_to_next r <= 100.
Proof.
  split; [reflexivity|]. split; [reflexivity|].
  destruct (days_to_next_between_1_and_100 scenario_birthdate scenario_world
              eq_refl eq_refl) as (r & He & _ & H).
  exists r. split; [exact He | exact H].
Defined.

(** C6: for every timestamp and every birthdate [compute_time_stats]
    returns its six-field record: no exception is raised and the world
    (the clock, the configuration file) is left as it was.  A birthdate
    after the timestamp's date gives 0 elapsed days, and the oldest
    birthdate gives a count that is still below the 3652059 days of the
    calendar. *)
Theorem compute_time_stats_total birthdate w :
  valid_datetime (clock w) = true -> valid_date birthdate = true ->
  exists r,
    En.compute_time_stats birthdate w = (Return r, w) /\
    Release.compute_time_stats birthdate w = (Return r, w) /\
    now r = clock w /\
    (date_gt birthdate (datetime_date (clock w)) = true -> days_alive r = 0) /\
    0 <= days_alive r < 3652059.
Proof.
  intros Hw Hb.
  destruct (compute_time_stats_run birthdate w Hw Hb)
    as (r & Hr & Hn & _ & _ & Hda & _).
  exists r. split; [exact Hr|].
  split; [rewrite compute_time_stats_same; exact Hr|].
  split; [exact Hn|].
  apply valid_datetime_iff in Hw. destruct Hw as (Hd & _).
  pose proof (toordinal_bounds _ Hd). pose proof (toordinal_bounds _ Hb).
  split; [|lia].
  intros Hgt. apply (date_gt_toordinal _ _ Hb Hd) in Hgt. lia.
Qed.

Lemma compute_time_stats_total_witness :
  valid_datetime (clock scenario_world) = true /\
  valid_date (mkdate 1 1 1) = true /\
  exists r, En.compute_time_stats (mkdate 1 1 1) scenario_world
            = (Return r, scenario_world).
Proof.
  split; [reflexivity|]. split; [reflexivity|].
  destruct (compute_time_stats_total (mkdate 1 1 1) scenario_world eq_refl eq_refl)
    as (r & He & _).
  exists r. exact He.
Defined.

(** C7: the outcome of [compute_time_stats] is a function of the clock
    reading and the birthdate alone: two worlds that agree on the clock
    give the same outcome whatever else they hold, the call leaves the
    world as it was, and so a second call right after the first gives the
    same outcome again. *)
Theorem compute_time_stats_deterministic birthdate w1 w2 :
  clock w1 = clock w2 ->
  fst (En.compute_time_stats birthdate w1) = fst (En.compute_time_stats birthdate w2) /\
  fst (Release.compute_time_stats birthdate w1)
    = fst (Release.compute_time_stats birthdate w2) /\
  snd (En.compute_time_stats birthdate w1) = w1 /\
  fst (En.compute_time_stats birthdate (snd (En.compute_time_stats birthdate w1)))
    = fst (En.compute_time_stats birthdate w1).
Proof.
  intros Hc.
  assert (E : fst (En.compute_time_stats birthdate w1)
              = fst (En.compute_time_stats birthdate w2)).
  { rewrite (compute_time_stats_reads_clock birthdate w1),
            (compute_time_stats_reads_clock birthdate w2), Hc. reflexivity. }
  assert (S1 : snd (En.compute_time_stats birthdate w1) = w1).
  { rewrite (compute_time_stats_reads_clock birthdate w1). reflexivity. }
  split; [exact E|]. split; [rewrite !compute_time_stats_same; exact E|].
  split; [exact S1|]. rewrite S1. reflexivity.
Qed.

Lemma compute_time_stats_deterministic_witness :
  clock scenario_world = clock boolean_year_world /\
  fst (En.compute_time_stats scenario_birthdate scenario_world)
    = fst (En.compute_time_stats scenario_birthdate boolean_year_world).
Proof.
  split; [reflexivity|].
  exact (proj1 (compute_time_stats_deterministic scenario_birthdate
                  scenario_world boolean_year_world eq_refl)).
Defined.

(** C8 (evaluation at the failing input): for the configuration file
    [{"year": true, "month": 1, "day": 1}], whose [year] is not an integer,
    the read policy gives no configuration, yet both editions of
    [load_birthdate_from_config] return the date 0001-01-01. *)
Theorem load_birthdate_accepts_boolean :
  Spec.config_date (config boolean_year_world)
    (datetime_date (clock boolean_year_world)) = None /\
  En.load_birthdate_from_config boolean_year_world
    = (Return (Some (mkdate 1 1 1)), boolean_year_world) /\
  Release.load_birthdate_from_config boolean_year_world
    = (Return (Some (mkdate 1 1 1)), boolean_year_world).
Proof. vm_compute. repeat split. Qed.

(** C9: the two editions of [compute_time_stats] agree on every birthdate
    and every world: same outcome, same world afterwards. *)
Theorem editions_agree birthdate w :
  En.compute_time_stats birthdate w = Release.compute_time_stats birthdate w.
Proof.
  unfold Release.compute_time_stats, En.compute_time_stats.
  rewrite float_of_int_3600, float_of_int_86400. reflexivity.
Qed.

End Claims.

(** * The windows and the configuration file *)

(** ** The loader and the saver on every world *)

Section LoaderRuns.

Import Float Calendar Py Builtins.

Lemma as_index_int_value x w :
  as_index x w = match int_value x with
                 | Some n => (Return n, w)
                 | None => (Raise TypeError, w)
                 end.
Proof. destruct x as [| [] | | | | |]; reflexivity. Qed.

Lemma isinstance_int_value x : isinstance_int x = true <-> exists n, int_value x = Some n.
Proof.
  destruct x; cbn; split; intros H; try discriminate; try (destruct H; discriminate);
    eauto.
Qed.

(** What [date(y, m, d)] does on [int] instances. *)
Lemma date_new_int_values y m d yi mi di w :
  int_value y = Some yi -> int_value m = Some mi -> int_value d = Some di ->
  exists e,
    date_new y m d w =
    if valid_date (mkdate yi mi di) then (Return (mkdate yi mi di), w) else (Raise e, w).
Proof.
  intros Hy Hm Hd. unfold date_new, bind.
  rewrite as_index_int_value, Hy. cbv beta iota.
  rewrite as_index_int_value, Hm. cbv beta iota.
  rewrite as_index_int_value, Hd. cbv beta iota. unfold ret, raise.
  destruct (valid_date (mkdate yi mi di)) eqn:V.
  - rewrite (valid_date_small _ _ _ V). exists ValueError. reflexivity.
  - destruct (_ && _); eexists; reflexivity.
Qed.

Lemma load_birthdate_run w :
  En.load_birthdate_from_config w =
  (Return (loaded (config w) (datetime_date (clock w))), w).
Proof.
  unfold En.load_birthdate_from_config, bind, try_except, path_exists, json_load_config.
  unfold loaded. cbv beta.
  destruct (config w) as [| | |data] eqn:Ec; cbn [negb]; cbv beta iota;
    rewrite ?Ec; try reflexivity.
  destruct data as [| | | | | |d]; try reflexivity.
  unfold py_get, ret. cbv beta iota.
  set (y := default PNone (d !! "year")). set (m := default PNone (d !! "month")).
  set (dd := default PNone (d !! "day")).
  cbn [forallb].
  destruct (int_value y) as [yi|] eqn:Hy.
  2:{ assert (isinstance_int y = false) as ->.
      { destruct (isinstance_int y) eqn:E; [|reflexivity].
        apply isinstance_int_value in E. destruct E as [n E]. congruence. }
      reflexivity. }
  assert (isinstance_int y = true) as -> by (apply isinstance_int_value; eauto).
  destruct (int_value m) as [mi|] eqn:Hm.
  2:{ assert (isinstance_int m = false) as ->.
      { destruct (isinstance_int m) eqn:E; [|reflexivity].
        apply isinstance_int_value in E. destruct E as [n E]. congruence. }
      reflexivity. }
  assert (isinstance_int m = true) as -> by (apply isinstance_int_value; eauto).
  destruct (int_value dd) as [di|] eqn:Hd.
  2:{ assert (isinstance_int dd = false) as ->.
      { destruct (isinstance_int dd) eqn:E; [|reflexivity].
        apply isinstance_int_value in E. destruct E as [n E]. congruence. }
      reflexivity. }
  assert (isinstance_int dd = true) as -> by (apply isinstance_int_value; eauto).
  cbn [andb]. cbv beta iota.
  destruct (date_new_int_values y m dd yi mi di w Hy Hm Hd) as [e ->].
  unfold date_today.
  destruct (valid_date (mkdate yi mi di)); cbn [andb]; [|reflexivity].
  cbv beta iota. destruct (date_le _ _); reflexivity.
Qed.

Lemma loaded_valid c today bd :
  loaded c today = Some bd -> valid_date bd = true /\ date_le bd today = true.
Proof.
  unfold loaded. destruct c as [| | |[| | | | | |d]]; try discriminate.
  destruct (int_value _) as [y|]; try discriminate.
  destruct (int_value _) as [m|]; try discriminate.
  destruct (int_value _) as [dd|]; try discriminate.
  destruct (valid_date _) eqn:V; cbn [andb]; try discriminate.
  destruct (date_le _ _) eqn:L; try discriminate.
  intros [= <-]. split; assumption.
Qed.

End LoaderRuns.

Section LoaderProperties.

Import Float Calendar Py Builtins.

(** X1: on every world both editions of [load_birthdate_from_config]
    return without raising and leave the world as it was, they return the
    same value, and a date they return is a calendar date that is not
    after the current date. *)
Theorem load_birthdate_never_raises w :
  exists o,
    En.load_birthdate_from_config w = (Return o, w) /\
    Release.load_birthdate_from_config w = (Return o, w) /\
    forall bd, o = Some bd ->
      valid_date bd = true /\ date_le bd (datetime_date (clock w)) = true.
Proof.
  exists (loaded (config w) (datetime_date (clock w))).
  split; [apply load_birthdate_run|].
  split; [rewrite load_birthdate_same; apply load_birthdate_run|].
  intros bd H. exact (loaded_valid _ _ _ H).
Qed.

(** X2: the loader returns the date [bd] exactly when the file parses to a
    JSON object whose [year], [month] and [day] are present and are [int]
    instances (integers, or booleans counted as 1 and 0) with the values of
    [bd], and [bd] is a calendar date not after the current date. *)
Theorem load_birthdate_returns_iff w bd :
  fst (En.load_birthdate_from_config w) = Return (Some bd) <->
  exists d,
    config w = Parsed (PDict d) /\
    int_value (default PNone (d !! "year")) = Some (year bd) /\
    int_value (default PNone (d !! "month")) = Some (month bd) /\
    int_value (default PNone (d !! "day")) = Some (day bd) /\
    valid_date bd = true /\
    date_le bd (datetime_date (clock w)) = true.
Proof.
  rewrite load_birthdate_run. cbn [fst]. unfold loaded. split.
  - intros H. destruct (config w) as [| | |[| | | | | |d]]; try discriminate.
    exists d. split; [reflexivity|].
    destruct (int_value _) as [y|]; try discriminate.
    destruct (int_value _) as [m|]; try discriminate.
    destruct (int_value _) as [dd|]; try discriminate.
    destruct (valid_date _) eqn:V; cbn [andb] in H; try discriminate.
    destruct (date_le _ _) eqn:L; try discriminate.
    injection H as <-. cbn [year month day]. repeat split; assumption.
  - intros (d & -> & Hy & Hm & Hd & V & L).
    rewrite Hy, Hm, Hd. destruct bd as [y m dd]. cbn [year month day].
    rewrite V, L. reflexivity.
Qed.

Lemma save_run bd w :
  En.save_birthdate_to_config bd w =
  (Return tt,
   if writable w
   then mkWorld (clock w)
          (Parsed (PDict (<["year" := PInt (year bd)]>
                         (<["month" := PInt (month bd)]>
                         (<["day" := PInt (day bd)]> ∅))))) true
   else w).
Proof.
  unfold En.save_birthdate_to_config, try_except, json_dump_config.
  destruct (writable w) eqn:E; reflexivity.
Qed.

Lemma save_same bd w :
  Release.save_birthdate_to_config bd w = En.save_birthdate_to_config bd w.
Proof. reflexivity. Qed.

Lemma loaded_saved bd today :
  loaded (Parsed (PDict (<["year" := PInt (year bd)]>
                        (<["month" := PInt (month bd)]>
                        (<["day" := PInt (day bd)]> ∅))))) today
  = if valid_date bd && date_le bd today then Some bd else None.
Proof.
  unfold loaded.
  rewrite lookup_insert_eq.
  rewrite lookup_insert_ne by discriminate. rewrite lookup_insert_eq.
  rewrite !lookup_insert_ne by discriminate. rewrite lookup_insert_eq.
  cbn [default from_option id int_value]. destruct bd; reflexivity.
Qed.




(** X5: a birthday later than the current date can be saved but is not
    read back: after saving it on a writable file, both loaders return
    [None]. *)
Theorem saved_future_birthday_is_rejected bd w :
  writable w = true -> date_gt bd (datetime_date (clock w)) = true ->
  exists w',
    En.save_birthdate_to_config bd w = (Return tt, w') /\
    En.load_birthdate_from_config w' = (Return None, w') /\
    Release.load_birthdate_from_config w' = (Return None, w').
Proof.
  intros Hw Hgt. pose proof (save_run bd w) as Hs. rewrite Hw in Hs.
  eexists. split; [exact Hs|].
  rewrite load_birthdate_same, load_birthdate_run. cbn [config clock].
  rewrite loaded_saved. rewrite date_gt_le in Hgt.
  destruct (date_le bd _); [discriminate|].
  rewrite andb_false_r. split; reflexivity.
Qed.

Lemma saved_future_birthday_is_rejected_witness :
  writable scenario_world = true /\
  date_gt (mkdate 2999 1 1) (datetime_date (clock scenario_world)) = true /\
  exists w', En.save_birthdate_to_config (mkdate 2999 1 1) scenario_world
             = (Return tt, w') /\
             En.load_birthdate_from_config w' = (Return None, w').
Proof.
  split; [reflexivity|]. split; [reflexivity|].
  destruct (saved_future_birthday_is_rejected (mkdate 2999 1 1) scenario_world
              eq_refl eq_refl) as (w' & Hs & Hl & _).
  exists w'. split; [exact Hs | exact Hl].
Defined.

End LoaderProperties.

(** ** Truncation and clamping *)

Section BuiltinFacts.

Import Float Builtins.
Local Open Scope Q_scope.

Lemma Qle_bool_false a b : Qle_bool a b = false <-> b < a.
Proof.
  split; intros H.
  - apply Qnot_le_lt. intros L. apply Qle_bool_iff in L. congruence.
  - destruct (Qle_bool a b) eqn:E; [|reflexivity].
    apply Qle_bool_iff in E. lra.
Qed.

Lemma py_int_nonneg x : 0 <= x -> py_int x = Qfloor x.
Proof. intros H. unfold py_int. apply Qle_bool_iff in H. rewrite H. reflexivity. Qed.

Lemma py_int_neg x : x < 0 -> py_int x = Qceiling x.
Proof. intros H. unfold py_int. apply Qle_bool_false in H. rewrite H. reflexivity. Qed.

Lemma py_int_mono x y : x <= y -> (py_int x <= py_int y)%Z.
Proof.
  intros H.
  destruct (Qlt_le_dec x 0) as [Hx|Hx]; destruct (Qlt_le_dec y 0) as [Hy|Hy].
  - rewrite !py_int_neg by assumption. apply Qceiling_resp_le, H.
  - rewrite py_int_neg, py_int_nonneg by assumption.
    assert (Qceiling x <= Qceiling 0)%Z by (apply Qceiling_resp_le; lra).
    assert (Qfloor 0 <= Qfloor y)%Z by (apply Qfloor_resp_le; lra).
    change (Qceiling 0) with 0%Z in *. change (Qfloor 0) with 0%Z in *. lia.
  - lra.
  - rewrite !py_int_nonneg by assumption. apply Qfloor_resp_le, H.
Qed.

Lemma py_int_compat x y : x == y -> py_int x = py_int y.
Proof. intros E. apply Z.le_antisymm; apply py_int_mono; rewrite E; apply Qle_refl. Qed.

(** The clamp of [setPercents]. *)
Ltac clamp_cases x :=
  unfold py_max, py_min;
  let E1 := fresh "E" in
  let E2 := fresh "E" in
  destruct (Qle_bool 100 x) eqn:E1;
  [apply Qle_bool_iff in E1 | apply Qle_bool_false in E1];
  match goal with
  | |- context [Qle_bool ?a 0] =>
      destruct (Qle_bool a 0) eqn:E2;
      [apply Qle_bool_iff in E2 | apply Qle_bool_false in E2]
  end.

Lemma clamp_range x : 0 <= py_max 0 (py_min 100 x) <= 100.
Proof. clamp_cases x; lra. Qed.

Lemma clamp_inside x : 0 <= x <= 100 -> py_max 0 (py_min 100 x) == x.
Proof. intros [H0 H1]. clamp_cases x; lra. Qed.

Lemma clamp_below x : x <= 0 -> py_max 0 (py_min 100 x) == 0.
Proof. intros H. clamp_cases x; lra. Qed.

Lemma clamp_above x : 100 <= x -> py_max 0 (py_min 100 x) == 100.
Proof. intros H. clamp_cases x; lra. Qed.

Lemma fsub_antitone a b b' : b <= b' -> fsub a b' <= fsub a b.
Proof. intros H. apply round_b64_mono. lra. Qed.

End BuiltinFacts.

(** ** Rounding commutes with scaling by a power of two *)

Section ScalingFacts.

Import Float Builtins.
Local Open Scope Q_scope.

#[global] Instance round_b64_Proper : Proper (Qeq ==> Qeq) round_b64.
Proof. intros x y E. apply round_b64_compat, E. Qed.

Lemma round_pos_form x : 0 < x ->
  exists m e, (0 <= m < 2 ^ prec)%Z /\ (emin <= e)%Z /\
              round_pos x == inject_Z m * pow2 e.
Proof.
  intros Hx. pose proof (round_pos_eq x) as E. set (c := cexp x) in *.
  set (n := rne (x * pow2 (- c))) in *.
  assert (Hn0 : (0 <= n)%Z).
  { apply rne_ge. change (inject_Z 0) with 0. pose proof (pow2_pos (- c)). nra. }
  assert (Hn1 : (n <= 2 ^ prec)%Z).
  { apply rne_le. apply Qlt_le_weak. apply scaled_lt, Hx. }
  pose proof (cexp_ge x) as Hc. fold c in Hc.
  destruct (Z.eq_dec n (2 ^ prec)) as [En|Nn].
  - exists (2 ^ (prec - 1))%Z, (c + 1)%Z. split; [unfold prec; lia|]. split; [lia|].
    rewrite E, En, pow2_add. change (pow2 1) with 2.
    change (inject_Z (2 ^ prec)) with (2 * inject_Z (2 ^ (prec - 1))). ring.
  - exists n, c. split; [lia|]. split; [lia|]. exact E.
Qed.

(** A rounded number is a binary64 number. *)
Lemma round_b64_form x :
  exists m e, (Z.abs m < 2 ^ prec)%Z /\ (emin <= e)%Z /\
              round_b64 x == inject_Z m * pow2 e.
Proof.
  destruct (Q_dec x 0) as [[Hx|Hx]|Hx].
  - rewrite (round_b64_neg x Hx).
    destruct (round_pos_form (- x) ltac:(lra)) as (m & e & Hm & He & E).
    exists (- m)%Z, e. split; [lia|]. split; [exact He|].
    rewrite E, inject_Z_opp. ring.
  - rewrite (round_b64_pos x Hx).
    destruct (round_pos_form x Hx) as (m & e & Hm & He & E).
    exists m, e. split; [lia|]. split; [exact He|]. exact E.
  - rewrite (round_b64_zero x Hx). exists 0%Z, 0%Z.
    split; [unfold prec; lia|]. split; [unfold emin; lia|]. reflexivity.
Qed.

Lemma round_pos_scale k y :
  (0 <= k)%Z -> pow2 (emin + prec - 1) <= y ->
  round_pos (pow2 k * y) == pow2 k * round_pos y.
Proof.
  intros Hk Hy.
  pose proof (pow2_pos (emin + prec - 1)) as P0. pose proof (pow2_pos k) as Pk.
  assert (Hy0 : 0 < y) by lra.
  destruct (ilog2_spec y Hy0) as [L1 L2].
  assert (HL : (emin + prec - 1 <= ilog2 y)%Z).
  { assert (emin + prec - 1 < ilog2 y + 1)%Z by (apply pow2_lt_inv; lra). lia. }
  assert (EL : ilog2 (pow2 k * y) = (ilog2 y + k)%Z).
  { apply ilog2_unique.
    - rewrite pow2_add. rewrite (Qmult_comm (pow2 (ilog2 y))).
      apply Qmult_le_l; assumption.
    - replace (ilog2 y + k + 1)%Z with (k + (ilog2 y + 1))%Z by lia.
      rewrite pow2_add. apply Qmult_lt_l; assumption. }
  assert (Ec : cexp (pow2 k * y) = (cexp y + k)%Z).
  { unfold cexp. rewrite EL. unfold prec, emin in *. lia. }
  rewrite !round_pos_eq, Ec.
  assert (Es : pow2 k * y * pow2 (- (cexp y + k)) == y * pow2 (- cexp y)).
  { replace (- (cexp y + k))%Z with (- cexp y + - k)%Z by lia.
    rewrite pow2_add, (pow2_opp k). field. apply pow2_nz. }
  rewrite (rne_compat _ _ Es), pow2_add. ring.
Qed.

(** Scaling by a power of two commutes with rounding, for a normal [y]. *)
Lemma round_b64_scale k y :
  (0 <= k)%Z -> pow2 (emin + prec - 1) <= Qabs y ->
  round_b64 (pow2 k * y) == pow2 k * round_b64 y.
Proof.
  intros Hk Hy. pose proof (pow2_pos (emin + prec - 1)) as P0.
  pose proof (pow2_pos k) as Pk.
  destruct (Qlt_le_dec y 0) as [Hn|Hp].
  - rewrite Qabs_neg in Hy by lra.
    assert (Hx : pow2 k * y < 0) by nra.
    rewrite (round_b64_neg _ Hx), (round_b64_neg _ Hn).
    assert (E : - (pow2 k * y) == pow2 k * - y) by ring.
    assert (E2 : round_pos (- (pow2 k * y)) == round_pos (pow2 k * - y)).
    { apply Qle_antisym; apply round_pos_mono; rewrite ?E; try nra; rewrite <- E; nra. }
    rewrite E2, round_pos_scale by assumption. ring.
  - rewrite Qabs_pos in Hy by assumption.
    assert (Hx : 0 < pow2 k * y) by nra.
    rewrite (round_b64_pos _ Hx), (round_b64_pos y ltac:(lra)).
    apply round_pos_scale; assumption.
Qed.

End ScalingFacts.

Section SpanFacts.

Import Float Builtins.
Local Open Scope Q_scope.

Lemma round_b64_fix_eq x m e :
  (Z.abs m < 2 ^ prec)%Z -> (emin <= e)%Z -> x == inject_Z m * pow2 e ->
  round_b64 x == x.
Proof.
  intros Hm He E. rewrite (round_b64_compat _ _ E), round_b64_fix by assumption.
  symmetry. exact E.
Qed.

(** [(-360 * q) * 16] and [(-360 * 16) * q] round to the same float. *)
Lemma span_scale q :
  (exists m e, (Z.abs m < 2 ^ prec)%Z /\ (emin <= e)%Z /\ q == inject_Z m * pow2 e) ->
  round_b64 (round_b64 ((-360 # 1) * q) * (16 # 1)) == round_b64 ((-5760 # 1) * q).
Proof.
  intros (m & e & Hm & He & Eq).
  set (y := (-360 # 1) * q).
  assert (E16 : (-5760 # 1) * q == pow2 4 * y) by (unfold y; change (pow2 4) with 16; ring).
  rewrite (round_b64_compat _ _ E16).
  destruct (Qlt_le_dec (Qabs y) (pow2 (emin + prec - 1))) as [Hs|Hn].
  - (* y is small: everything is exact *)
    assert (Ey : y == inject_Z (-360 * m) * pow2 e).
    { unfold y. rewrite Eq, inject_Z_mult. change (inject_Z (-360)) with (-360 # 1). ring. }
    assert (Hm' : (Z.abs (-360 * m) < 2 ^ prec)%Z).
    { assert (Hlt : inject_Z (Z.abs (-360 * m)) < pow2 (prec - 1)).
      { assert (Ea : Qabs y == inject_Z (Z.abs (-360 * m)) * pow2 e).
        { rewrite Ey, Qabs_Qmult, (Qabs_pos (pow2 e)) by (apply Qlt_le_weak, pow2_pos).
          reflexivity. }
        rewrite Ea in Hs.
        assert (P : pow2 (emin + prec - 1) <= pow2 (e + (prec - 1))) by (apply pow2_le; lia).
        rewrite pow2_add in P. pose proof (pow2_pos e) as Pe.
        pose proof (pow2_pos (prec - 1)) as Pp.
        apply Qnot_le_lt. intros C.
        assert (pow2 e * pow2 (prec - 1) <= inject_Z (Z.abs (-360 * m)) * pow2 e) by nra.
        lra. }
      rewrite (pow2_Z (prec - 1)) in Hlt by (unfold prec; lia).
      rewrite <- Zlt_Qlt in Hlt. unfold prec in *. lia. }
    assert (R1 : round_b64 y == y) by (apply (round_b64_fix_eq y _ e Hm' He Ey)).
    assert (E2 : pow2 4 * y == inject_Z (-360 * m) * pow2 (e + 4)).
    { rewrite Ey, pow2_add. ring. }
    assert (R2 : round_b64 (pow2 4 * y) == pow2 4 * y)
      by (apply (round_b64_fix_eq _ _ (e + 4)%Z Hm' ltac:(lia) E2)).
    assert (E3 : round_b64 y * (16 # 1) == pow2 4 * y)
      by (rewrite R1; change (pow2 4) with 16; ring).
    rewrite (round_b64_compat _ _ E3), R2. reflexivity.
  - (* y is normal: scaling commutes with rounding *)
    rewrite (round_b64_scale 4 y ltac:(lia) Hn).
    destruct (round_b64_form y) as (m' & e' & Hm' & He' & E').
    assert (E2 : round_b64 y * (16 # 1) == inject_Z m' * pow2 (e' + 4)).
    { rewrite E', pow2_add. change (pow2 4) with 16. ring. }
    rewrite (round_b64_fix_eq _ _ (e' + 4)%Z Hm' ltac:(lia) E2).
    change (pow2 4) with 16. ring.
Qed.

End SpanFacts.

(** ** The ring widget *)

Section WidgetFacts.

Import Float Builtins Qt.

Lemma float_of_int_100 : float_of_int 100 = (100 # 1)%Q.
Proof. vm_compute. reflexivity. Qed.

Lemma float_of_int_m5760 : float_of_int (-360 * 16) = (-5760 # 1)%Q.
Proof. vm_compute. reflexivity. Qed.

Lemma float_of_int_m360 : float_of_int (-360) = (-360 # 1)%Q.
Proof. vm_compute. reflexivity. Qed.

Lemma float_of_int_16 : float_of_int 16 = (16 # 1)%Q.
Proof. vm_compute. reflexivity. Qed.

Lemma float_of_int_m16 : float_of_int (-16) = (-16 # 1)%Q.
Proof. vm_compute. reflexivity. Qed.

(** The span of an arc, in sixteenths of a degree, as the English
    edition computes it and as the release edition does. *)
Lemma span_editions_agree p :
  py_int (fmul (fmul (-360 # 1) (fdiv p (100 # 1))) (16 # 1))
  = py_int (fmul (-5760 # 1) (fdiv p (100 # 1))).
Proof.
  unfold fmul. apply py_int_compat. apply span_scale.
  unfold fdiv. apply round_b64_form.
Qed.

Lemma span_antitone p p' : (p <= p')%Q ->
  py_int (fmul (-5760 # 1) (fdiv p' (100 # 1)))
  <= py_int (fmul (-5760 # 1) (fdiv p (100 # 1))).
Proof.
  intros H. apply py_int_mono. unfold fmul, fdiv. apply round_b64_mono.
  assert (M : (round_b64 (p / (100 # 1)) <= round_b64 (p' / (100 # 1)))%Q).
  { apply round_b64_mono. unfold Qdiv. apply Qmult_le_compat_r; [exact H | discriminate]. }
  clear H. set (a := round_b64 (p / (100 # 1))) in *.
  set (b := round_b64 (p' / (100 # 1))) in *. clearbody a b. lra.
Qed.

Lemma span_range p : (0 <= p <= 100)%Q ->
  -5760 <= py_int (fmul (-5760 # 1) (fdiv p (100 # 1))) <= 0.
Proof.
  intros [H0 H1]. split.
  - etransitivity; [|apply (span_antitone p (100 # 1) H1)]. vm_compute. discriminate.
  - etransitivity; [apply (span_antitone 0%Q p H0)|]. vm_compute. discriminate.
Qed.

End WidgetFacts.

Section RingProperties.

Import Float Builtins Qt.

(** X6: [setPercents] stores each percentage clamped to [0, 100]: the
    stored values always lie in that interval, an argument inside it is
    stored as it is, one below is stored as 0 and one above as 100; the
    two editions store the same values and request a repaint. *)
Theorem setPercents_clamps hour_pct day_pct s1 s2 :
  let a := EnUI.setPercents hour_pct day_pct s1 in
  let b := ReleaseUI.setPercents hour_pct day_pct s2 in
  (0 <= EnUI._hour_percent a <= 100)%Q /\
  (0 <= EnUI._day_percent a <= 100)%Q /\
  ReleaseUI._hour_percent b = EnUI._hour_percent a /\
  ReleaseUI._day_percent b = EnUI._day_percent a /\
  EnUI.update_requested a = true /\ ReleaseUI.update_requested b = true /\
  ((0 <= hour_pct <= 100)%Q -> (EnUI._hour_percent a == hour_pct)%Q) /\
  ((hour_pct <= 0)%Q -> (EnUI._hour_percent a == 0)%Q) /\
  ((100 <= hour_pct)%Q -> (EnUI._hour_percent a == 100)%Q) /\
  ((0 <= day_pct <= 100)%Q -> (EnUI._day_percent a == day_pct)%Q) /\
  ((day_pct <= 0)%Q -> (EnUI._day_percent a == 0)%Q) /\
  ((100 <= day_pct)%Q -> (EnUI._day_percent a == 100)%Q).
Proof.
  cbv zeta. unfold EnUI.setPercents, ReleaseUI.setPercents.
  cbn [EnUI._hour_percent EnUI._day_percent EnUI.update_requested
       ReleaseUI._hour_percent ReleaseUI._day_percent ReleaseUI.update_requested].
  repeat split; try apply clamp_range.
  - apply clamp_inside.
  - apply clamp_below.
  - apply clamp_above.
  - apply clamp_inside.
  - apply clamp_below.
  - apply clamp_above.
Qed.

Lemma En_arcs self w h :
  Forall (fun '(r, a, s) =>
            a = 1440 /\
            (s = py_int (fmul (-5760 # 1) (fdiv (EnUI._day_percent self) (100 # 1))) \/
             s = py_int (fmul (-5760 # 1) (fdiv (EnUI._hour_percent self) (100 # 1)))))
         (drawn_arcs (EnUI.paintEvent self w h)).
Proof.
  unfold EnUI.paintEvent. cbv zeta.
  destruct (_ <=? 0); [constructor|].
  rewrite float_of_int_m5760, float_of_int_100.
  unfold drawn_arcs. cbn [omap list_omap].
  constructor; [split; [reflexivity | left; reflexivity]|].
  constructor; [split; [reflexivity | right; reflexivity]|].
  constructor.
Qed.

Lemma Release_arcs self w h :
  Forall (fun '(r, a, s) =>
            a = 1440 /\
            (s = py_int (fmul (-5760 # 1) (fdiv (ReleaseUI._day_percent self) (100 # 1))) \/
             s = py_int (fmul (-5760 # 1) (fdiv (ReleaseUI._hour_percent self) (100 # 1)))))
         (drawn_arcs (ReleaseUI.paintEvent self w h)).
Proof.
  unfold ReleaseUI.paintEvent. cbv zeta.
  destruct (_ <=? 0); [constructor|].
  rewrite float_of_int_m360, float_of_int_16, !span_editions_agree.
  unfold drawn_arcs. cbn [omap list_omap].
  constructor; [split; [reflexivity | left; reflexivity]|].
  constructor; [split; [reflexivity | right; reflexivity]|].
  constructor.
Qed.

(** X7: whatever percentages are passed to [setPercents], every arc that
    [paintEvent] then draws, at any widget size and in either edition,
    starts at 12 o'clock (1440 sixteenths of a degree) and spans clockwise
    between nothing and one full turn (0 down to -5760). *)
Theorem arcs_stay_within_one_turn hour_pct day_pct s1 s2 w h :
  Forall (fun '(r, a, s) => a = 1440 /\ -5760 <= s <= 0)
    (drawn_arcs (EnUI.paintEvent (EnUI.setPercents hour_pct day_pct s1) w h)) /\
  Forall (fun '(r, a, s) => a = 1440 /\ -5760 <= s <= 0)
    (drawn_arcs (ReleaseUI.paintEvent (ReleaseUI.setPercents hour_pct day_pct s2) w h)).
Proof.
  split.
  - eapply Forall_impl; [apply En_arcs|].
    intros [[r a] s] [Ha [Hs|Hs]]; (split; [exact Ha|]); rewrite Hs;
      apply span_range; apply clamp_range.
  - eapply Forall_impl; [apply Release_arcs|].
    intros [[r a] s] [Ha [Hs|Hs]]; (split; [exact Ha|]); rewrite Hs;
      apply span_range; apply clamp_range.
Qed.

End RingProperties.

Section PaintProperties.

Import Float Builtins Qt.

Lemma round_b64_Z x n :
  Z.abs n < 2 ^ prec -> (x == inject_Z n)%Q -> (round_b64 x == inject_Z n)%Q.
Proof.
  intros Hn E. rewrite (round_b64_compat _ _ E). apply round_b64_int, Hn.
Qed.

Lemma round_b64_half x n :
  Z.abs n < 2 ^ prec -> (x == inject_Z n * (1 # 2))%Q ->
  (round_b64 x == inject_Z n * (1 # 2))%Q.
Proof.
  intros Hn E.
  rewrite (round_b64_fix_eq x n (-1) Hn ltac:(unfold emin; lia) E). exact E.
Qed.

Lemma paint_sides w h : Z.min w h - 8 * 2 = Z.min w h - 16 /\ Z.min w h - 2 * 8 = Z.min w h - 16.
Proof. lia. Qed.

(** X8: [paintEvent] draws nothing but sets the render hint exactly when
    the smaller side of the widget is at most 16 pixels; otherwise it
    draws two ellipses, two arcs and one text, in both editions. *)
Theorem paintEvent_draws_iff_large_enough s1 s2 w h :
  (EnUI.paintEvent s1 w h = [SetRenderHint "Antialiasing" true] <-> Z.min w h <= 16) /\
  (ReleaseUI.paintEvent s2 w h = [SetRenderHint "Antialiasing" true] <-> Z.min w h <= 16) /\
  (length (drawn_ellipses (EnUI.paintEvent s1 w h)) = 2%nat /\
   length (drawn_arcs (EnUI.paintEvent s1 w h)) = 2%nat /\
   length (drawn_texts (EnUI.paintEvent s1 w h)) = 1%nat <-> 16 < Z.min w h) /\
  (length (drawn_ellipses (ReleaseUI.paintEvent s2 w h)) = 2%nat /\
   length (drawn_arcs (ReleaseUI.paintEvent s2 w h)) = 2%nat /\
   length (drawn_texts (ReleaseUI.paintEvent s2 w h)) = 1%nat <-> 16 < Z.min w h).
Proof.
  unfold EnUI.paintEvent, ReleaseUI.paintEvent. cbv zeta.
  destruct (paint_sides w h) as [-> ->].
  destruct (Z.leb_spec (Z.min w h - 16) 0) as [L|L].
  - split; [split; [lia | reflexivity]|].
    split; [split; [lia | reflexivity]|].
    split; (split; [intros [E _]; discriminate E | lia]).
  - split; [split; [discriminate | lia]|].
    split; [split; [discriminate | lia]|].
    split; (split; [lia | intros _; repeat split]).
Qed.

(** X9: both editions draw the same arcs, ellipses and text for the same
    stored percentages at the same size: the release edition's
    [(-360 * p / 100) * 16] and the English edition's [-360 * 16 * (p / 100)]
    round to the same number of sixteenths. *)
Theorem editions_paint_alike s1 s2 w h :
  ReleaseUI._hour_percent s2 = EnUI._hour_percent s1 ->
  ReleaseUI._day_percent s2 = EnUI._day_percent s1 ->
  drawn_arcs (ReleaseUI.paintEvent s2 w h) = drawn_arcs (EnUI.paintEvent s1 w h) /\
  drawn_ellipses (ReleaseUI.paintEvent s2 w h) = drawn_ellipses (EnUI.paintEvent s1 w h) /\
  drawn_texts (ReleaseUI.paintEvent s2 w h) = drawn_texts (EnUI.paintEvent s1 w h).
Proof.
  intros Hh Hd.
  unfold EnUI.paintEvent, ReleaseUI.paintEvent. cbv zeta.
  destruct (paint_sides w h) as [-> ->].
  destruct (_ <=? 0); [repeat split|].
  rewrite float_of_int_m5760, float_of_int_100, float_of_int_m360, float_of_int_16.
  rewrite !span_editions_agree, Hh, Hd.
  repeat split.
Qed.

Lemma editions_paint_alike_witness :
  ReleaseUI._hour_percent ReleaseUI.HourCircleWidget_init
    = EnUI._hour_percent EnUI.HourCircleWidget_init /\
  drawn_arcs (ReleaseUI.paintEvent ReleaseUI.HourCircleWidget_init 240 240)
    = drawn_arcs (EnUI.paintEvent EnUI.HourCircleWidget_init 240 240).
Proof.
  split; [reflexivity|].
  exact (proj1 (editions_paint_alike EnUI.HourCircleWidget_init
                  ReleaseUI.HourCircleWidget_init 240 240 eq_refl eq_refl)).
Defined.

End PaintProperties.

Section RectangleProperties.

Import Float Builtins Qt.

Lemma half_exact n :
  Z.abs n < 2 ^ prec -> (int_truediv n 2 == inject_Z n * (1 # 2))%Q.
Proof.
  intros Hn. unfold int_truediv. apply round_b64_half; [exact Hn|].
  unfold Qdiv. reflexivity.
Qed.

Lemma inner_rect_exact left top side :
  Z.abs left < 2 ^ 40 -> Z.abs top < 2 ^ 40 -> Z.abs side < 2 ^ 40 ->
  let outer := mkQRectF (int_truediv left 2) (int_truediv top 2)
                        (float_of_int side) (float_of_int side) in
  let inner := adjusted outer (float_of_int 16) (float_of_int 16)
                        (float_of_int (-16)) (float_of_int (-16)) in
  (rx outer == inject_Z left * (1 # 2) /\ ry outer == inject_Z top * (1 # 2) /\
   rwidth outer == inject_Z side /\ rheight outer == inject_Z side /\
   rx inner == rx outer + 16 /\ ry inner == ry outer + 16 /\
   rwidth inner == inject_Z (side - 32) /\ rheight inner == inject_Z (side - 32))%Q.
Proof.
  intros Hl Ht Hs outer inner.
  assert (P : 2 ^ 40 < 2 ^ prec) by (unfold prec; lia).
  assert (Ex : (rx outer == inject_Z left * (1 # 2))%Q) by (apply half_exact; unfold prec; lia).
  assert (Ey : (ry outer == inject_Z top * (1 # 2))%Q) by (apply half_exact; unfold prec; lia).
  assert (Ew : (rwidth outer == inject_Z side)%Q) by (apply round_b64_int; unfold prec; lia).
  split; [exact Ex|]. split; [exact Ey|]. split; [exact Ew|]. split; [exact Ew|].
  unfold inner, adjusted. cbn [rx ry rwidth rheight].
  rewrite float_of_int_16, float_of_int_m16.
  assert (Ex2 : (fadd (rx outer) (16 # 1) == rx outer + 16)%Q).
  { unfold fadd. rewrite Ex.
    apply (round_b64_fix_eq _ (left + 32) (-1)); [unfold prec; lia | unfold emin; lia |].
    rewrite inject_Z_plus. change (inject_Z 32) with 32%Q.
    change (pow2 (-1)) with (1 # 2)%Q. ring. }
  assert (Ey2 : (fadd (ry outer) (16 # 1) == ry outer + 16)%Q).
  { unfold fadd. rewrite Ey.
    apply (round_b64_fix_eq _ (top + 32) (-1)); [unfold prec; lia | unfold emin; lia |].
    rewrite inject_Z_plus. change (inject_Z 32) with 32%Q.
    change (pow2 (-1)) with (1 # 2)%Q. ring. }
  assert (Ew1 : (fadd (rwidth outer) (-16 # 1) == inject_Z (side - 16))%Q).
  { unfold fadd. apply round_b64_Z; [unfold prec; lia|]. rewrite Ew.
    unfold Z.sub. rewrite inject_Z_plus. reflexivity. }
  assert (Ew2 : (fsub (fadd (rwidth outer) (-16 # 1)) (16 # 1) == inject_Z (side - 32))%Q).
  { unfold fsub. apply round_b64_Z; [unfold prec; lia|]. rewrite Ew1.
    replace (side - 32) with (side - 16 + - 16) by lia.
    rewrite (inject_Z_plus (side - 16)). reflexivity. }
  split; [exact Ex2|]. split; [exact Ey2|]. split; exact Ew2.
Qed.

(** X10: at any size with a smaller side above 16 pixels (sizes being C
    ints), both editions draw their ellipses and arcs in the same two
    rectangles: an outer square of side [min(w, h) - 16] centred in the
    widget, hence at least 8 pixels inside it on every side, and an inner
    one 16 pixels further in, of side [min(w, h) - 48], which is empty or
    inverted unless the smaller side exceeds 48 pixels. *)
Theorem ring_rectangles s1 s2 w h :
  0 <= w < 2 ^ 31 -> 0 <= h < 2 ^ 31 -> 16 < Z.min w h ->
  exists outer inner,
    drawn_ellipses (EnUI.paintEvent s1 w h) = [outer; inner] /\
    drawn_ellipses (ReleaseUI.paintEvent s2 w h) = [outer; inner] /\
    map (fun '(r, _, _) => r) (drawn_arcs (EnUI.paintEvent s1 w h)) = [outer; inner] /\
    (rwidth outer == inject_Z (Z.min w h - 16) /\
     rheight outer == inject_Z (Z.min w h - 16) /\
     2 * rx outer + rwidth outer == inject_Z w /\
     2 * ry outer + rheight outer == inject_Z h /\
     8 <= rx outer /\ 8 <= ry outer /\
     rx inner == rx outer + 16 /\ ry inner == ry outer + 16 /\
     rwidth inner == inject_Z (Z.min w h - 48) /\
     rheight inner == inject_Z (Z.min w h - 48) /\
     (0 < rwidth inner <-> inject_Z 48 < inject_Z (Z.min w h)))%Q.
Proof.
  intros Hw Hh Hmin.
  unfold EnUI.paintEvent, ReleaseUI.paintEvent. cbv zeta.
  destruct (paint_sides w h) as [-> ->].
  destruct (Z.leb_spec (Z.min w h - 16) 0) as [L|L]; [lia|].
  set (side := Z.min w h - 16) in *.
  eexists. eexists.
  split; [reflexivity|]. split; [reflexivity|]. split; [reflexivity|].
  assert (B : 2 ^ 31 < 2 ^ 40) by lia.
  destruct (inner_rect_exact (w - side) (h - side) side
              ltac:(lia) ltac:(lia) ltac:(lia))
    as (Ex & Ey & Ew & Eh & Ex2 & Ey2 & Ew2 & Eh2).
  cbv zeta in *.
  split; [exact Ew|]. split; [exact Eh|].
  split; [rewrite Ex, Ew; unfold Z.sub; rewrite inject_Z_plus, inject_Z_opp; ring|].
  split; [rewrite Ey, Eh; unfold Z.sub; rewrite inject_Z_plus, inject_Z_opp; ring|].
  assert (Q1 : (16 <= inject_Z (w - side))%Q).
  { change 16%Q with (inject_Z 16). rewrite <- Zle_Qle. unfold side. lia. }
  assert (Q2 : (16 <= inject_Z (h - side))%Q).
  { change 16%Q with (inject_Z 16). rewrite <- Zle_Qle. unfold side. lia. }
  split; [rewrite Ex; lra|]. split; [rewrite Ey; lra|].
  split; [exact Ex2|]. split; [exact Ey2|].
  replace (Z.min w h - 48) with (side - 32) by (unfold side; lia).
  split; [exact Ew2|]. split; [exact Eh2|].
  rewrite Ew2. change 0%Q with (inject_Z 0). rewrite <- !Zlt_Qlt. unfold side. lia.
Qed.

Lemma ring_rectangles_witness :
  0 <= 240 < 2 ^ 31 /\ 16 < Z.min 240 240 /\
  exists outer inner,
    drawn_ellipses (EnUI.paintEvent EnUI.HourCircleWidget_init 240 240)
      = [outer; inner] /\ (rwidth inner == inject_Z (Z.min 240 240 - 48))%Q.
Proof.
  split; [lia|]. split; [reflexivity|].
  destruct (ring_rectangles EnUI.HourCircleWidget_init ReleaseUI.HourCircleWidget_init
              240 240 ltac:(lia) ltac:(lia) eq_refl)
    as (outer & inner & He & _ & _ & G).
  exists outer, inner. split; [exact He|]. exact (proj1 (proj2 (proj2 (proj2 (proj2 (proj2 (proj2 (proj2 (proj2 G))))))))).
Defined.

End RectangleProperties.

(** ** [updateClock] *)

Section UpdateFacts.

Import Float Calendar Py Builtins Qt UI.

Lemma getitem_in_range {W A} (l : list A) i (self : W) w :
  0 <= i < Z.of_nat (length l) ->
  exists a, l !! Z.to_nat i = Some a /\ getitem l i self w = (Ok a, self, w).
Proof.
  intros Hi. unfold getitem. cbv zeta.
  destruct (Z.ltb_spec i 0) as [?|_]; [lia|].
  destruct (Z.ltb_spec i 0) as [?|_]; [lia|].
  destruct (lookup_lt_is_Some_2 l (Z.to_nat i) ltac:(lia)) as [a Ha].
  exists a. rewrite Ha. split; reflexivity.
Qed.

Lemma weekday_range d : 0 <= weekday d < 7.
Proof. unfold weekday. apply Z.mod_pos_bound. lia. Qed.

Variable strftime : string -> datetime -> string.

Lemma En_updateClock_run self w :
  valid_datetime (clock w) = true -> valid_date (EnUI.birthdate self) = true ->
  exists r name,
    En.compute_time_stats (EnUI.birthdate self) w = (Return r, w) /\
    ["Mon"; "Tue"; "Wed"; "Thu"; "Fri"; "Sat"; "Sun"]
      !! Z.to_nat (weekday (datetime_date (clock w))) = Some name /\
    EnUI.updateClock strftime self w =
    (Ok tt,
     EnUI.mkMainWindow
       (EnUI.mode self) (EnUI.birthdate self)
       (setText (strftime ("%Y-%m-%d " +:+ name +:+ " %H:%M:%S") (clock w))
                (EnUI.timeLabel self))
       (EnUI.setPercents (hour_pct r) (day_pct r) (EnUI.circle self))
       (setText ("Hour Progress: " +:+ format_2f (hour_pct r) +:+ "%")
                (EnUI.hourText self))
       (setText ("Day Progress:  " +:+ format_2f (day_pct r) +:+ "%")
                (EnUI.dayText self))
       (setValue (py_int (fmul (day_pct r) (100 # 1))) (EnUI.dayBar self))
       (setText ("Remaining Today: " +:+ format_2f (fsub (100 # 1) (day_pct r)) +:+ "%")
                (EnUI.remainingLabel self))
       (setText ("Days Alive: " +:+ str (days_alive r)) (EnUI.livedLabel self))
       (setText ("Next 100-Day Milestone: " +:+ str (days_to_next r) +:+ " days left")
                (EnUI.milestoneLabel self))
       (EnUI.birthLabel self) (EnUI.birthEdit_hidden self) (EnUI.toggleBtn self),
     w).
Proof.
  intros Hw Hb.
  destruct (compute_time_stats_run (EnUI.birthdate self) w Hw Hb)
    as (r & Hr & Hn & _).
  destruct (getitem_in_range (W := EnUI.MainWindow)
              ["Mon"; "Tue"; "Wed"; "Thu"; "Fri"; "Sat"; "Sun"]
              (weekday (datetime_date (clock w))) self w
              (weekday_range _)) as (name & Hname & Hget).
  exists r, name. split; [exact Hr|]. split; [exact Hname|].
  unfold EnUI.updateClock, sbind, gets, call, modify. rewrite Hr. cbv beta iota zeta.
  rewrite Hn, Hget, float_of_int_100. reflexivity.
Qed.

Lemma Release_updateClock_run self w :
  valid_datetime (clock w) = true -> valid_date (ReleaseUI.birthdate self) = true ->
  exists r name,
    En.compute_time_stats (ReleaseUI.birthdate self) w = (Return r, w) /\
    ["一"; "二"; "三"; "四"; "五"; "六"; "日"]
      !! Z.to_nat (weekday (datetime_date (clock w))) = Some name /\
    ReleaseUI.updateClock strftime self w =
    (Ok tt,
     ReleaseUI.mkMainWindow
       (ReleaseUI.mode self) (ReleaseUI.birthdate self)
       (setText (strftime ("%Y-%m-%d 周" +:+ name +:+ "  %H:%M:%S") (clock w))
                (ReleaseUI.timeLabel self))
       (ReleaseUI.setPercents (hour_pct r) (day_pct r) (ReleaseUI.circle self))
       (setText ("Hour: " +:+ format_2f (hour_pct r) +:+ "%")
                (ReleaseUI.hourTextLabel self))
       (setText ("Day:  " +:+ format_2f (day_pct r) +:+ "%")
                (ReleaseUI.dayTextLabel self))
       (setText ("今日剩余：" +:+ format_2f (py_max 0 (fsub (100 # 1) (day_pct r))) +:+ "%")
                (ReleaseUI.remainingLabel self))
       (setValue (py_int (fmul (day_pct r) (100 # 1))) (ReleaseUI.dayBar self))
       (setText ("你已经在这个世界上待了： " +:+ str (days_alive r) +:+ " 天")
                (ReleaseUI.lifeLabel self))
       (setText ("距离你人生的第 " +:+ str (next_hundred r) +:+ " 天还有： "
                 +:+ str (days_to_next r) +:+ " 天") (ReleaseUI.nextHundredLabel self))
       (ReleaseUI.toggleButton self) (ReleaseUI.detailFrame_hidden self),
     w).
Proof.
  intros Hw Hb.
  destruct (compute_time_stats_run (ReleaseUI.birthdate self) w Hw Hb)
    as (r & Hr & Hn & _).
  destruct (getitem_in_range (W := ReleaseUI.MainWindow)
              ["一"; "二"; "三"; "四"; "五"; "六"; "日"]
              (weekday (datetime_date (clock w))) self w
              (weekday_range _)) as (name & Hname & Hget).
  exists r, name. split; [exact Hr|]. split; [exact Hname|].
  unfold ReleaseUI.updateClock, sbind, gets, call, modify.
  rewrite compute_time_stats_same, Hr. cbv beta iota zeta.
  rewrite Hn, Hget, float_of_int_100. reflexivity.
Qed.

End UpdateFacts.

(** ** What the labels read *)

Section DisplayFacts.

Import Float Calendar Py Builtins Qt UI.

Lemma forallb_seqZ (P : Z -> bool) lo len :
  forallb P (seqZ lo len) = true -> forall k, lo <= k < lo + len -> P k = true.
Proof.
  intros H k Hk. rewrite forallb_forall in H. apply H.
  apply list_elem_of_In. apply elem_of_seqZ. exact Hk.
Qed.

Lemma string_length_app (a b : string) :
  String.length (a +:+ b) = (String.length a + String.length b)%nat.
Proof.
  induction a as [|c a IH]; [reflexivity|].
  change (S (String.length (a +:+ b)) = S (String.length a + String.length b)).
  f_equal. exact IH.
Qed.

Lemma two_digits_length b : 0 <= b < 100 -> String.length (two_digits b) = 2%nat.
Proof.
  intros Hb.
  assert (C : forallb (fun k => Nat.eqb (String.length (two_digits k)) 2) (seqZ 0 100) = true)
    by (vm_compute; reflexivity).
  apply Nat.eqb_eq. apply (forallb_seqZ _ _ _ C). lia.
Qed.

Lemma pretty_length_le_2 a : 0 <= a < 100 -> (String.length (pretty a) <= 2)%nat.
Proof.
  intros Ha.
  assert (C : forallb (fun k => Nat.leb (String.length (pretty k)) 2) (seqZ 0 100) = true)
    by (vm_compute; reflexivity).
  apply Nat.leb_le. apply (forallb_seqZ (fun k => Nat.leb (String.length (pretty k)) 2) _ _ C).
  lia.
Qed.

(** What [format(x, "0.2f")] prints for [0 <= x], from the hundredths. *)
Lemma format_2f_nonneg x : (0 <= x)%Q ->
  format_2f x = pretty (rne (x * 100) / 100) +:+ "." +:+ two_digits (rne (x * 100) mod 100).
Proof.
  intros H. unfold format_2f. cbv zeta.
  assert (E : (Qabs x * 100 == x * 100)%Q) by (rewrite Qabs_pos by exact H; reflexivity).
  rewrite (rne_compat _ _ E). apply Qle_bool_iff in H. rewrite H. reflexivity.
Qed.

Local Open Scope Q_scope.

Lemma frac_range us : (0 <= us < 1000000)%Z ->
  0 <= int_truediv us 1000000 <= 1.
Proof.
  intros H. split.
  - apply Qle_trans with (int_truediv 0 1000000); [vm_compute; discriminate|].
    apply int_truediv_mono. lia.
  - apply Qle_trans with (int_truediv 999999 1000000); [apply int_truediv_mono; lia|].
    vm_compute. discriminate.
Qed.

(** Seconds in floating point are monotone in the time of day counted in
    microseconds. *)
Lemma seconds_mono n us n' us' :
  (0 <= n < 2 ^ 50)%Z -> (0 <= n' < 2 ^ 50)%Z ->
  (0 <= us < 1000000)%Z -> (0 <= us' < 1000000)%Z ->
  (n * 1000000 + us <= n' * 1000000 + us')%Z ->
  fadd (float_of_int n) (int_truediv us 1000000)
  <= fadd (float_of_int n') (int_truediv us' 1000000).
Proof.
  intros Hn Hn' Hus Hus' Hle.
  assert (En : float_of_int n == inject_Z n) by (apply round_b64_int; unfold prec; lia).
  assert (En' : float_of_int n' == inject_Z n') by (apply round_b64_int; unfold prec; lia).
  pose proof (frac_range us Hus) as [F0 F1]. pose proof (frac_range us' Hus') as [F0' F1'].
  unfold fadd. apply round_b64_mono. rewrite En, En'.
  destruct (Z.eq_dec n n') as [->|Nn].
  - pose proof (int_truediv_mono us us' ltac:(lia)). lra.
  - assert (n + 1 <= n')%Z by lia.
    assert (inject_Z n + 1 <= inject_Z n').
    { change 1 with (inject_Z 1). rewrite <- inject_Z_plus, <- Zle_Qle. lia. }
    lra.
Qed.

Lemma pct_of_seconds_mono (D x x' : Q) :
  0 < D -> x <= x' ->
  fmul (fdiv x D) (100 # 1) <= fmul (fdiv x' D) (100 # 1).
Proof.
  intros HD H. unfold fmul, fdiv.
  apply round_b64_mono. apply Qmult_le_compat_r; [|discriminate].
  apply round_b64_mono. unfold Qdiv. apply Qmult_le_compat_r; [exact H|].
  apply Qlt_le_weak, Qinv_lt_0_compat, HD.
Qed.

Lemma hour_pct_lex_mono m s us m' s' us' :
  (0 <= m < 60)%Z -> (0 <= s < 60)%Z -> (0 <= us < 1000000)%Z ->
  (0 <= m' < 60)%Z -> (0 <= s' < 60)%Z -> (0 <= us' < 1000000)%Z ->
  ((m * 60 + s) * 1000000 + us <= (m' * 60 + s') * 1000000 + us')%Z ->
  Spec.hour_pct m s (Spec.fractional_seconds us)
  <= Spec.hour_pct m' s' (Spec.fractional_seconds us').
Proof.
  intros. unfold Spec.hour_pct, Spec.fractional_seconds.
  apply pct_of_seconds_mono; [reflexivity|]. apply seconds_mono; lia.
Qed.

Lemma day_pct_lex_mono h m s us h' m' s' us' :
  (0 <= h < 24)%Z -> (0 <= m < 60)%Z -> (0 <= s < 60)%Z -> (0 <= us < 1000000)%Z ->
  (0 <= h' < 24)%Z -> (0 <= m' < 60)%Z -> (0 <= s' < 60)%Z -> (0 <= us' < 1000000)%Z ->
  ((h * 3600 + m * 60 + s) * 1000000 + us
   <= (h' * 3600 + m' * 60 + s') * 1000000 + us')%Z ->
  Spec.day_pct h m s (Spec.fractional_seconds us)
  <= Spec.day_pct h' m' s' (Spec.fractional_seconds us').
Proof.
  intros. unfold Spec.day_pct, Spec.fractional_seconds.
  apply pct_of_seconds_mono; [reflexivity|]. apply seconds_mono; lia.
Qed.

Lemma hundredths_mono x y : x <= y -> (rne (x * 100) <= rne (y * 100))%Z.
Proof. intros H. apply rne_mono. lra. Qed.

End DisplayFacts.

Section StatsFacts.

Import Float Calendar Py Builtins Qt UI.
Local Open Scope Q_scope.

Lemma round_b64_eq0 y : round_b64 y == 0 -> round_b64 y = 0.
Proof.
  unfold round_b64, round_pos. destruct (Qnum y); [reflexivity | |]; cbv zeta; intros H.
  - rewrite Qred_correct in H. rewrite (Qred_complete _ _ H). reflexivity.
  - assert (H' : inject_Z (rne (- y * pow2 (- cexp (- y)))) * pow2 (cexp (- y)) == 0).
    { rewrite Qred_correct in H. lra. }
    rewrite (Qred_complete _ _ H'). reflexivity.
Qed.

(** The clamp of [setPercents] returns a percentage of the calculator
    as it is. *)
Lemma clamp_float y :
  0 <= round_b64 y < 100 ->
  py_max 0 (py_min 100 (round_b64 y)) = round_b64 y.
Proof.
  intros [H0 H1]. unfold py_max, py_min.
  destruct (Qle_bool 100 (round_b64 y)) eqn:E1; [apply Qle_bool_iff in E1; lra|].
  destruct (Qle_bool (round_b64 y) 0) eqn:E2; [|reflexivity].
  apply Qle_bool_iff in E2. symmetry. apply round_b64_eq0. lra.
Qed.

Lemma fmul_mono_l x y c : 0 <= c -> x <= y -> fmul x c <= fmul y c.
Proof.
  intros Hc H. unfold fmul. apply round_b64_mono. apply Qmult_le_compat_r; assumption.
Qed.

(** The percentages of a run of the calculator, from the clock. *)
Lemma stats_of_clock bd w :
  valid_datetime (clock w) = true -> valid_date bd = true ->
  exists r,
    En.compute_time_stats bd w = (Return r, w) /\
    hour_pct r = Spec.hour_pct (minute (clock w)) (second (clock w))
                   (Spec.fractional_seconds (microsecond (clock w))) /\
    day_pct r = Spec.day_pct (hour (clock w)) (minute (clock w)) (second (clock w))
                  (Spec.fractional_seconds (microsecond (clock w))) /\
    (0 <= hour_pct r < 100) /\ (0 <= day_pct r < 100) /\
    days_alive r = Z.max 0 (toordinal (datetime_date (clock w)) - toordinal bd) /\
    next_hundred r = (100 * (days_alive r / 100 + 1))%Z /\
    days_to_next r = (next_hundred r - days_alive r)%Z /\
    (0 <= days_alive r)%Z /\ (1 <= days_to_next r <= 100)%Z.
Proof.
  intros Hw Hb.
  destruct (compute_time_stats_run bd w Hw Hb) as (r & Hr & _ & Hh & Hd & Ha & Hn & Ht).
  pose proof (days_alive_range bd w Hw Hb) as Hrange. rewrite <- Ha in Hrange.
  rewrite (milestone_closed _ Hrange) in Hn.
  apply valid_datetime_iff in Hw. destruct Hw as (_ & Hho & Hmi & Hse & Hus).
  exists r. split; [exact Hr|]. split; [exact Hh|]. split; [exact Hd|].
  split; [rewrite Hh; apply hour_pct_bounds; assumption|].
  split; [rewrite Hd; apply day_pct_bounds; assumption|].
  split; [exact Ha|]. split; [exact Hn|].
  assert (Hk : (1 <= next_hundred r - days_alive r <= 100)%Z).
  { rewrite Hn. destruct Hrange as [Hr0 _]. clear -Hr0.
    Z.div_mod_to_equations. lia. }
  split; [rewrite Ht; lia|]. split; [lia|]. rewrite Ht. lia.
Qed.

Lemma day_pct_le_max h m s us :
  (0 <= h < 24)%Z -> (0 <= m < 60)%Z -> (0 <= s < 60)%Z -> (0 <= us < 1000000)%Z ->
  Spec.day_pct h m s (Spec.fractional_seconds us)
  <= Spec.day_pct 23 59 59 (Spec.fractional_seconds 999999).
Proof. intros. apply day_pct_lex_mono; lia. Qed.

Lemma hour_pct_le_max m s us :
  (0 <= m < 60)%Z -> (0 <= s < 60)%Z -> (0 <= us < 1000000)%Z ->
  Spec.hour_pct m s (Spec.fractional_seconds us)
  <= Spec.hour_pct 59 59 (Spec.fractional_seconds 999999).
Proof. intros. apply hour_pct_lex_mono; lia. Qed.

End StatsFacts.

Section LabelFacts.

Import Float Calendar Py Builtins Qt UI.

Lemma format_2f_short x : (0 <= x)%Q -> 0 <= rne (x * 100) < 10000 ->
  (String.length (format_2f x) <= 5)%nat.
Proof.
  intros H Hn. rewrite (format_2f_nonneg x H). set (n := rne (x * 100)) in *.
  rewrite !string_length_app, two_digits_length by (apply Z.mod_pos_bound; lia).
  pose proof (pretty_length_le_2 (n / 100)
                ltac:(clear -Hn; Z.div_mod_to_equations; lia)) as P.
  cbn [String.length]. lia.
Qed.

Lemma format_2f_100 x : (0 <= x)%Q -> rne (x * 100) = 10000 -> format_2f x = "100.00".
Proof. intros H Hn. rewrite (format_2f_nonneg x H), Hn. vm_compute. reflexivity. Qed.

(** When a label made of a caption, a percentage with two decimals and
    a percent sign reads 100.00%. *)
Lemma label_reads_100 caption x :
  (0 <= x)%Q -> rne (x * 100) <= 10000 ->
  caption +:+ format_2f x +:+ "%" = caption +:+ "100.00%" <-> rne (x * 100) = 10000.
Proof.
  intros H Hn.
  assert (H0 : 0 <= rne (x * 100)).
  { change 0 with (rne (0 * 100)). apply hundredths_mono, H. }
  split.
  - intros E. destruct (Z.eq_dec (rne (x * 100)) 10000) as [|N]; [assumption|exfalso].
    apply (f_equal String.length) in E. rewrite !string_length_app in E.
    pose proof (format_2f_short x H ltac:(lia)) as L.
    cbn [String.length] in E. lia.
  - intros E. rewrite (format_2f_100 x H E). reflexivity.
Qed.

Lemma hour_hundredths m s us :
  0 <= m < 60 -> 0 <= s < 60 -> 0 <= us < 1000000 ->
  let n := rne (Spec.hour_pct m s (Spec.fractional_seconds us) * 100) in
  n <= 10000 /\ (n = 10000 <-> 3599820000 <= (m * 60 + s) * 1000000 + us).
Proof.
  intros Hm Hs Hus n.
  assert (Hmax : n <= 10000).
  { etransitivity; [apply hundredths_mono, (hour_pct_le_max m s us Hm Hs Hus)|].
    vm_compute. discriminate. }
  split; [exact Hmax|]. split.
  - intros E.
    destruct (Z.le_gt_cases 3599820000 ((m * 60 + s) * 1000000 + us)) as [|L];
      [assumption|exfalso].
    assert (n <= 9999); [|lia].
    etransitivity;
      [apply hundredths_mono, (hour_pct_lex_mono m s us 59 59 819999); lia|].
    vm_compute. discriminate.
  - intros L. apply Z.le_antisymm; [exact Hmax|].
    etransitivity;
      [|apply hundredths_mono, (hour_pct_lex_mono 59 59 820000 m s us); lia].
    vm_compute. discriminate.
Qed.

Lemma day_hundredths h m s us :
  0 <= h < 24 -> 0 <= m < 60 -> 0 <= s < 60 -> 0 <= us < 1000000 ->
  let n := rne (Spec.day_pct h m s (Spec.fractional_seconds us) * 100) in
  n <= 10000 /\
  (n = 10000 <-> 86395680001 <= (h * 3600 + m * 60 + s) * 1000000 + us).
Proof.
  intros Hh Hm Hs Hus n.
  assert (Hmax : n <= 10000).
  { etransitivity; [apply hundredths_mono, (day_pct_le_max h m s us Hh Hm Hs Hus)|].
    vm_compute. discriminate. }
  split; [exact Hmax|]. split.
  - intros E.
    destruct (Z.le_gt_cases 86395680001 ((h * 3600 + m * 60 + s) * 1000000 + us)) as [|L];
      [assumption|exfalso].
    assert (n <= 9999); [|lia].
    etransitivity;
      [apply hundredths_mono, (day_pct_lex_mono h m s us 23 59 55 680000); lia|].
    vm_compute. discriminate.
  - intros L. apply Z.le_antisymm; [exact Hmax|].
    etransitivity;
      [|apply hundredths_mono, (day_pct_lex_mono 23 59 55 680001 h m s us); lia].
    vm_compute. discriminate.
Qed.

Lemma span_lower p :
  (0 <= p)%Q -> (p <= Spec.day_pct 23 59 59 (Spec.fractional_seconds 999999))%Q ->
  -5759 <= py_int (fmul (-5760 # 1) (fdiv p (100 # 1))) <= 0.
Proof.
  intros H0 H1. split.
  - etransitivity; [|apply (span_antitone _ _ H1)]. vm_compute. discriminate.
  - etransitivity; [apply (span_antitone _ _ H0)|]. vm_compute. discriminate.
Qed.

Lemma hour_pct_max_le_day_pct_max :
  (Spec.hour_pct 59 59 (Spec.fractional_seconds 999999)
   <= Spec.day_pct 23 59 59 (Spec.fractional_seconds 999999))%Q.
Proof. vm_compute. discriminate. Qed.

End LabelFacts.

Section UpdateProperties.

Import Float Calendar Py Builtins Qt UI.

Variable strftime : string -> datetime -> string.

(** X11: with a calendar date as birthday, [updateClock] never raises in
    either edition (the weekday index always falls within the seven
    names), leaves the file system as it was, and changes only what the
    window displays: the mode, the birthday, the visibility of every
    widget, the range of the progress bar and the button text stay as
    they were. *)
Theorem updateClock_never_raises s1 s2 w :
  valid_datetime (clock w) = true ->
  valid_date (EnUI.birthdate s1) = true ->
  valid_date (ReleaseUI.birthdate s2) = true ->
  exists s1' s2',
    EnUI.updateClock strftime s1 w = (Ok tt, s1', w) /\
    ReleaseUI.updateClock strftime s2 w = (Ok tt, s2', w) /\
    (EnUI.mode s1' = EnUI.mode s1 /\ EnUI.birthdate s1' = EnUI.birthdate s1 /\
     EnUI.toggleBtn s1' = EnUI.toggleBtn s1 /\
     EnUI.birthEdit_hidden s1' = EnUI.birthEdit_hidden s1 /\
     EnUI.birthLabel s1' = EnUI.birthLabel s1 /\
     hidden (EnUI.timeLabel s1') = hidden (EnUI.timeLabel s1) /\
     hidden (EnUI.hourText s1') = hidden (EnUI.hourText s1) /\
     hidden (EnUI.dayText s1') = hidden (EnUI.dayText s1) /\
     hidden (EnUI.remainingLabel s1') = hidden (EnUI.remainingLabel s1) /\
     hidden (EnUI.livedLabel s1') = hidden (EnUI.livedLabel s1) /\
     hidden (EnUI.milestoneLabel s1') = hidden (EnUI.milestoneLabel s1) /\
     minimum (EnUI.dayBar s1') = minimum (EnUI.dayBar s1) /\
     maximum (EnUI.dayBar s1') = maximum (EnUI.dayBar s1)) /\
    (ReleaseUI.mode s2' = ReleaseUI.mode s2 /\
     ReleaseUI.birthdate s2' = ReleaseUI.birthdate s2 /\
     ReleaseUI.toggleButton s2' = ReleaseUI.toggleButton s2 /\
     ReleaseUI.detailFrame_hidden s2' = ReleaseUI.detailFrame_hidden s2 /\
     hidden (ReleaseUI.timeLabel s2') = hidden (ReleaseUI.timeLabel s2) /\
     hidden (ReleaseUI.hourTextLabel s2') = hidden (ReleaseUI.hourTextLabel s2) /\
     hidden (ReleaseUI.dayTextLabel s2') = hidden (ReleaseUI.dayTextLabel s2) /\
     hidden (ReleaseUI.remainingLabel s2') = hidden (ReleaseUI.remainingLabel s2) /\
     hidden (ReleaseUI.lifeLabel s2') = hidden (ReleaseUI.lifeLabel s2) /\
     hidden (ReleaseUI.nextHundredLabel s2') = hidden (ReleaseUI.nextHundredLabel s2) /\
     minimum (ReleaseUI.dayBar s2') = minimum (ReleaseUI.dayBar s2) /\
     maximum (ReleaseUI.dayBar s2') = maximum (ReleaseUI.dayBar s2)).
Proof.
  intros Hw Hb1 Hb2.
  destruct (En_updateClock_run strftime s1 w Hw Hb1) as (r1 & n1 & _ & _ & Hu1).
  destruct (Release_updateClock_run strftime s2 w Hw Hb2) as (r2 & n2 & _ & _ & Hu2).
  eexists. eexists. split; [exact Hu1|]. split; [exact Hu2|].
  cbn [EnUI.mode EnUI.birthdate EnUI.toggleBtn EnUI.birthEdit_hidden EnUI.birthLabel
       EnUI.timeLabel EnUI.hourText EnUI.dayText EnUI.remainingLabel EnUI.livedLabel
       EnUI.milestoneLabel EnUI.dayBar
       ReleaseUI.mode ReleaseUI.birthdate ReleaseUI.toggleButton
       ReleaseUI.detailFrame_hidden ReleaseUI.timeLabel ReleaseUI.hourTextLabel
       ReleaseUI.dayTextLabel ReleaseUI.remainingLabel ReleaseUI.lifeLabel
       ReleaseUI.nextHundredLabel ReleaseUI.dayBar setText hidden].
  assert (Hbar : forall v b, minimum (setValue v b) = minimum b /\
                             maximum (setValue v b) = maximum b).
  { intros v b. unfold setValue. destruct (_ && _); split; reflexivity. }
  pose proof (Hbar (py_int (fmul (day_pct r1) (100 # 1))) (EnUI.dayBar s1)) as [? ?].
  pose proof (Hbar (py_int (fmul (day_pct r2) (100 # 1))) (ReleaseUI.dayBar s2)) as [? ?].
  repeat split; assumption.
Qed.

(** The progress bar's value after [setValue] on the range the windows
    set up. *)
Lemma setValue_in_range v b :
  minimum b = 0 -> maximum b = 10000 -> 0 <= v <= 10000 -> value (setValue v b) = v.
Proof.
  intros Hmin Hmax Hv. unfold setValue. rewrite Hmin, Hmax.
  destruct (Z.ltb_spec 10000 v); [lia|]. destruct (Z.ltb_spec v 0); [lia|]. reflexivity.
Qed.

Lemma bar_value_range dp :
  (0 <= dp)%Q -> (dp <= Spec.day_pct 23 59 59 (Spec.fractional_seconds 999999))%Q ->
  0 <= py_int (fmul dp (100 # 1)) <= 9999.
Proof.
  intros H0 H1. split.
  - etransitivity; [|apply py_int_mono, (fmul_mono_l 0%Q dp (100 # 1)); [discriminate|exact H0]].
    vm_compute. discriminate.
  - etransitivity; [apply py_int_mono, (fmul_mono_l _ _ (100 # 1) ltac:(discriminate) H1)|].
    vm_compute. discriminate.
Qed.

(** X12: on a progress bar with the range (0, 10000) that [__init__]
    sets, [updateClock] stores [int(day_pct * 100)], the same number in
    both editions; it lies between 0 and 9999, so that the value is never
    refused as out of range and the bar is never full. *)
Theorem day_bar_shows_hundredths s1 s2 w :
  valid_datetime (clock w) = true ->
  valid_date (EnUI.birthdate s1) = true ->
  valid_date (ReleaseUI.birthdate s2) = true ->
  minimum (EnUI.dayBar s1) = 0 -> maximum (EnUI.dayBar s1) = 10000 ->
  minimum (ReleaseUI.dayBar s2) = 0 -> maximum (ReleaseUI.dayBar s2) = 10000 ->
  exists r s1' s2',
    En.compute_time_stats (EnUI.birthdate s1) w = (Return r, w) /\
    EnUI.updateClock strftime s1 w = (Ok tt, s1', w) /\
    ReleaseUI.updateClock strftime s2 w = (Ok tt, s2', w) /\
    value (EnUI.dayBar s1') = py_int (fmul (day_pct r) (100 # 1)) /\
    value (ReleaseUI.dayBar s2') = value (EnUI.dayBar s1') /\
    0 <= value (EnUI.dayBar s1') <= 9999.
Proof.
  intros Hw Hb1 Hb2 Hmin1 Hmax1 Hmin2 Hmax2.
  destruct (En_updateClock_run strftime s1 w Hw Hb1) as (r1 & n1 & Hr1 & _ & Hu1).
  destruct (Release_updateClock_run strftime s2 w Hw Hb2) as (r2 & n2 & Hr2 & _ & Hu2).
  destruct (stats_of_clock _ w Hw Hb1) as (r & Hr & _ & Hd & _ & [Hd0 _] & _).
  destruct (stats_of_clock _ w Hw Hb2) as (r' & Hr' & _ & Hd' & _).
  rewrite Hr in Hr1. injection Hr1 as <-. rewrite Hr' in Hr2. injection Hr2 as <-.
  assert (E : day_pct r' = day_pct r) by (rewrite Hd, Hd'; reflexivity).
  rewrite E in Hu2.
  apply valid_datetime_iff in Hw. destruct Hw as (_ & Hho & Hmi & Hse & Hus).
  assert (Hv : 0 <= py_int (fmul (day_pct r) (100 # 1)) <= 9999).
  { apply bar_value_range; [exact Hd0|]. rewrite Hd. apply day_pct_le_max; assumption. }
  exists r. eexists. eexists.
  split; [exact Hr|]. split; [exact Hu1|]. split; [exact Hu2|].
  cbn [EnUI.dayBar ReleaseUI.dayBar].
  rewrite !setValue_in_range by (assumption || lia).
  split; [reflexivity|]. split; [reflexivity | exact Hv].
Qed.

Lemma remaining_range dp :
  (0 <= dp)%Q -> (dp <= Spec.day_pct 23 59 59 (Spec.fractional_seconds 999999))%Q ->
  (0 < fsub (100 # 1) dp <= 100)%Q.
Proof.
  intros H0 H1. split.
  - eapply Qlt_le_trans; [|apply (fsub_antitone (100 # 1) _ _ H1)]. vm_compute. reflexivity.
  - eapply Qle_trans; [apply (fsub_antitone (100 # 1) _ _ H0)|]. vm_compute. discriminate.
Qed.

(** X13: the remaining share of the day that [updateClock] displays is
    [100.0 - day_pct], which is positive and at most 100; the release
    edition's [max(0.0, ...)] therefore never takes effect, and both
    editions display the same number after their own caption. *)
Theorem remaining_is_positive s1 s2 w :
  valid_datetime (clock w) = true ->
  valid_date (EnUI.birthdate s1) = true ->
  valid_date (ReleaseUI.birthdate s2) = true ->
  exists r s1' s2',
    En.compute_time_stats (EnUI.birthdate s1) w = (Return r, w) /\
    EnUI.updateClock strftime s1 w = (Ok tt, s1', w) /\
    ReleaseUI.updateClock strftime s2 w = (Ok tt, s2', w) /\
    (0 < fsub (100 # 1) (day_pct r) <= 100)%Q /\
    text (EnUI.remainingLabel s1')
      = "Remaining Today: " +:+ format_2f (fsub (100 # 1) (day_pct r)) +:+ "%" /\
    text (ReleaseUI.remainingLabel s2')
      = "今日剩余：" +:+ format_2f (fsub (100 # 1) (day_pct r)) +:+ "%".
Proof.
  intros Hw Hb1 Hb2.
  destruct (En_updateClock_run strftime s1 w Hw Hb1) as (r1 & n1 & Hr1 & _ & Hu1).
  destruct (Release_updateClock_run strftime s2 w Hw Hb2) as (r2 & n2 & Hr2 & _ & Hu2).
  destruct (stats_of_clock _ w Hw Hb1) as (r & Hr & _ & Hd & _ & [Hd0 _] & _).
  destruct (stats_of_clock _ w Hw Hb2) as (r' & Hr' & _ & Hd' & _).
  rewrite Hr in Hr1. injection Hr1 as <-. rewrite Hr' in Hr2. injection Hr2 as <-.
  assert (E : day_pct r' = day_pct r) by (rewrite Hd, Hd'; reflexivity).
  rewrite E in Hu2.
  apply valid_datetime_iff in Hw. destruct Hw as (_ & Hho & Hmi & Hse & Hus).
  assert (Hrem : (0 < fsub (100 # 1) (day_pct r) <= 100)%Q).
  { apply remaining_range; [exact Hd0|]. rewrite Hd. apply day_pct_le_max; assumption. }
  exists r. eexists. eexists.
  split; [exact Hr|]. split; [exact Hu1|]. split; [exact Hu2|].
  split; [exact Hrem|].
  cbn [EnUI.remainingLabel ReleaseUI.remainingLabel setText text].
  split; [reflexivity|].
  unfold py_max. destruct (Qle_bool _ 0) eqn:El; [|reflexivity].
  apply Qle_bool_iff in El. destruct Hrem as [Hpos _]. exfalso.
  exact (Qlt_not_le _ _ Hpos El).
Qed.

End UpdateProperties.

Section UpdateRuns.

Import Float Calendar Py Builtins Qt UI.

Lemma updateClock_never_raises_witness :
  valid_datetime (clock scenario_world) = true /\
  exists s1' s2',
    EnUI.updateClock (fun format _ => format) (EnUI.attributes scenario_birthdate) scenario_world
      = (Ok tt, s1', scenario_world) /\
    ReleaseUI.updateClock (fun format _ => format) (ReleaseUI.attributes scenario_birthdate) scenario_world
      = (Ok tt, s2', scenario_world).
Proof.
  split; [reflexivity|].
  destruct (updateClock_never_raises (fun format _ => format) (EnUI.attributes scenario_birthdate)
              (ReleaseUI.attributes scenario_birthdate) scenario_world
              eq_refl eq_refl eq_refl) as (s1' & s2' & H1 & H2 & _).
  exists s1', s2'. split; [exact H1 | exact H2].
Defined.

Lemma day_bar_shows_hundredths_witness :
  exists s1',
    EnUI.updateClock (fun format _ => format) (EnUI.attributes scenario_birthdate) scenario_world
      = (Ok tt, s1', scenario_world) /\
    0 <= value (EnUI.dayBar s1') <= 9999.
Proof.
  destruct (day_bar_shows_hundredths (fun format _ => format) (EnUI.attributes scenario_birthdate)
              (ReleaseUI.attributes scenario_birthdate) scenario_world
              eq_refl eq_refl eq_refl eq_refl eq_refl eq_refl eq_refl)
    as (r & s1' & s2' & _ & H1 & _ & _ & _ & Hv).
  exists s1'. split; [exact H1 | exact Hv].
Defined.

Lemma remaining_is_positive_witness :
  exists r,
    En.compute_time_stats scenario_birthdate scenario_world = (Return r, scenario_world) /\
    (0 < fsub (100 # 1) (day_pct r))%Q.
Proof.
  destruct (remaining_is_positive (fun format _ => format) (EnUI.attributes scenario_birthdate)
              (ReleaseUI.attributes scenario_birthdate) scenario_world
              eq_refl eq_refl eq_refl)
    as (r & s1' & s2' & Hr & _ & _ & [Hp _] & _).
  exists r. split; [exact Hr | exact Hp].
Defined.

End UpdateRuns.

Section DisplayProperties.

Import Float Calendar Py Builtins Qt UI.

Variable strftime : string -> datetime -> string.

(** Both editions of [updateClock] at once, on the same world: they run
    to the end, and display the percentages of one run of the calculator. *)
Lemma updateClock_pair s1 s2 w :
  valid_datetime (clock w) = true ->
  valid_date (EnUI.birthdate s1) = true ->
  valid_date (ReleaseUI.birthdate s2) = true ->
  exists r s1' s2',
    En.compute_time_stats (EnUI.birthdate s1) w = (Return r, w) /\
    hour_pct r = Spec.hour_pct (minute (clock w)) (second (clock w))
                   (Spec.fractional_seconds (microsecond (clock w))) /\
    day_pct r = Spec.day_pct (hour (clock w)) (minute (clock w)) (second (clock w))
                  (Spec.fractional_seconds (microsecond (clock w))) /\
    (0 <= hour_pct r < 100)%Q /\ (0 <= day_pct r < 100)%Q /\
    EnUI.updateClock strftime s1 w = (Ok tt, s1', w) /\
    ReleaseUI.updateClock strftime s2 w = (Ok tt, s2', w) /\
    EnUI.circle s1' = EnUI.setPercents (hour_pct r) (day_pct r) (EnUI.circle s1) /\
    ReleaseUI.circle s2'
      = ReleaseUI.setPercents (hour_pct r) (day_pct r) (ReleaseUI.circle s2) /\
    text (EnUI.hourText s1') = "Hour Progress: " +:+ format_2f (hour_pct r) +:+ "%" /\
    text (ReleaseUI.hourTextLabel s2') = "Hour: " +:+ format_2f (hour_pct r) +:+ "%" /\
    text (EnUI.dayText s1') = "Day Progress:  " +:+ format_2f (day_pct r) +:+ "%" /\
    text (ReleaseUI.dayTextLabel s2') = "Day:  " +:+ format_2f (day_pct r) +:+ "%".
Proof.
  intros Hw Hb1 Hb2.
  destruct (En_updateClock_run strftime s1 w Hw Hb1) as (r1 & n1 & Hr1 & _ & Hu1).
  destruct (Release_updateClock_run strftime s2 w Hw Hb2) as (r2 & n2 & Hr2 & _ & Hu2).
  destruct (stats_of_clock _ w Hw Hb1) as (r & Hr & Hh & Hd & Hhr & Hdr & _).
  destruct (stats_of_clock _ w Hw Hb2) as (r' & Hr' & Hh' & Hd' & _).
  rewrite Hr in Hr1. injection Hr1 as <-. rewrite Hr' in Hr2. injection Hr2 as <-.
  assert (Eh : hour_pct r' = hour_pct r) by (rewrite Hh, Hh'; reflexivity).
  assert (Ed : day_pct r' = day_pct r) by (rewrite Hd, Hd'; reflexivity).
  rewrite Eh, Ed in Hu2.
  exists r. eexists. eexists.
  split; [exact Hr|]. split; [exact Hh|]. split; [exact Hd|].
  split; [exact Hhr|]. split; [exact Hdr|].
  split; [exact Hu1|]. split; [exact Hu2|].
  repeat split.
Qed.

(** X14: after [updateClock] the hour label reads 100.00% exactly when
    the clock is within the last 180 milliseconds of the hour, that is at
    59 min 59.820000 s or later, in both editions; the hour is never
    complete, but its percentage printed with two decimals is. *)
Theorem hour_label_reads_100 s1 s2 w :
  valid_datetime (clock w) = true ->
  valid_date (EnUI.birthdate s1) = true ->
  valid_date (ReleaseUI.birthdate s2) = true ->
  exists s1' s2',
    EnUI.updateClock strftime s1 w = (Ok tt, s1', w) /\
    ReleaseUI.updateClock strftime s2 w = (Ok tt, s2', w) /\
    (text (EnUI.hourText s1') = "Hour Progress: 100.00%" <->
     3599820000 <= (minute (clock w) * 60 + second (clock w)) * 1000000
                   + microsecond (clock w)) /\
    (text (ReleaseUI.hourTextLabel s2') = "Hour: 100.00%" <->
     3599820000 <= (minute (clock w) * 60 + second (clock w)) * 1000000
                   + microsecond (clock w)).
Proof.
  intros Hw Hb1 Hb2.
  destruct (updateClock_pair s1 s2 w Hw Hb1 Hb2)
    as (r & s1' & s2' & _ & Hh & _ & [Hh0 _] & _ & Hu1 & Hu2 & _ & _ & T1 & T2 & _).
  apply valid_datetime_iff in Hw. destruct Hw as (_ & _ & Hmi & Hse & Hus).
  destruct (hour_hundredths _ _ _ Hmi Hse Hus) as [Hn Hiff]. rewrite <- Hh in Hn, Hiff.
  exists s1', s2'. split; [exact Hu1|]. split; [exact Hu2|].
  rewrite T1, T2, <- Hiff.
  split.
  - exact (label_reads_100 "Hour Progress: " _ Hh0 Hn).
  - exact (label_reads_100 "Hour: " _ Hh0 Hn).
Qed.

(** X15: after [updateClock] the day label reads 100.00% exactly when the
    clock is at 23:59:55.680001 or later, in both editions. *)
Theorem day_label_reads_100 s1 s2 w :
  valid_datetime (clock w) = true ->
  valid_date (EnUI.birthdate s1) = true ->
  valid_date (ReleaseUI.birthdate s2) = true ->
  exists s1' s2',
    EnUI.updateClock strftime s1 w = (Ok tt, s1', w) /\
    ReleaseUI.updateClock strftime s2 w = (Ok tt, s2', w) /\
    (text (EnUI.dayText s1') = "Day Progress:  100.00%" <->
     86395680001 <= (hour (clock w) * 3600 + minute (clock w) * 60 + second (clock w))
                    * 1000000 + microsecond (clock w)) /\
    (text (ReleaseUI.dayTextLabel s2') = "Day:  100.00%" <->
     86395680001 <= (hour (clock w) * 3600 + minute (clock w) * 60 + second (clock w))
                    * 1000000 + microsecond (clock w)).
Proof.
  intros Hw Hb1 Hb2.
  destruct (updateClock_pair s1 s2 w Hw Hb1 Hb2)
    as (r & s1' & s2' & _ & _ & Hd & _ & [Hd0 _] & Hu1 & Hu2 & _ & _ & _ & _ & T1 & T2).
  apply valid_datetime_iff in Hw. destruct Hw as (_ & Hho & Hmi & Hse & Hus).
  destruct (day_hundredths _ _ _ _ Hho Hmi Hse Hus) as [Hn Hiff]. rewrite <- Hd in Hn, Hiff.
  exists s1', s2'. split; [exact Hu1|]. split; [exact Hu2|].
  rewrite T1, T2, <- Hiff.
  split.
  - exact (label_reads_100 "Day Progress:  " _ Hd0 Hn).
  - exact (label_reads_100 "Day:  " _ Hd0 Hn).
Qed.

(** X16: the clamp of [setPercents] never alters what [updateClock]
    passes to it: after [updateClock] the ring holds the calculator's two
    percentages as they are, in both editions, and on a widget whose
    smaller side exceeds 16 pixels the text in the centre of the ring is
    the number of the hour label. *)
Theorem ring_holds_calculated_percentages s1 s2 w width height :
  valid_datetime (clock w) = true ->
  valid_date (EnUI.birthdate s1) = true ->
  valid_date (ReleaseUI.birthdate s2) = true ->
  16 < Z.min width height ->
  exists r s1' s2',
    En.compute_time_stats (EnUI.birthdate s1) w = (Return r, w) /\
    EnUI.updateClock strftime s1 w = (Ok tt, s1', w) /\
    ReleaseUI.updateClock strftime s2 w = (Ok tt, s2', w) /\
    EnUI._hour_percent (EnUI.circle s1') = hour_pct r /\
    EnUI._day_percent (EnUI.circle s1') = day_pct r /\
    ReleaseUI._hour_percent (ReleaseUI.circle s2') = hour_pct r /\
    ReleaseUI._day_percent (ReleaseUI.circle s2') = day_pct r /\
    drawn_texts (EnUI.paintEvent (EnUI.circle s1') width height)
      = [format_2f (hour_pct r) +:+ "%"] /\
    drawn_texts (ReleaseUI.paintEvent (ReleaseUI.circle s2') width height)
      = [format_2f (hour_pct r) +:+ "%"] /\
    text (EnUI.hourText s1') = "Hour Progress: " +:+ format_2f (hour_pct r) +:+ "%" /\
    text (ReleaseUI.hourTextLabel s2') = "Hour: " +:+ format_2f (hour_pct r) +:+ "%".
Proof.
  intros Hw Hb1 Hb2 Hsize.
  destruct (updateClock_pair s1 s2 w Hw Hb1 Hb2)
    as (r & s1' & s2' & Hr & Hh & Hd & Hhr & Hdr & Hu1 & Hu2 & C1 & C2 & T1 & T2 & _).
  assert (Eh : py_max 0 (py_min 100 (hour_pct r)) = hour_pct r).
  { revert Hhr. rewrite Hh. unfold Spec.hour_pct, fmul. apply clamp_float. }
  assert (Ed : py_max 0 (py_min 100 (day_pct r)) = day_pct r).
  { revert Hdr. rewrite Hd. unfold Spec.day_pct, fmul. apply clamp_float. }
  exists r, s1', s2'. split; [exact Hr|]. split; [exact Hu1|]. split; [exact Hu2|].
  rewrite C1, C2. unfold EnUI.paintEvent, ReleaseUI.paintEvent. cbv zeta.
  destruct (paint_sides width height) as [-> ->].
  destruct (Z.leb_spec (Z.min width height - 16) 0) as [L|_]; [lia|].
  unfold EnUI.setPercents, ReleaseUI.setPercents.
  cbn [EnUI._hour_percent EnUI._day_percent ReleaseUI._hour_percent
       ReleaseUI._day_percent drawn_texts omap list_omap].
  change (py_max 0%Q (py_min (100 # 1) (hour_pct r)))
    with (py_max 0 (py_min 100 (hour_pct r))).
  change (py_max 0%Q (py_min (100 # 1) (day_pct r)))
    with (py_max 0 (py_min 100 (day_pct r))).
  rewrite Eh, Ed. repeat split; assumption.
Qed.

(** X17: after [updateClock] neither ring is ever drawn closed: at any
    widget size and in both editions every arc starts at 12 o'clock and
    spans at most 5759 of the 5760 sixteenths of a degree of a full turn. *)
Theorem rings_never_close s1 s2 w width height :
  valid_datetime (clock w) = true ->
  valid_date (EnUI.birthdate s1) = true ->
  valid_date (ReleaseUI.birthdate s2) = true ->
  exists s1' s2',
    EnUI.updateClock strftime s1 w = (Ok tt, s1', w) /\
    ReleaseUI.updateClock strftime s2 w = (Ok tt, s2', w) /\
    Forall (fun '(r, a, s) => a = 1440 /\ -5759 <= s <= 0)
      (drawn_arcs (EnUI.paintEvent (EnUI.circle s1') width height)) /\
    Forall (fun '(r, a, s) => a = 1440 /\ -5759 <= s <= 0)
      (drawn_arcs (ReleaseUI.paintEvent (ReleaseUI.circle s2') width height)).
Proof.
  intros Hw Hb1 Hb2.
  destruct (updateClock_pair s1 s2 w Hw Hb1 Hb2)
    as (r & s1' & s2' & Hr & Hh & Hd & Hhr & Hdr & Hu1 & Hu2 & C1 & C2 & _).
  assert (Eh : py_max 0 (py_min 100 (hour_pct r)) = hour_pct r).
  { revert Hhr. rewrite Hh. unfold Spec.hour_pct, fmul. apply clamp_float. }
  assert (Ed : py_max 0 (py_min 100 (day_pct r)) = day_pct r).
  { revert Hdr. rewrite Hd. unfold Spec.day_pct, fmul. apply clamp_float. }
  apply valid_datetime_iff in Hw. destruct Hw as (_ & Hho & Hmi & Hse & Hus).
  assert (Sh : -5759 <= py_int (fmul (-5760 # 1) (fdiv (hour_pct r) (100 # 1))) <= 0).
  { apply span_lower; [apply Hhr|]. rewrite Hh.
    eapply Qle_trans; [apply hour_pct_le_max; assumption|].
    apply hour_pct_max_le_day_pct_max. }
  assert (Sd : -5759 <= py_int (fmul (-5760 # 1) (fdiv (day_pct r) (100 # 1))) <= 0).
  { apply span_lower; [apply Hdr|]. rewrite Hd. apply day_pct_le_max; assumption. }
  exists s1', s2'. split; [exact Hu1|]. split; [exact Hu2|].
  rewrite C1, C2. split.
  - eapply Forall_impl; [apply En_arcs|].
    unfold EnUI.setPercents. cbn [EnUI._hour_percent EnUI._day_percent].
    rewrite Eh, Ed.
    intros [[q a] s] [Ha [Hs|Hs]]; (split; [exact Ha|]); rewrite Hs; assumption.
  - eapply Forall_impl; [apply Release_arcs|].
    unfold ReleaseUI.setPercents. cbn [ReleaseUI._hour_percent ReleaseUI._day_percent].
    change (py_max 0%Q (py_min (100 # 1) (hour_pct r)))
      with (py_max 0 (py_min 100 (hour_pct r))).
    change (py_max 0%Q (py_min (100 # 1) (day_pct r)))
      with (py_max 0 (py_min 100 (day_pct r))).
    rewrite Eh, Ed.
    intros [[q a] s] [Ha [Hs|Hs]]; (split; [exact Ha|]); rewrite Hs; assumption.
Qed.

(** X18: for the same birthday the two windows display the same two day
    counts after [updateClock]: the days alive [da], which is the number
    of days from the birthday to the current date or 0 for a birthday in
    the future, and the days left [100 - da mod 100]; the release edition
    also names the milestone [da + (100 - da mod 100)]. *)
Theorem day_count_labels s1 s2 w :
  valid_datetime (clock w) = true ->
  valid_date (EnUI.birthdate s1) = true ->
  ReleaseUI.birthdate s2 = EnUI.birthdate s1 ->
  exists s1' s2',
    EnUI.updateClock strftime s1 w = (Ok tt, s1', w) /\
    ReleaseUI.updateClock strftime s2 w = (Ok tt, s2', w) /\
    let da := Z.max 0 (toordinal (datetime_date (clock w))
                       - toordinal (EnUI.birthdate s1)) in
    let left := 100 - da mod 100 in
    text (EnUI.livedLabel s1') = "Days Alive: " +:+ str da /\
    text (EnUI.milestoneLabel s1')
      = "Next 100-Day Milestone: " +:+ str left +:+ " days left" /\
    text (ReleaseUI.lifeLabel s2')
      = "你已经在这个世界上待了： " +:+ str da +:+ " 天" /\
    text (ReleaseUI.nextHundredLabel s2')
      = "距离你人生的第 " +:+ str (da + left) +:+ " 天还有： " +:+ str left +:+ " 天".
Proof.
  intros Hw Hb1 Hb.
  assert (Hb2 : valid_date (ReleaseUI.birthdate s2) = true) by (rewrite Hb; exact Hb1).
  destruct (En_updateClock_run strftime s1 w Hw Hb1) as (r1 & n1 & Hr1 & _ & Hu1).
  destruct (Release_updateClock_run strftime s2 w Hw Hb2) as (r2 & n2 & Hr2 & _ & Hu2).
  destruct (stats_of_clock _ w Hw Hb1) as (r & Hr & _ & _ & _ & _ & Ha & Hn & Ht & Ha0 & _).
  rewrite Hb in Hr2. rewrite Hr in Hr1, Hr2. injection Hr1 as <-. injection Hr2 as <-.
  assert (Hleft : days_to_next r = 100 - days_alive r mod 100).
  { rewrite Ht, Hn. clear -Ha0. Z.div_mod_to_equations. lia. }
  assert (Hnext : next_hundred r = days_alive r + (100 - days_alive r mod 100)).
  { rewrite <- Hleft, Ht. lia. }
  eexists. eexists. split; [exact Hu1|]. split; [exact Hu2|].
  cbv zeta.
  cbn [EnUI.livedLabel EnUI.milestoneLabel ReleaseUI.lifeLabel
       ReleaseUI.nextHundredLabel setText text].
  rewrite Hnext, Hleft, Ha. repeat split.
Qed.

End DisplayProperties.

(** ** The window: modes, birthday changes, start and event loop *)

Section WindowFacts.

Import Float Calendar Py Builtins Qt UI.

Variable strftime : string -> datetime -> string.

Lemma bar_in_use_iff b :
  bar_in_use b = true <->
  minimum b = 0 /\ maximum b = 10000 /\ 0 <= value b <= 9999.
Proof.
  unfold bar_in_use. rewrite !andb_true_iff, !Z.eqb_eq, !Z.leb_le. tauto.
Qed.

Lemma bar_in_use_setValue v b :
  minimum b = 0 -> maximum b = 10000 -> 0 <= v <= 9999 ->
  bar_in_use (setValue v b) = true.
Proof.
  intros Hmin Hmax Hv. apply bar_in_use_iff.
  unfold setValue. rewrite Hmin, Hmax.
  destruct (Z.ltb_spec 10000 v); [lia|]. destruct (Z.ltb_spec v 0); [lia|].
  cbn. lia.
Qed.

(** [updateClock] settles a window whose birthday is a calendar date,
    whose bar has the range (0, 10000) and whose mode is coherent. *)
Lemma En_updateClock_settles s w :
  valid_datetime (clock w) = true -> valid_date (EnUI.birthdate s) = true ->
  minimum (EnUI.dayBar s) = 0 -> maximum (EnUI.dayBar s) = 10000 ->
  En_mode_coherent s = true ->
  exists s', EnUI.updateClock strftime s w = (Ok tt, s', w) /\
             EnUI.birthdate s' = EnUI.birthdate s /\
             EnUI.mode s' = EnUI.mode s /\
             En_settled s' = true.
Proof.
  intros Hw Hb Hmin Hmax Hc.
  destruct (En_updateClock_run strftime s w Hw Hb) as (r1 & n1 & Hr1 & _ & Hu).
  destruct (stats_of_clock _ w Hw Hb) as (r & Hr & _ & Hd & _ & [Hd0 _] & _).
  rewrite Hr in Hr1. injection Hr1 as <-.
  apply valid_datetime_iff in Hw. destruct Hw as (_ & Hho & Hmi & Hse & Hus).
  assert (Hv : 0 <= py_int (fmul (day_pct r) (100 # 1)) <= 9999).
  { apply bar_value_range; [exact Hd0|]. rewrite Hd. apply day_pct_le_max; assumption. }
  eexists. split; [exact Hu|]. split; [reflexivity|]. split; [reflexivity|].
  unfold En_settled. cbn [EnUI.birthdate EnUI.dayBar].
  rewrite Hb, (bar_in_use_setValue _ _ Hmin Hmax Hv). exact Hc.
Qed.

Lemma Release_updateClock_settles s w :
  valid_datetime (clock w) = true -> valid_date (ReleaseUI.birthdate s) = true ->
  minimum (ReleaseUI.dayBar s) = 0 -> maximum (ReleaseUI.dayBar s) = 10000 ->
  Release_mode_coherent s = true ->
  exists s', ReleaseUI.updateClock strftime s w = (Ok tt, s', w) /\
             ReleaseUI.birthdate s' = ReleaseUI.birthdate s /\
             ReleaseUI.mode s' = ReleaseUI.mode s /\
             Release_settled s' = true.
Proof.
  intros Hw Hb Hmin Hmax Hc.
  destruct (Release_updateClock_run strftime s w Hw Hb) as (r1 & n1 & Hr1 & _ & Hu).
  destruct (stats_of_clock _ w Hw Hb) as (r & Hr & _ & Hd & _ & [Hd0 _] & _).
  rewrite Hr in Hr1. injection Hr1 as <-.
  apply valid_datetime_iff in Hw. destruct Hw as (_ & Hho & Hmi & Hse & Hus).
  assert (Hv : 0 <= py_int (fmul (day_pct r) (100 # 1)) <= 9999).
  { apply bar_value_range; [exact Hd0|]. rewrite Hd. apply day_pct_le_max; assumption. }
  eexists. split; [exact Hu|]. split; [reflexivity|]. split; [reflexivity|].
  unfold Release_settled. cbn [ReleaseUI.birthdate ReleaseUI.dayBar].
  rewrite Hb, (bar_in_use_setValue _ _ Hmin Hmax Hv). exact Hc.
Qed.

Lemma En_settled_iff s :
  En_settled s = true <->
  valid_date (EnUI.birthdate s) = true /\
  (minimum (EnUI.dayBar s) = 0 /\ maximum (EnUI.dayBar s) = 10000 /\
   0 <= value (EnUI.dayBar s) <= 9999) /\
  En_mode_coherent s = true.
Proof. unfold En_settled. rewrite !andb_true_iff, bar_in_use_iff. tauto. Qed.

Lemma Release_settled_iff s :
  Release_settled s = true <->
  valid_date (ReleaseUI.birthdate s) = true /\
  (minimum (ReleaseUI.dayBar s) = 0 /\ maximum (ReleaseUI.dayBar s) = 10000 /\
   0 <= value (ReleaseUI.dayBar s) <= 9999) /\
  Release_mode_coherent s = true.
Proof. unfold Release_settled. rewrite !andb_true_iff, bar_in_use_iff. tauto. Qed.

Lemma En_toggleMode_run s w :
  EnUI.toggleMode s w =
  (Ok tt,
   if String.eqb (EnUI.mode s) "detailed"
   then EnUI.mkMainWindow
          "compact" (EnUI.birthdate s) (EnUI.timeLabel s) (EnUI.circle s)
          (EnUI.hourText s) (EnUI.dayText s) (EnUI.dayBar s)
          (hide (EnUI.remainingLabel s)) (hide (EnUI.livedLabel s))
          (hide (EnUI.milestoneLabel s)) (hide (EnUI.birthLabel s)) true
          "Switch to Detailed Mode"
   else EnUI.mkMainWindow
          "detailed" (EnUI.birthdate s) (EnUI.timeLabel s) (EnUI.circle s)
          (EnUI.hourText s) (EnUI.dayText s) (EnUI.dayBar s)
          (show (EnUI.remainingLabel s)) (show (EnUI.livedLabel s))
          (show (EnUI.milestoneLabel s)) (show (EnUI.birthLabel s)) false
          "Switch to Compact Mode",
   w).
Proof.
  unfold EnUI.toggleMode, sbind, gets, modify.
  destruct (String.eqb (EnUI.mode s) "detailed"); reflexivity.
Qed.

Lemma Release_toggleMode_run s w :
  ReleaseUI.toggleMode s w =
  (Ok tt,
   if String.eqb (ReleaseUI.mode s) "detailed"
   then ReleaseUI.mkMainWindow
          "simple" (ReleaseUI.birthdate s) (ReleaseUI.timeLabel s) (ReleaseUI.circle s)
          (ReleaseUI.hourTextLabel s) (ReleaseUI.dayTextLabel s)
          (ReleaseUI.remainingLabel s) (ReleaseUI.dayBar s) (ReleaseUI.lifeLabel s)
          (ReleaseUI.nextHundredLabel s) "切换为详细模式" true
   else ReleaseUI.mkMainWindow
          "detailed" (ReleaseUI.birthdate s) (ReleaseUI.timeLabel s) (ReleaseUI.circle s)
          (ReleaseUI.hourTextLabel s) (ReleaseUI.dayTextLabel s)
          (ReleaseUI.remainingLabel s) (ReleaseUI.dayBar s) (ReleaseUI.lifeLabel s)
          (ReleaseUI.nextHundredLabel s) "切换为简洁模式" false,
   w).
Proof.
  unfold ReleaseUI.toggleMode, sbind, gets, modify.
  destruct (String.eqb (ReleaseUI.mode s) "detailed"); reflexivity.
Qed.

Lemma En_toggleMode_coherent s w :
  exists s', EnUI.toggleMode s w = (Ok tt, s', w) /\
             En_mode_coherent s' = true /\
             EnUI.birthdate s' = EnUI.birthdate s /\
             EnUI.dayBar s' = EnUI.dayBar s.
Proof.
  rewrite En_toggleMode_run. eexists. split; [reflexivity|].
  destruct (String.eqb (EnUI.mode s) "detailed"); repeat split.
Qed.

Lemma Release_toggleMode_coherent s w :
  exists s', ReleaseUI.toggleMode s w = (Ok tt, s', w) /\
             Release_mode_coherent s' = true /\
             ReleaseUI.birthdate s' = ReleaseUI.birthdate s /\
             ReleaseUI.dayBar s' = ReleaseUI.dayBar s.
Proof.
  rewrite Release_toggleMode_run. eexists. split; [reflexivity|].
  destruct (String.eqb (ReleaseUI.mode s) "detailed"); repeat split.
Qed.

(** The world after [save_birthdate_to_config]. *)
Lemma saved_world bd w :
  let w' := snd (En.save_birthdate_to_config bd w) in
  En.save_birthdate_to_config bd w = (Return tt, w') /\
  Release.save_birthdate_to_config bd w = (Return tt, w') /\
  clock w' = clock w /\ writable w' = writable w /\
  (writable w = false -> w' = w) /\
  (writable w = true ->
   loaded (config w') (datetime_date (clock w'))
   = if valid_date bd && date_le bd (datetime_date (clock w)) then Some bd else None).
Proof.
  cbv zeta. pose proof (save_run bd w) as Hs. pose proof (save_same bd w) as Hr.
  rewrite Hs in Hr. rewrite Hr, Hs. clear Hs Hr. cbn [snd].
  split; [reflexivity|]. split; [reflexivity|].
  destruct (writable w) eqn:E; cbn [clock writable config].
  - split; [reflexivity|]. split; [reflexivity|]. split; [discriminate|].
    intros _. apply loaded_saved.
  - split; [reflexivity|]. split; [exact E|]. split; [reflexivity | discriminate].
Qed.

(** [onBirthChanged] for a calendar date: the birthday is set, the file
    is written if it can be, and the rest is [updateClock]. *)
Lemma En_onBirthChanged_run y m d s w :
  valid_date (mkdate y m d) = true ->
  EnUI.onBirthChanged strftime y m d s w =
  EnUI.updateClock strftime
    (EnUI.mkMainWindow
       (EnUI.mode s) (mkdate y m d) (EnUI.timeLabel s) (EnUI.circle s) (EnUI.hourText s)
       (EnUI.dayText s) (EnUI.dayBar s) (EnUI.remainingLabel s) (EnUI.livedLabel s)
       (EnUI.milestoneLabel s) (EnUI.birthLabel s) (EnUI.birthEdit_hidden s)
       (EnUI.toggleBtn s))
    (snd (En.save_birthdate_to_config (mkdate y m d) w)).
Proof.
  intros Hv. unfold EnUI.onBirthChanged, sbind, call, modify.
  destruct (date_new_ints y m d w) as [e He]. rewrite Hv in He. rewrite He.
  destruct (saved_world (mkdate y m d) w) as (Hs & _). rewrite Hs. reflexivity.
Qed.

Lemma Release_onBirthdateChanged_run y m d s w :
  valid_date (mkdate y m d) = true ->
  ReleaseUI.onBirthdateChanged strftime y m d s w =
  ReleaseUI.updateClock strftime
    (ReleaseUI.mkMainWindow
       (ReleaseUI.mode s) (mkdate y m d) (ReleaseUI.timeLabel s) (ReleaseUI.circle s)
       (ReleaseUI.hourTextLabel s) (ReleaseUI.dayTextLabel s) (ReleaseUI.remainingLabel s)
       (ReleaseUI.dayBar s) (ReleaseUI.lifeLabel s) (ReleaseUI.nextHundredLabel s)
       (ReleaseUI.toggleButton s) (ReleaseUI.detailFrame_hidden s))
    (snd (En.save_birthdate_to_config (mkdate y m d) w)).
Proof.
  intros Hv. unfold ReleaseUI.onBirthdateChanged, sbind, call, modify.
  destruct (date_new_ints y m d w) as [e He]. rewrite Hv in He. rewrite He.
  destruct (saved_world (mkdate y m d) w) as (_ & Hs & _). rewrite Hs. reflexivity.
Qed.

(** The birthday a window starts with. *)
Lemma En_start_birthday_valid o :
  (forall bd, o = Some bd -> valid_date bd = true) ->
  valid_date (match o with Some bd => bd | None => mkdate 2001 11 14 end) = true.
Proof. intros H. destruct o as [bd|]; [apply H|]; reflexivity. Qed.

Lemma Release_start_birthday_valid o :
  (forall bd, o = Some bd -> valid_date bd = true) ->
  valid_date (match o with Some bd => bd | None => mkdate 2001 1 1 end) = true.
Proof. intros H. destruct o as [bd|]; [apply H|]; reflexivity. Qed.

Lemma En_init_run w :
  valid_datetime (clock w) = true ->
  let bd := match loaded (config w) (datetime_date (clock w)) with
            | Some bd => bd
            | None => mkdate 2001 11 14
            end in
  exists s,
    EnUI.__init__ strftime w = (Ok s, w) /\
    EnUI.updateClock strftime (EnUI.attributes bd) w = (Ok tt, s, w) /\
    EnUI.birthdate s = bd /\ EnUI.mode s = "detailed" /\ En_settled s = true.
Proof.
  intros Hw bd.
  assert (Hb : valid_date bd = true).
  { apply En_start_birthday_valid. intros b Hl. apply (loaded_valid _ _ _ Hl). }
  destruct (En_updateClock_settles (EnUI.attributes bd) w Hw Hb eq_refl eq_refl eq_refl)
    as (s & Hu & Hbd & Hm & Hs).
  exists s. unfold EnUI.__init__. rewrite load_birthdate_run. fold bd. rewrite Hu.
  repeat split; assumption.
Qed.

Lemma Release_init_run w :
  valid_datetime (clock w) = true ->
  let bd := match loaded (config w) (datetime_date (clock w)) with
            | Some bd => bd
            | None => mkdate 2001 1 1
            end in
  exists s,
    ReleaseUI.__init__ strftime w = (Ok s, w) /\
    ReleaseUI.updateClock strftime (ReleaseUI.attributes bd) w = (Ok tt, s, w) /\
    ReleaseUI.birthdate s = bd /\ ReleaseUI.mode s = "detailed" /\
    Release_settled s = true.
Proof.
  intros Hw bd.
  assert (Hb : valid_date bd = true).
  { apply Release_start_birthday_valid. intros b Hl. apply (loaded_valid _ _ _ Hl). }
  destruct (Release_updateClock_settles (ReleaseUI.attributes bd) w Hw Hb
              eq_refl eq_refl eq_refl) as (s & Hu & Hbd & Hm & Hs).
  exists s. unfold ReleaseUI.__init__. rewrite load_birthdate_same, load_birthdate_run.
  fold bd. rewrite Hu. repeat split; assumption.
Qed.

End WindowFacts.

Section LoopFacts.

Import Float Calendar Py Builtins Qt UI.

Variable strftime : string -> datetime -> string.

Lemma En_slot_settled t sg s w :
  En_settled s = true -> En_event_ok (t, sg) = true ->
  exists s' w',
    EnUI.slot strftime sg s (at_time t w) = (Ok tt, s', w') /\
    En_settled s' = true /\ writable w' = writable w /\ clock w' = t.
Proof.
  intros Hs He. apply En_settled_iff in Hs. destruct Hs as (Hb & (Hmin & Hmax & Hv) & Hc).
  unfold En_event_ok in He. cbn [fst snd] in He. apply andb_true_iff in He.
  destruct He as [Ht Hd].
  destruct sg as [| |y m d]; cbn [EnUI.slot].
  - destruct (En_updateClock_settles strftime s (at_time t w) Ht Hb Hmin Hmax Hc)
      as (s' & Hu & _ & _ & Hs').
    exists s', (at_time t w). split; [exact Hu|]. split; [exact Hs'|]. split; reflexivity.
  - destruct (En_toggleMode_coherent s (at_time t w)) as (s' & Hu & Hc' & Hb' & Hbar).
    exists s', (at_time t w). split; [exact Hu|]. split; [|split; reflexivity].
    apply En_settled_iff. rewrite Hb', Hbar. repeat split; try assumption; lia.
  - rewrite (En_onBirthChanged_run strftime y m d s _ Hd).
    destruct (saved_world (mkdate y m d) (at_time t w)) as (_ & _ & Hcl & Hwr & _).
    set (w1 := snd (En.save_birthdate_to_config (mkdate y m d) (at_time t w))) in *.
    assert (Ht1 : valid_datetime (clock w1) = true) by (rewrite Hcl; exact Ht).
    match goal with |- context [EnUI.updateClock strftime ?s0 w1] =>
      destruct (En_updateClock_settles strftime s0 w1 Ht1 Hd Hmin Hmax Hc)
        as (s' & Hu & _ & _ & Hs')
    end.
    exists s', w1. split; [exact Hu|]. split; [exact Hs'|].
    split; [exact Hwr | exact Hcl].
Qed.

Lemma Release_slot_settled t sg s w :
  Release_settled s = true -> Release_event_ok (t, sg) = true ->
  exists s' w',
    ReleaseUI.slot strftime sg s (at_time t w) = (Ok tt, s', w') /\
    Release_settled s' = true /\ writable w' = writable w /\ clock w' = t.
Proof.
  intros Hs He. apply Release_settled_iff in Hs.
  destruct Hs as (Hb & (Hmin & Hmax & Hv) & Hc).
  unfold Release_event_ok in He. cbn [fst snd] in He. apply andb_true_iff in He.
  destruct He as [Ht Hd].
  destruct sg as [| |y m d]; cbn [ReleaseUI.slot].
  - destruct (Release_updateClock_settles strftime s (at_time t w) Ht Hb Hmin Hmax Hc)
      as (s' & Hu & _ & _ & Hs').
    exists s', (at_time t w). split; [exact Hu|]. split; [exact Hs'|]. split; reflexivity.
  - destruct (Release_toggleMode_coherent s (at_time t w)) as (s' & Hu & Hc' & Hb' & Hbar).
    exists s', (at_time t w). split; [exact Hu|]. split; [|split; reflexivity].
    apply Release_settled_iff. rewrite Hb', Hbar. repeat split; try assumption; lia.
  - rewrite (Release_onBirthdateChanged_run strftime y m d s _ Hd).
    destruct (saved_world (mkdate y m d) (at_time t w)) as (_ & _ & Hcl & Hwr & _).
    set (w1 := snd (En.save_birthdate_to_config (mkdate y m d) (at_time t w))) in *.
    assert (Ht1 : valid_datetime (clock w1) = true) by (rewrite Hcl; exact Ht).
    match goal with |- context [ReleaseUI.updateClock strftime ?s0 w1] =>
      destruct (Release_updateClock_settles strftime s0 w1 Ht1 Hd Hmin Hmax Hc)
        as (s' & Hu & _ & _ & Hs')
    end.
    exists s', w1. split; [exact Hu|]. split; [exact Hs'|].
    split; [exact Hwr | exact Hcl].
Qed.

Lemma En_exec_settled events : forall s w,
  En_settled s = true -> forallb En_event_ok events = true ->
  exists rs s' w',
    EnUI.exec strftime events s w = (rs, s', w') /\
    length rs = length events /\ forallb is_Ok rs = true /\
    En_settled s' = true /\ writable w' = writable w.
Proof.
  induction events as [|[t sg] events IH]; intros s w Hs Hev.
  - exists [], s, w. repeat split; assumption.
  - cbn [forallb] in Hev. apply andb_true_iff in Hev. destruct Hev as [He Hev].
    destruct (En_slot_settled t sg s w Hs He) as (s1 & w1 & Hu & Hs1 & Hw1 & _).
    destruct (IH s1 w1 Hs1 Hev) as (rs & s2 & w2 & Hx & Hl & Hok & Hs2 & Hw2).
    exists (Ok tt :: rs), s2, w2. cbn [EnUI.exec]. rewrite Hu, Hx.
    split; [reflexivity|]. split; [cbn [length]; rewrite Hl; reflexivity|].
    split; [exact Hok|]. split; [exact Hs2 | congruence].
Qed.

Lemma Release_exec_settled events : forall s w,
  Release_settled s = true -> forallb Release_event_ok events = true ->
  exists rs s' w',
    ReleaseUI.exec strftime events s w = (rs, s', w') /\
    length rs = length events /\ forallb is_Ok rs = true /\
    Release_settled s' = true /\ writable w' = writable w.
Proof.
  induction events as [|[t sg] events IH]; intros s w Hs Hev.
  - exists [], s, w. repeat split; assumption.
  - cbn [forallb] in Hev. apply andb_true_iff in Hev. destruct Hev as [He Hev].
    destruct (Release_slot_settled t sg s w Hs He) as (s1 & w1 & Hu & Hs1 & Hw1 & _).
    destruct (IH s1 w1 Hs1 Hev) as (rs & s2 & w2 & Hx & Hl & Hok & Hs2 & Hw2).
    exists (Ok tt :: rs), s2, w2. cbn [ReleaseUI.exec]. rewrite Hu, Hx.
    split; [reflexivity|]. split; [cbn [length]; rewrite Hl; reflexivity|].
    split; [exact Hok|]. split; [exact Hs2 | congruence].
Qed.

End LoopFacts.

Section WindowProperties.

Import Float Calendar Py Builtins Qt UI.

Variable strftime : string -> datetime -> string.

(** X19: [toggleMode] never raises and touches neither the file system
    nor anything the window displays about the time or the birthday.
    Whatever the window was like, afterwards the mode, the visibility of
    the detail widgets and the button text go together, and the window is
    in its reduced mode exactly when it was in detailed mode before. *)
Theorem toggleMode_flips s1 s2 w :
  exists s1' s2',
    EnUI.toggleMode s1 w = (Ok tt, s1', w) /\
    ReleaseUI.toggleMode s2 w = (Ok tt, s2', w) /\
    En_mode_coherent s1' = true /\ Release_mode_coherent s2' = true /\
    (EnUI.mode s1' = "compact" <-> EnUI.mode s1 = "detailed") /\
    (ReleaseUI.mode s2' = "simple" <-> ReleaseUI.mode s2 = "detailed") /\
    (EnUI.birthdate s1' = EnUI.birthdate s1 /\ EnUI.timeLabel s1' = EnUI.timeLabel s1 /\
     EnUI.circle s1' = EnUI.circle s1 /\ EnUI.hourText s1' = EnUI.hourText s1 /\
     EnUI.dayText s1' = EnUI.dayText s1 /\ EnUI.dayBar s1' = EnUI.dayBar s1 /\
     text (EnUI.remainingLabel s1') = text (EnUI.remainingLabel s1) /\
     text (EnUI.livedLabel s1') = text (EnUI.livedLabel s1) /\
     text (EnUI.milestoneLabel s1') = text (EnUI.milestoneLabel s1) /\
     text (EnUI.birthLabel s1') = text (EnUI.birthLabel s1)) /\
    (ReleaseUI.birthdate s2' = ReleaseUI.birthdate s2 /\
     ReleaseUI.timeLabel s2' = ReleaseUI.timeLabel s2 /\
     ReleaseUI.circle s2' = ReleaseUI.circle s2 /\
     ReleaseUI.hourTextLabel s2' = ReleaseUI.hourTextLabel s2 /\
     ReleaseUI.dayTextLabel s2' = ReleaseUI.dayTextLabel s2 /\
     ReleaseUI.remainingLabel s2' = ReleaseUI.remainingLabel s2 /\
     ReleaseUI.dayBar s2' = ReleaseUI.dayBar s2 /\
     ReleaseUI.lifeLabel s2' = ReleaseUI.lifeLabel s2 /\
     ReleaseUI.nextHundredLabel s2' = ReleaseUI.nextHundredLabel s2).
Proof.
  eexists. eexists.
  split; [apply En_toggleMode_run|]. split; [apply Release_toggleMode_run|].
  destruct (String.eqb_spec (EnUI.mode s1) "detailed") as [E1|E1];
    destruct (String.eqb_spec (ReleaseUI.mode s2) "detailed") as [E2|E2];
    cbn [EnUI.mode ReleaseUI.mode];
    (split; [reflexivity|]); (split; [reflexivity|]).
  - split; [split; [intros _; exact E1 | reflexivity]|].
    split; [split; [intros _; exact E2 | reflexivity]|]. repeat split.
  - split; [split; [intros _; exact E1 | reflexivity]|].
    split; [split; [discriminate | intros H; destruct (E2 H)]|]. repeat split.
  - split; [split; [discriminate | intros H; destruct (E1 H)]|].
    split; [split; [intros _; exact E2 | reflexivity]|]. repeat split.
  - split; [split; [discriminate | intros H; destruct (E1 H)]|].
    split; [split; [discriminate | intros H; destruct (E2 H)]|]. repeat split.
Qed.

(** X20: on a window whose mode, visibility and button text go together,
    as in every window that [__init__] built, two calls of [toggleMode]
    give back the window as it was, in both editions. *)
Theorem toggleMode_twice_restores s1 s2 w :
  En_mode_coherent s1 = true -> Release_mode_coherent s2 = true ->
  exists s1' s2',
    EnUI.toggleMode s1 w = (Ok tt, s1', w) /\
    EnUI.toggleMode s1' w = (Ok tt, s1, w) /\
    ReleaseUI.toggleMode s2 w = (Ok tt, s2', w) /\
    ReleaseUI.toggleMode s2' w = (Ok tt, s2, w).
Proof.
  intros H1 H2. eexists. eexists.
  split; [apply En_toggleMode_run|].
  split; [rewrite En_toggleMode_run|split; [apply Release_toggleMode_run|
                                           rewrite Release_toggleMode_run]].
  - unfold En_mode_coherent in H1. cbv zeta in H1.
    destruct s1 as [md bd tl ci ht dt db [rt rh] [lt lh] [mt mh] [bt bh] eh btn].
    cbn [EnUI.mode EnUI.birthdate EnUI.timeLabel EnUI.circle EnUI.hourText EnUI.dayText
         EnUI.dayBar EnUI.remainingLabel EnUI.livedLabel EnUI.milestoneLabel
         EnUI.birthLabel EnUI.birthEdit_hidden EnUI.toggleBtn hidden text hide show]
      in H1 |- *.
    destruct (String.eqb md "detailed") eqn:E.
    + rewrite !andb_true_iff, !eqb_true_iff, String.eqb_eq in H1.
      destruct H1 as (((((-> & ->) & ->) & ->) & ->) & ->).
      apply String.eqb_eq in E. subst md. reflexivity.
    + rewrite !andb_true_iff, !eqb_true_iff, !String.eqb_eq in H1.
      destruct H1 as ((-> & ((((-> & ->) & ->) & ->) & ->)) & ->). reflexivity.
  - unfold Release_mode_coherent in H2.
    destruct s2 as [md bd tl ci ht dt rl db ll nl btn fh].
    cbn [ReleaseUI.mode ReleaseUI.birthdate ReleaseUI.timeLabel ReleaseUI.circle
         ReleaseUI.hourTextLabel ReleaseUI.dayTextLabel ReleaseUI.remainingLabel
         ReleaseUI.dayBar ReleaseUI.lifeLabel ReleaseUI.nextHundredLabel
         ReleaseUI.toggleButton ReleaseUI.detailFrame_hidden] in H2 |- *.
    destruct (String.eqb md "detailed") eqn:E.
    + rewrite !andb_true_iff, negb_true_iff, String.eqb_eq in H2.
      destruct H2 as (-> & ->). apply String.eqb_eq in E. subst md. reflexivity.
    + rewrite !andb_true_iff, !String.eqb_eq in H2.
      destruct H2 as ((-> & ->) & ->). reflexivity.
Qed.



(** X23: [onBirthChanged] and [onBirthdateChanged] with a year, month and
    day that do not form a calendar date raise the exception of the
    [date] constructor before anything is changed: window and file system
    are as they were. *)
Theorem invalid_birthday_changes_nothing y m d s1 s2 w :
  valid_date (mkdate y m d) = false ->
  exists e,
    EnUI.onBirthChanged strftime y m d s1 w = (Err (PyError e), s1, w) /\
    ReleaseUI.onBirthdateChanged strftime y m d s2 w = (Err (PyError e), s2, w).
Proof.
  intros Hv. destruct (date_new_ints y m d w) as [e He]. rewrite Hv in He.
  exists e. unfold EnUI.onBirthChanged, ReleaseUI.onBirthdateChanged, sbind, call.
  rewrite He. split; reflexivity.
Qed.

(** X24: [MainWindow()] never raises, whatever the configuration file
    holds, and leaves the file system as it was.  The window's birthday
    is the date the loader returns, or else 2001-11-14 in the English
    edition and 2001-01-01 in the release edition, so that the two
    editions start with the same birthday exactly when the loader
    returns a date; both windows start settled: detailed mode, nothing
    hidden, a calendar date as birthday, and a bar value in use. *)
Theorem window_starts_settled w :
  valid_datetime (clock w) = true ->
  exists o s1 s2,
    En.load_birthdate_from_config w = (Return o, w) /\
    EnUI.__init__ strftime w = (Ok s1, w) /\
    ReleaseUI.__init__ strftime w = (Ok s2, w) /\
    EnUI.birthdate s1 = match o with Some bd => bd | None => mkdate 2001 11 14 end /\
    ReleaseUI.birthdate s2 = match o with Some bd => bd | None => mkdate 2001 1 1 end /\
    (EnUI.birthdate s1 = ReleaseUI.birthdate s2 <-> o <> None) /\
    En_settled s1 = true /\ Release_settled s2 = true /\
    EnUI.mode s1 = "detailed" /\ ReleaseUI.mode s2 = "detailed".
Proof.
  intros Hw.
  destruct (En_init_run strftime w Hw) as (s1 & Hi1 & _ & Hb1 & Hm1 & Hs1).
  destruct (Release_init_run strftime w Hw) as (s2 & Hi2 & _ & Hb2 & Hm2 & Hs2).
  cbv zeta in *.
  exists (loaded (config w) (datetime_date (clock w))), s1, s2.
  split; [apply load_birthdate_run|]. split; [exact Hi1|]. split; [exact Hi2|].
  split; [exact Hb1|]. split; [exact Hb2|].
  split.
  { rewrite Hb1, Hb2. destruct (loaded _ _) as [bd|].
    - split; [discriminate | reflexivity].
    - split; [discriminate | intros H; exfalso; apply H; reflexivity]. }
  repeat split; assumption.
Qed.

(** X25: the English edition's [main] keeps its window settled.  For any
    sequence of timer ticks, button clicks and date changes, each at a
    valid time and each date change with a calendar date, the window is
    built, every slot returns without raising, and the final window has
    a calendar date as birthday, a bar value between 0 and 9999 on the
    range (0, 10000), and mode, visibility and button text that go
    together; the write permission of the file is never changed. *)
Theorem En_main_keeps_window_settled events w :
  valid_datetime (clock w) = true ->
  forallb En_event_ok events = true ->
  exists rs s w',
    EnUI.main strftime events w = (Some (rs, s), w') /\
    length rs = length events /\ forallb is_Ok rs = true /\
    En_settled s = true /\ writable w' = writable w.
Proof.
  intros Hw Hev.
  destruct (En_init_run strftime w Hw) as (s0 & Hi & _ & _ & _ & Hs0).
  destruct (En_exec_settled strftime events s0 w Hs0 Hev)
    as (rs & s & w' & Hx & Hl & Hok & Hs & Hwr).
  exists rs, s, w'. unfold EnUI.main. rewrite Hi, Hx. repeat split; assumption.
Qed.

(** X26: the release edition's [main] keeps its window settled, in the
    same sense and under the same conditions. *)
Theorem Release_main_keeps_window_settled events w :
  valid_datetime (clock w) = true ->
  forallb Release_event_ok events = true ->
  exists rs s w',
    ReleaseUI.main strftime events w = (Some (rs, s), w') /\
    length rs = length events /\ forallb is_Ok rs = true /\
    Release_settled s = true /\ writable w' = writable w.
Proof.
  intros Hw Hev.
  destruct (Release_init_run strftime w Hw) as (s0 & Hi & _ & _ & _ & Hs0).
  destruct (Release_exec_settled strftime events s0 w Hs0 Hev)
    as (rs & s & w' & Hx & Hl & Hok & Hs & Hwr).
  exists rs, s, w'. unfold ReleaseUI.main. rewrite Hi, Hx. repeat split; assumption.
Qed.

End WindowProperties.

Section WindowRuns.

Import Float Calendar Py Builtins Qt UI.

Lemma hour_label_reads_100_witness :
  valid_datetime (clock end_of_hour_world) = true /\
  exists s1',
    EnUI.updateClock strftime_id (EnUI.attributes scenario_birthdate) end_of_hour_world
      = (Ok tt, s1', end_of_hour_world) /\
    text (EnUI.hourText s1') = "Hour Progress: 100.00%".
Proof.
  split; [reflexivity|].
  destruct (hour_label_reads_100 strftime_id (EnUI.attributes scenario_birthdate)
              (ReleaseUI.attributes scenario_birthdate) end_of_hour_world
              eq_refl eq_refl eq_refl) as (s1' & s2' & H1 & _ & [_ Hiff] & _).
  exists s1'. split; [exact H1|]. apply Hiff. vm_compute. discriminate.
Defined.

Lemma day_label_reads_100_witness :
  valid_datetime (clock end_of_day_world) = true /\
  exists s2',
    ReleaseUI.updateClock strftime_id (ReleaseUI.attributes scenario_birthdate)
      end_of_day_world = (Ok tt, s2', end_of_day_world) /\
    text (ReleaseUI.dayTextLabel s2') = "Day:  100.00%".
Proof.
  split; [reflexivity|].
  destruct (day_label_reads_100 strftime_id (EnUI.attributes scenario_birthdate)
              (ReleaseUI.attributes scenario_birthdate) end_of_day_world
              eq_refl eq_refl eq_refl) as (s1' & s2' & _ & H2 & _ & [_ Hiff]).
  exists s2'. split; [exact H2|]. apply Hiff. vm_compute. discriminate.
Defined.

Lemma ring_holds_calculated_percentages_witness :
  16 < Z.min 240 240 /\
  exists r s1',
    En.compute_time_stats scenario_birthdate scenario_world = (Return r, scenario_world) /\
    EnUI.updateClock strftime_id (EnUI.attributes scenario_birthdate) scenario_world
      = (Ok tt, s1', scenario_world) /\
    EnUI._hour_percent (EnUI.circle s1') = hour_pct r.
Proof.
  split; [reflexivity|].
  destruct (ring_holds_calculated_percentages strftime_id
              (EnUI.attributes scenario_birthdate)
              (ReleaseUI.attributes scenario_birthdate) scenario_world 240 240
              eq_refl eq_refl eq_refl eq_refl)
    as (r & s1' & s2' & Hr & H1 & _ & Hh & _).
  exists r, s1'. split; [exact Hr|]. split; [exact H1 | exact Hh].
Defined.

Lemma rings_never_close_witness :
  exists s1',
    EnUI.updateClock strftime_id (EnUI.attributes scenario_birthdate) end_of_day_world
      = (Ok tt, s1', end_of_day_world) /\
    Forall (fun '(r, a, s) => a = 1440 /\ -5759 <= s <= 0)
      (drawn_arcs (EnUI.paintEvent (EnUI.circle s1') 240 240)).
Proof.
  destruct (rings_never_close strftime_id (EnUI.attributes scenario_birthdate)
              (ReleaseUI.attributes scenario_birthdate) end_of_day_world 240 240
              eq_refl eq_refl eq_refl) as (s1' & s2' & H1 & _ & Ha & _).
  exists s1'. split; [exact H1 | exact Ha].
Defined.

Lemma day_count_labels_witness :
  exists s1',
    EnUI.updateClock strftime_id (EnUI.attributes scenario_birthdate) scenario_world
      = (Ok tt, s1', scenario_world) /\
    text (EnUI.livedLabel s1') = "Days Alive: 29" /\
    text (EnUI.milestoneLabel s1') = "Next 100-Day Milestone: 71 days left".
Proof.
  destruct (day_count_labels strftime_id (EnUI.attributes scenario_birthdate)
              (ReleaseUI.attributes scenario_birthdate) scenario_world
              eq_refl eq_refl eq_refl) as (s1' & s2' & H1 & _ & Hl & Hm & _).
  exists s1'. split; [exact H1|]. split; [exact Hl | exact Hm].
Defined.

Lemma toggleMode_twice_restores_witness :
  En_mode_coherent (EnUI.attributes scenario_birthdate) = true /\
  exists s1',
    EnUI.toggleMode (EnUI.attributes scenario_birthdate) scenario_world
      = (Ok tt, s1', scenario_world) /\
    EnUI.toggleMode s1' scenario_world
      = (Ok tt, EnUI.attributes scenario_birthdate, scenario_world).
Proof.
  split; [reflexivity|].
  destruct (toggleMode_twice_restores (EnUI.attributes scenario_birthdate)
              (ReleaseUI.attributes scenario_birthdate) scenario_world
              eq_refl eq_refl) as (s1' & s2' & H1 & H2 & _).
  exists s1'. split; [exact H1 | exact H2].
Defined.



Lemma invalid_birthday_changes_nothing_witness :
  valid_date (mkdate 2023 2 29) = false /\
  exists e,
    EnUI.onBirthChanged strftime_id 2023 2 29 (EnUI.attributes scenario_birthdate)
      scenario_world
    = (Err (PyError e), EnUI.attributes scenario_birthdate, scenario_world).
Proof.
  split; [reflexivity|].
  destruct (invalid_birthday_changes_nothing strftime_id 2023 2 29
              (EnUI.attributes scenario_birthdate)
              (ReleaseUI.attributes scenario_birthdate) scenario_world eq_refl)
    as (e & H1 & _).
  exists e. exact H1.
Defined.

Lemma window_starts_settled_witness :
  valid_datetime (clock scenario_world) = true /\
  exists s1 s2,
    EnUI.__init__ strftime_id scenario_world = (Ok s1, scenario_world) /\
    ReleaseUI.__init__ strftime_id scenario_world = (Ok s2, scenario_world) /\
    En_settled s1 = true /\ Release_settled s2 = true.
Proof.
  split; [reflexivity|].
  destruct (window_starts_settled strftime_id scenario_world eq_refl)
    as (o & s1 & s2 & _ & H1 & H2 & _ & _ & _ & Hs1 & Hs2 & _).
  exists s1, s2. split; [exact H1|]. split; [exact H2|]. split; [exact Hs1 | exact Hs2].
Defined.

Lemma En_main_keeps_window_settled_witness :
  exists rs s w',
    EnUI.main strftime_id
      [(mkdatetime 2024 3 1 12 30 1 0, EnUI.timeout);
       (mkdatetime 2024 3 1 12 30 2 0, EnUI.clicked);
       (mkdatetime 2024 3 1 12 30 3 0, EnUI.dateChanged 2000 2 29)]
      scenario_world = (Some (rs, s), w') /\
    forallb is_Ok rs = true /\ En_settled s = true.
Proof.
  destruct (En_main_keeps_window_settled strftime_id
              [(mkdatetime 2024 3 1 12 30 1 0, EnUI.timeout);
               (mkdatetime 2024 3 1 12 30 2 0, EnUI.clicked);
               (mkdatetime 2024 3 1 12 30 3 0, EnUI.dateChanged 2000 2 29)]
              scenario_world eq_refl eq_refl)
    as (rs & s & w' & Hm & _ & Hok & Hs & _).
  exists rs, s, w'. split; [exact Hm|]. split; [exact Hok | exact Hs].
Defined.

Lemma Release_main_keeps_window_settled_witness :
  exists rs s w',
    ReleaseUI.main strftime_id
      [(mkdatetime 2024 3 1 12 30 1 0, ReleaseUI.timeout);
       (mkdatetime 2024 3 1 12 30 2 0, ReleaseUI.clicked);
       (mkdatetime 2024 3 1 12 30 3 0, ReleaseUI.dateChanged 2000 2 29)]
      scenario_world = (Some (rs, s), w') /\
    forallb is_Ok rs = true /\ Release_settled s = true.
Proof.
  destruct (Release_main_keeps_window_settled strftime_id
              [(mkdatetime 2024 3 1 12 30 1 0, ReleaseUI.timeout);
               (mkdatetime 2024 3 1 12 30 2 0, ReleaseUI.clicked);
               (mkdatetime 2024 3 1 12 30 3 0, ReleaseUI.dateChanged 2000 2 29)]
              scenario_world eq_refl eq_refl)
    as (rs & s & w' & Hm & _ & Hok & Hs & _).
  exists rs, s, w'. split; [exact Hm|]. split; [exact Hok | exact Hs].
Defined.

End WindowRuns.
